(** * scripts/generate_spx_daily.py: the feature derivation pipeline

    A shallow embedding of the indicator library and of the feature
    assembler of [generate_spx_daily.py], and the properties of the
    specification that were checked against it.

    Numbers.  The script computes on IEEE doubles held in pandas Series.
    They are modelled by [float]: an exact rational, one of the two
    infinities, or NaN (pandas' "missing").  Rounding and the sign of zero
    are not modelled; comparisons, NaN propagation and division by zero
    follow IEEE 754, which is what the properties below depend on. *)

From Stdlib Require Import ZArith QArith Qabs Qround Bool List String Ascii Lia Lqa.
Import ListNotations.
Open Scope string_scope.
Open Scope list_scope.
Open Scope Z_scope.

(** ** Floating-point values *)

Inductive float : Type :=
| Fin (q : Q)
| PInf
| NInf
| NaN.

Module F.

Definition isna (x : float) : bool :=
  match x with NaN => true | _ => false end.

Definition notna (x : float) : bool := negb (isna x).

(** [x < y], [x <= y], [x == y]: false as soon as one side is NaN. *)
Definition ltb (x y : float) : bool :=
  match x, y with
  | NaN, _ | _, NaN => false
  | Fin a, Fin b => negb (Qle_bool b a)
  | NInf, NInf => false
  | NInf, _ => true
  | _, PInf => match x with PInf => false | _ => true end
  | _, _ => false
  end.

Definition eqb (x y : float) : bool :=
  match x, y with
  | Fin a, Fin b => Qeq_bool a b
  | PInf, PInf | NInf, NInf => true
  | _, _ => false
  end.

Definition leb (x y : float) : bool := ltb x y || eqb x y.
Definition gtb (x y : float) : bool := ltb y x.
Definition geb (x y : float) : bool := leb y x.

Definition neg (x : float) : float :=
  match x with
  | Fin a => Fin (- a)
  | PInf => NInf
  | NInf => PInf
  | NaN => NaN
  end.

Definition add (x y : float) : float :=
  match x, y with
  | NaN, _ | _, NaN => NaN
  | Fin a, Fin b => Fin (a + b)
  | PInf, NInf | NInf, PInf => NaN
  | PInf, _ | _, PInf => PInf
  | NInf, _ | _, NInf => NInf
  end.

Definition sub (x y : float) : float := add x (neg y).

(** The sign of a rational as -1, 0 or 1. *)
Definition Qsgn (a : Q) : Z := Z.sgn (Qnum a).

(** An infinity of the given sign; sign 0 (from [inf * 0]) is NaN. *)
Definition inf_of_sign (s : Z) : float :=
  match s with
  | Zpos _ => PInf
  | Zneg _ => NInf
  | Z0 => NaN
  end.

Definition sgn (x : float) : Z :=
  match x with
  | Fin a => Qsgn a
  | PInf => 1
  | NInf => -1
  | NaN => 0
  end.

Definition mul (x y : float) : float :=
  match x, y with
  | NaN, _ | _, NaN => NaN
  | Fin a, Fin b => Fin (a * b)
  | _, _ => inf_of_sign (sgn x * sgn y)
  end.

(** [x / y]: a finite non-zero value over zero is an infinity, [0/0] and
    [inf/inf] are NaN, a finite value over an infinity is zero. *)
Definition div (x y : float) : float :=
  match x, y with
  | NaN, _ | _, NaN => NaN
  | Fin a, Fin b =>
      if Qeq_bool b 0 then inf_of_sign (Qsgn a) else Fin (a / b)
  | Fin _, _ => Fin 0
  | _, Fin b => inf_of_sign (sgn x * (if Qeq_bool b 0 then 1 else Qsgn b))
  | _, _ => NaN
  end.

Definition abs (x : float) : float :=
  match x with
  | Fin a => Fin (Qabs a)
  | PInf | NInf => PInf
  | NaN => NaN
  end.

Definition of_Z (z : Z) : float := Fin (inject_Z z).

End F.

Declare Scope float_scope.
Delimit Scope float_scope with F.
Bind Scope float_scope with float.
Infix "+" := F.add : float_scope.
Infix "-" := F.sub : float_scope.
Infix "*" := F.mul : float_scope.
Infix "/" := F.div : float_scope.
Infix "<?" := F.ltb : float_scope.
Infix "<=?" := F.leb : float_scope.
Infix ">?" := F.gtb : float_scope.
Infix ">=?" := F.geb : float_scope.
Notation "- x" := (F.neg x) : float_scope.

(** A pandas Series over the run's calendar: one value per row, in order. *)
Definition series := list float.

(** A numeric literal of the script. *)
Definition lit (z : Z) : float := F.of_Z z.

(** ** Indicator library *)

(** *** [consec]: the running streak of same-signed returns *)

(** One turn of the loop body of [consec]. *)
Definition consec_step (streak : Z) (r : float) : Z :=
  if F.isna r then 0
  else if (r >? lit 0)%F then Z.max (streak + 1) 1
  else if (r <? lit 0)%F then Z.min (streak - 1) (-1)
  else 0.

(** The loop of [consec], started with the given streak: [res] collects the
    streak after each return. *)
Fixpoint consec_from (streak : Z) (ret : series) : list Z :=
  match ret with
  | [] => []
  | r :: rest =>
      let streak' := consec_step streak r in
      streak' :: consec_from streak' rest
  end.

Definition consec (ret : series) : list Z := consec_from 0 ret.

(** *** [term_state]: the term-structure classifier *)

(** Row-wise: the Series starts at 0, the first mask writes 1, the second
    mask then writes -1. *)
Definition term_state1 (r9d rvx3m : float) : Z :=
  let s := 0 in
  let s := if (r9d <=? lit 1)%F && (rvx3m <=? lit 1)%F then 1 else s in
  let s := if (r9d >? lit 1)%F && (rvx3m >? lit 1)%F then -1 else s in
  s.

(** The index of the result is that of [r9d]; a row that [rvx3m] lacks
    compares as missing. *)
Fixpoint term_state (r9d rvx3m : series) : list Z :=
  match r9d with
  | [] => []
  | a :: r9d' =>
      term_state1 a (hd NaN rvx3m) :: term_state r9d' (tl rvx3m)
  end.

(** *** [vol_regime]: [pd.cut] over fixed breakpoints *)

Definition vol_bins : list float :=
  [NInf; lit 12; lit 15; lit 20; lit 25; lit 35; PInf].

Definition vol_labels : list Z := [1; 2; 3; 4; 5; 6].

(** [bins.searchsorted(x, side="left")]: the number of bins strictly below
    [x] (the bins are increasing). *)
Fixpoint searchsorted_left (bins : list float) (x : float) : nat :=
  match bins with
  | [] => O
  | b :: bins' =>
      if (b <? x)%F then S (searchsorted_left bins' x) else O
  end.

(** [pd.cut(x, bins, labels)] with the defaults [right=True],
    [include_lowest=False]: bin [i] is the interval [(bins[i-1], bins[i]]];
    a value outside every interval, or a missing one, has no label. *)
Definition cut1 (bins : list float) (labels : list Z) (x : float) : option Z :=
  let ids := searchsorted_left bins x in
  if F.isna x || Nat.eqb ids (List.length bins) || Nat.eqb ids 0 then None
  else nth_error labels (Nat.pred ids).

(** [.astype(float).astype("Int64")] keeps each label and keeps a missing
    one missing ([<NA>]). *)
Definition vol_regime1 (v : float) : option Z := cut1 vol_bins vol_labels v.

Definition vol_regime (v : series) : list (option Z) := map vol_regime1 v.

(** *** The [Gap_Filled] expression of [build] *)

Definition bool_to_int (b : bool) : Z := if b then 1 else 0.

(** [((Gap_Pct>0)&(low<=Prior_Close)|(Gap_Pct<0)&(high>=Prior_Close)).astype(int)];
    [&] binds tighter than [|]. *)
Definition gap_filled1 (gap_pct low high prior_close : float) : Z :=
  bool_to_int
    ((gap_pct >? lit 0)%F && (low <=? prior_close)%F
     || (gap_pct <? lit 0)%F && (high >=? prior_close)%F).

(** ** Series operations of pandas used by the script

    Every Series of a run has the same index (the index calendar), so
    index alignment of two Series is positional. *)

Definition zip_with {A B C} (f : A -> B -> C) (a : list A) (b : list B) : list C :=
  map (fun p => f (fst p) (snd p)) (combine a b).

(** [s.shift(k)] for [k >= 0]. *)
Definition shift (k : nat) (s : series) : series :=
  firstn (List.length s) (repeat NaN k ++ s).

(** [s.diff(k)] is [s - s.shift(k)]. *)
Definition diff (k : nat) (s : series) : series :=
  zip_with F.sub s (shift k s).

(** [s.clip(lower=lo)] and [s.clip(upper=hi)]; NaN stays NaN. *)
Definition clip_lower (lo : float) (s : series) : series :=
  map (fun x => if (x <? lo)%F then lo else x) s.

Definition clip_upper (hi : float) (s : series) : series :=
  map (fun x => if (x >? hi)%F then hi else x) s.

Definition clip (lo hi : float) (s : series) : series :=
  clip_upper hi (clip_lower lo s).

(** [s.replace(a, b)]. *)
Definition replace (a b : float) (s : series) : series :=
  map (fun x => if F.eqb x a then b else x) s.

(** *** Window preparation

    Rolling and exponentially weighted windows work on a copy of the values
    in which an infinite value is replaced by a missing one. *)
Definition prep_values (s : series) : series :=
  map (fun x => match x with PInf | NInf => NaN | _ => x end) s.

(** *** Exponentially weighted mean

    [s.ewm(..., adjust=adjust, min_periods=minp).mean()] with pandas'
    default [ignore_na=False], as pandas' loop computes it.  The state is
    the running mean, the weight of the history, and the number of
    observations seen. *)

Record ewm_state : Type := mk_ewm {
  weighted : float;
  old_wt : float;
  nobs : nat
}.

Definition ewm_out (minp : nat) (st : ewm_state) : float :=
  if Nat.leb minp (nobs st) then weighted st else NaN.

Definition ewm_init (v0 : float) : ewm_state :=
  mk_ewm v0 (lit 1) (if F.notna v0 then 1%nat else 0%nat).

Definition ewm_step (alpha : Q) (adjust : bool) (st : ewm_state) (cur : float)
  : ewm_state :=
  let old_wt_factor := Fin (1 - alpha) in
  let new_wt := if adjust then lit 1 else Fin alpha in
  let is_observation := F.notna cur in
  let nobs' := if is_observation then S (nobs st) else nobs st in
  if F.notna (weighted st) then
    let old_wt1 := (old_wt st * old_wt_factor)%F in
    if is_observation then
      (* [if not adjust and com == 1: new_wt = 1. - old_wt] *)
      let new_wt :=
        if negb adjust && Qeq_bool alpha (1 # 2) then (lit 1 - old_wt1)%F
        else new_wt in
      let weighted' :=
        if negb (F.eqb (weighted st) cur)
        then ((old_wt1 * weighted st + new_wt * cur) / (old_wt1 + new_wt))%F
        else weighted st in
      let old_wt2 := if adjust then (old_wt1 + new_wt)%F else lit 1 in
      mk_ewm weighted' old_wt2 nobs'
    else mk_ewm (weighted st) old_wt1 nobs'
  else if is_observation then mk_ewm cur (old_wt st) nobs'
  else mk_ewm (weighted st) (old_wt st) nobs'.

Fixpoint ewm_loop (alpha : Q) (adjust : bool) (minp : nat)
    (st : ewm_state) (vals : series) : series :=
  match vals with
  | [] => []
  | cur :: rest =>
      let st' := ewm_step alpha adjust st cur in
      ewm_out minp st' :: ewm_loop alpha adjust minp st' rest
  end.

(** The loop over prepared values. *)
Definition ewm_core (alpha : Q) (adjust : bool) (minp : nat) (vals : series)
  : series :=
  match vals with
  | [] => []
  | v0 :: rest =>
      let st := ewm_init v0 in
      ewm_out minp st :: ewm_loop alpha adjust minp st rest
  end.

Definition ewm_mean (alpha : Q) (adjust : bool) (minp : nat) (vals : series)
  : series :=
  ewm_core alpha adjust minp (prep_values vals).

(** [ewm(com=c)] has [alpha = 1/(1+c)]; [ewm(span=n)] has [alpha = 2/(n+1)].
    Without [min_periods], one observation is enough. *)
Definition alpha_of_com (c : Z) : Q := 1 / inject_Z (1 + c).
Definition alpha_of_span (n : Z) : Q := 2 / inject_Z (n + 1).

(** *** Rolling windows *)

(** The window of (at most) [w] values ending at position [i]. *)
Definition window (w : nat) (s : series) (i : nat) : series :=
  skipn (S i - w) (firstn (S i) s).

Definition fsum (l : series) : float := fold_left F.add l (lit 0).

Definition count_obs (l : series) : nat :=
  List.length (filter F.notna l).

(** [s.rolling(w).mean()]: [min_periods] defaults to [w]; the mean is over
    the observations of the window. *)
Definition rolling_mean (w : nat) (s : series) : series :=
  let s := prep_values s in
  map (fun i =>
         let obs := filter F.notna (window w s i) in
         if Nat.leb w (List.length obs)
         then (fsum obs / lit (Z.of_nat (List.length obs)))%F
         else NaN)
      (seq 0 (List.length s)).

(** [s.rolling(w, min_periods=minp).rank(pct=True)]: the average rank of the
    current value among the observations of its window, over their number. *)
Definition rolling_rank_pct (w minp : nat) (s : series) : series :=
  let s := prep_values s in
  map (fun i =>
         let cur := nth i s NaN in
         let obs := filter F.notna (window w s i) in
         let n := List.length obs in
         if F.isna cur || negb (Nat.leb minp n) then NaN
         else
           let less := List.length (filter (fun x => (x <? cur)%F) obs) in
           let same := List.length (filter (fun x => F.eqb x cur) obs) in
           (Fin (inject_Z (2 * Z.of_nat less + Z.of_nat same + 1) / 2)
            / lit (Z.of_nat n))%F)
      (seq 0 (List.length s)).

(** [s.ffill()]: a missing value takes the last observation before it. *)
Fixpoint ffill_from (last : float) (s : series) : series :=
  match s with
  | [] => []
  | x :: rest =>
      let v := if F.isna x then last else x in
      v :: ffill_from v rest
  end.

(** [s.pct_change(k)]: [s / s.shift(k) - 1].  Up to pandas 2 the Series is
    forward-filled first ([fill_method="pad"]); pandas 3 does not fill.
    [pad] chooses between the two. *)
Definition pct_change (pad : bool) (k : nat) (s : series) : series :=
  let s' := if pad then ffill_from NaN s else s in
  map (fun x => (x - lit 1)%F) (zip_with F.div s' (shift k s')).

(** [pd.concat([a,b,c],axis=1).max(axis=1)]: the row maximum, skipping
    missing values; missing when the whole row is. *)
Definition fmax_skipna (x y : float) : float :=
  if F.isna x then y
  else if F.isna y then x
  else if (x <? y)%F then y else x.

Definition row_max3 (a b c : series) : series :=
  zip_with fmax_skipna (zip_with fmax_skipna a b) c.

(** ** Indicator library, continued *)

(** *** [rsi] *)

Definition avg_gain (n : nat) (s : series) : series :=
  ewm_mean (alpha_of_com (Z.of_nat n - 1)) true n
           (clip_lower (lit 0) (diff 1 s)).

Definition avg_loss (n : nat) (s : series) : series :=
  ewm_mean (alpha_of_com (Z.of_nat n - 1)) true n
           (map F.neg (clip_upper (lit 0) (diff 1 s))).

(** [100 - 100/(1 + g/l.replace(0,np.nan))], row by row. *)
Definition rsi_value (g l : float) : float :=
  let l' := if F.eqb l (lit 0) then NaN else l in
  (lit 100 - lit 100 / (lit 1 + g / l'))%F.

Definition rsi_n (n : nat) (s : series) : series :=
  zip_with rsi_value (avg_gain n s) (avg_loss n s).

Definition rsi (s : series) : series := rsi_n 14 s.

(** *** [atr] *)

Definition true_range (h l c : series) : series :=
  let pc := shift 1 c in
  row_max3 (zip_with F.sub h l)
           (map F.abs (zip_with F.sub h pc))
           (map F.abs (zip_with F.sub l pc)).

Definition atr_n (n : nat) (h l c : series) : series :=
  ewm_mean (alpha_of_com (Z.of_nat n - 1)) true n (true_range h l c).

Definition atr (h l c : series) : series := atr_n 14 h l c.

(** *** [ema] and [sma] *)

Definition ema (s : series) (n : nat) : series :=
  ewm_mean (alpha_of_span (Z.of_nat n)) false 1 s.

Definition sma (s : series) (n : nat) : series := rolling_mean n s.

(** *** [vix_pct] *)

Definition vix_pct (v : series) : series :=
  map (fun x => (x * lit 100)%F) (rolling_rank_pct 252 20 v).

(** ** Calendar dates

    The index of every frame is a [DatetimeIndex] normalised to midnight.
    A timestamp is modelled by its proleptic Gregorian ordinal (day 1 is
    0001-01-01, a Monday), and its fields by the conversions of Python's
    [datetime] module. *)

Module Cal.

Definition is_leap (year : Z) : bool :=
  (year mod 4 =? 0) && (negb (year mod 100 =? 0) || (year mod 400 =? 0)).

Definition days_before_year (year : Z) : Z :=
  let y := year - 1 in
  y * 365 + y / 4 - y / 100 + y / 400.

(** [_DAYS_IN_MONTH] and [_DAYS_BEFORE_MONTH], for months 1 to 12. *)
Definition DAYS_IN_MONTH (month : Z) : Z :=
  nth (Z.to_nat month) [-1; 31; 28; 31; 30; 31; 30; 31; 31; 30; 31; 30; 31] 0.

Definition DAYS_BEFORE_MONTH (month : Z) : Z :=
  nth (Z.to_nat month)
      [-1; 0; 31; 59; 90; 120; 151; 181; 212; 243; 273; 304; 334] 0.

Definition days_before_month (year month : Z) : Z :=
  DAYS_BEFORE_MONTH month + (if (2 <? month) && is_leap year then 1 else 0).

(** [_ymd2ord]. *)
Definition ymd2ord (year month day : Z) : Z :=
  days_before_year year + days_before_month year month + day.

Definition DI400Y : Z := 146097.
Definition DI100Y : Z := 36524.
Definition DI4Y : Z := 1461.

(** The end of [_ord2ymd]: the month and the day of month of day [n]
    (counted from 0) of a year. *)
Definition month_day (n : Z) (leapyear : bool) : Z * Z :=
  let month := Z.shiftr (n + 50) 5 in
  let preceding :=
    DAYS_BEFORE_MONTH month + (if (2 <? month) && leapyear then 1 else 0) in
  if n <? preceding then
    let month := month - 1 in
    let preceding :=
      preceding
      - (DAYS_IN_MONTH month + (if (month =? 2) && leapyear then 1 else 0)) in
    (month, n - preceding + 1)
  else (month, n - preceding + 1).

(** [_ord2ymd]. *)
Definition ord2ymd (ordinal : Z) : Z * Z * Z :=
  let n := ordinal - 1 in
  let n400 := n / DI400Y in
  let n := n mod DI400Y in
  let year := n400 * 400 + 1 in
  let n100 := n / DI100Y in
  let n := n mod DI100Y in
  let n4 := n / DI4Y in
  let n := n mod DI4Y in
  let n1 := n / 365 in
  let n := n mod 365 in
  let year := year + n100 * 100 + n4 * 4 + n1 in
  if (n1 =? 4) || (n100 =? 4) then (year - 1, 12, 31)
  else
    let leapyear := (n1 =? 3) && (negb (n4 =? 24) || (n100 =? 3)) in
    (year, fst (month_day n leapyear), snd (month_day n leapyear)).

Definition year (t : Z) : Z := fst (fst (ord2ymd t)).
Definition month (t : Z) : Z := snd (fst (ord2ymd t)).
Definition day (t : Z) : Z := snd (ord2ymd t).

(** [t.weekday()], [t.dayofweek]: Monday is 0. *)
Definition weekday (t : Z) : Z := (t + 6) mod 7.

(** [t.replace(day=1)]. *)
Definition replace_day1 (t : Z) : Z := ymd2ord (year t) (month t) 1.

(** [t + timedelta(days=d)], [t + timedelta(weeks=w)]. *)
Definition add_days (t d : Z) : Z := t + d.
Definition add_weeks (t w : Z) : Z := t + 7 * w.

(** Decimal digits, for [strftime]. *)
Definition digit (d : Z) : string :=
  String (ascii_of_nat (48 + Z.to_nat (d mod 10))) EmptyString.

Fixpoint digits_fuel (fuel : nat) (z : Z) (acc : string) : string :=
  match fuel with
  | O => acc
  | S fuel' =>
      let acc' := (digit z ++ acc)%string in
      if z / 10 =? 0 then acc' else digits_fuel fuel' (z / 10) acc'
  end.

(** The decimal numeral of a natural number [z]. *)
Definition decimal (z : Z) : string :=
  digits_fuel (S (Z.to_nat (Z.log2 z))) z EmptyString.

Fixpoint zero_pad_fuel (fuel width : nat) (s : string) : string :=
  match fuel with
  | O => s
  | S fuel' =>
      if Nat.ltb (String.length s) width
      then zero_pad_fuel fuel' width ("0" ++ s)%string
      else s
  end.

(** [s] padded with zeros on the left up to [width] characters. *)
Definition zero_pad (width : nat) (s : string) : string :=
  zero_pad_fuel width width s.

(** [t.strftime("%Y-%m-%d")]. *)
Definition strftime_ymd (t : Z) : string :=
  (zero_pad 4 (decimal (year t)) ++ "-" ++ zero_pad 2 (decimal (month t))
     ++ "-" ++ zero_pad 2 (decimal (day t)))%string.

End Cal.

(** *** [is_opex] *)

(** The body of the loop of [is_opex] for one timestamp [dt]: the first
    Friday of the month of [dt], two weeks later, compared with [dt]. *)
Definition is_opex1 (dt : Z) : Z :=
  let res := 0 in
  let f := Cal.replace_day1 dt in
  let ff := Cal.add_days f ((4 - Cal.weekday f) mod 7) in
  let tf := Cal.add_weeks ff 2 in
  if dt =? tf then 1 else res.

(** [res[dt]=1] writes the rows labelled [dt]. *)
Definition is_opex (idx : list Z) : list Z := map is_opex1 idx.

(** ** Python exceptions *)

Inductive exn : Type :=
| RuntimeError (msg : string)
| KeyError (key : string)
| IndexError
| IntCastingNaNError
| ValueError
| FileNotFoundError
| DownloadError.

Inductive result (A : Type) : Type :=
| Ok (a : A)
| Raise (e : exn).

Arguments Ok {A} a.
Arguments Raise {A} e.

Definition bind {A B} (r : result A) (k : A -> result B) : result B :=
  match r with
  | Ok a => k a
  | Raise e => Raise e
  end.

Notation "x <- e ;; k" := (bind e (fun x => k))
  (at level 61, e at next level, right associativity).

(** [try: e except: h] with a bare [except]. *)
Definition try_except {A} (r : result A) (h : A) : A :=
  match r with
  | Ok a => a
  | Raise _ => h
  end.

(** ** Frames *)

(** A frame of prices: an index of dates and named float columns. *)
Record fframe : Type := mk_fframe {
  f_index : list Z;
  f_columns : list (string * series)
}.

Fixpoint lookup {A} (name : string) (cols : list (string * A)) : option A :=
  match cols with
  | [] => None
  | (k, v) :: rest => if String.eqb k name then Some v else lookup name rest
  end.

(** [df[name]]. *)
Definition getitem (df : fframe) (name : string) : result series :=
  match lookup name (f_columns df) with
  | Some s => Ok s
  | None => Raise (KeyError name)
  end.

(** [df[[n1; ...; nk]]]. *)
Fixpoint select_columns (df : fframe) (names : list string)
  : result (list (string * series)) :=
  match names with
  | [] => Ok []
  | n :: rest =>
      s <- getitem df n ;;
      cols <- select_columns df rest ;;
      Ok ((n, s) :: cols)
  end.

(** The position of a date in an index. *)
Fixpoint index_of (d : Z) (idx : list Z) : option nat :=
  match idx with
  | [] => None
  | x :: rest =>
      if x =? d then Some O else option_map S (index_of d rest)
  end.

(** The rows that a reindex takes: the value at each date of [idx], missing
    where [src] lacks the date. *)
Definition take_rows (src : list Z) (s : series) (idx : list Z) : series :=
  map (fun d => match index_of d src with
                | Some i => nth i s NaN
                | None => NaN
                end) idx.

(** Whether two indexes hold the same dates in the same order. *)
Fixpoint index_identical (a b : list Z) : bool :=
  match a, b with
  | [], [] => true
  | x :: a', y :: b' => (x =? y) && index_identical a' b'
  | _, _ => false
  end.

(** Whether a date occurs twice in an index. *)
Fixpoint has_duplicates (l : list Z) : bool :=
  match l with
  | [] => false
  | x :: rest => existsb (Z.eqb x) rest || has_duplicates rest
  end.

(** pandas refuses to reindex from an index with a repeated label
    ("cannot reindex on an axis with duplicate labels"), unless the target
    is that very index. *)
Definition cannot_reindex (src idx : list Z) : bool :=
  negb (index_identical src idx) && has_duplicates src.

(** [s.reindex(idx)] for a Series [s] over [src]: [s] itself when [idx] is
    its index. *)
Definition reindex_series (src : list Z) (s : series) (idx : list Z)
  : result series :=
  if index_identical src idx then Ok s
  else if cannot_reindex src idx then Raise ValueError
  else Ok (take_rows src s idx).

(** [df.reindex(idx)]. *)
Definition reindex (df : fframe) (idx : list Z) : result fframe :=
  if index_identical (f_index df) idx then Ok df
  else if cannot_reindex (f_index df) idx then Raise ValueError
  else Ok (mk_fframe idx
             (map (fun c => (fst c, take_rows (f_index df) (snd c) idx))
                  (f_columns df))).

(** [pd.DataFrame(index=idx, columns=names, dtype=float)]: all missing. *)
Definition empty_frame (idx : list Z) (names : list string) : fframe :=
  mk_fframe idx (map (fun n => (n, repeat NaN (List.length idx))) names).

(** [df.get(name, pd.Series(dtype=float)).reindex(idx)]. *)
Definition get_reindexed (df : fframe) (name : string) (idx : list Z)
  : result series :=
  match lookup name (f_columns df) with
  | Some s => reindex_series (f_index df) s idx
  | None => reindex_series [] [] idx
  end.

(** A cell of the output table. *)
Inductive cell : Type :=
| CFloat (x : float)
| CInt (z : Z)
| CStr (s : string)
| CNA.

Abbreviation column := (list cell).

Definition of_floats (s : series) : column := map CFloat s.
Definition of_ints (l : list Z) : column := map CInt l.
Definition of_Int64 (l : list (option Z)) : column :=
  map (fun o => match o with Some z => CInt z | None => CNA end) l.

(** The table under construction: its index and its columns in insertion
    order. *)
Record frame : Type := mk_frame {
  index : list Z;
  columns : list (string * column)
}.

Definition nrows (df : frame) : nat := List.length (index df).

(** A Series assigned to a column is aligned on the index of the frame; all
    Series of a run share that index, so this fits its length. *)
Definition fit (n : nat) (c : column) : column :=
  firstn n (c ++ repeat (CFloat NaN) (n - List.length c)).

Fixpoint assoc_set {A} (name : string) (v : A) (cols : list (string * A))
  : list (string * A) :=
  match cols with
  | [] => [(name, v)]
  | (k, x) :: rest =>
      if String.eqb k name then (k, v) :: rest
      else (k, x) :: assoc_set name v rest
  end.

(** [df[name] = c]: replaces the column in place, or appends a new one. *)
Definition setitem (name : string) (c : column) (df : frame) : frame :=
  mk_frame (index df) (assoc_set name (fit (nrows df) c) (columns df)).

(** [df[name] = v] for a scalar [v]. *)
Definition setitem_scalar (name : string) (v : cell) (df : frame) : frame :=
  setitem name (repeat v (nrows df)) df.

Fixpoint mask_filter {A} (mask : list bool) (l : list A) : list A :=
  match mask, l with
  | true :: m, x :: l' => x :: mask_filter m l'
  | false :: m, _ :: l' => mask_filter m l'
  | _, _ => []
  end.

(** [df[df.index >= start]]. *)
Definition trim (start : Z) (df : frame) : frame :=
  let mask := map (fun d => start <=? d) (index df) in
  mk_frame (mask_filter mask (index df))
           (map (fun c => (fst c, mask_filter mask (snd c))) (columns df)).

(** [df.reindex(columns=cols)]: the named columns in the given order; a
    name the frame lacks becomes an all-missing column. *)
Definition reindex_columns (cols : list string) (df : frame) : frame :=
  mk_frame (index df)
    (map (fun n => (n, match lookup n (columns df) with
                       | Some c => c
                       | None => repeat (CFloat NaN) (nrows df)
                       end)) cols).

(** [df[name]] for a float column assigned earlier in [build] (the names
    are literals of the script, so the lookup cannot fail there). *)
Definition cell_float (c : cell) : float :=
  match c with
  | CFloat x => x
  | CInt z => lit z
  | _ => NaN
  end.

Definition fcol (df : frame) (name : string) : series :=
  match lookup name (columns df) with
  | Some c => map cell_float c
  | None => repeat NaN (nrows df)
  end.

(** ** Indicator library, the remaining functions *)

(** *** [trend_score] *)

(** [np.sign]. *)
Definition np_sign (x : float) : float :=
  match x with
  | NaN => NaN
  | _ => lit (F.sgn x)
  end.

(** [np.where(cond, a, b)] on one row. *)
Definition np_where {A} (cond : bool) (a b : A) : A := if cond then a else b.

(** Rounding to the nearest integer, ties to even. *)
Definition rint (q : Q) : Z :=
  let f := Qfloor q in
  match Qcompare (q - inject_Z f) (1 # 2) with
  | Lt => f
  | Gt => f + 1
  | Eq => if Z.even f then f else f + 1
  end.

(** [s.round().astype(int)]: a non-finite value cannot be cast. *)
Fixpoint round_astype_int (s : series) : result (list Z) :=
  match s with
  | [] => Ok []
  | Fin q :: rest =>
      zs <- round_astype_int rest ;;
      Ok (rint q :: zs)
  | _ :: _ => Raise IntCastingNaNError
  end.

Definition clip_int (lo hi : Z) (l : list Z) : list Z :=
  map (fun z => Z.min hi (Z.max lo z)) l.

Definition trend_score (c : series) : result (list Z) :=
  let e21 := ema c 21 in
  let e50 := ema c 50 in
  let e200 := ema c 200 in
  let slope :=
    map (fun x => (x * lit 100)%F) (zip_with F.div (diff 5 e21) (shift 5 e21)) in
  let sc :=
    zip_with F.add
      (zip_with F.add (map np_sign (zip_with F.sub c e21))
                      (map np_sign (zip_with F.sub c e50)))
      (map np_sign (zip_with F.sub c e200)) in
  let adj :=
    map (fun x => np_where (x >? Fin (1 # 2))%F 1 0
                  + np_where (x <? Fin (- (1 # 2)))%F (-1) 0) slope in
  let sc := zip_with (fun x a => (x + lit a)%F) sc adj in
  ints <- round_astype_int sc ;;
  Ok (clip_int (-5) 5 ints).

(** ** Output: CSV rendering and the file system *)

Module Csv.

(** [float_format="%.6f"] on a finite value. *)
Definition format_6f (q : Q) : string :=
  let scaled := Z.abs (rint (q * inject_Z 1000000)) in
  ((if Qle_bool 0 q then "" else "-")
     ++ Cal.decimal (scaled / 1000000) ++ "."
     ++ Cal.zero_pad 6 (Cal.decimal (scaled mod 1000000)))%string.

Definition format_int (z : Z) : string :=
  ((if (z <? 0)%Z then "-" else "") ++ Cal.decimal (Z.abs z))%string.

(** One field; a missing value is written as the empty string. *)
Definition render (c : cell) : string :=
  match c with
  | CFloat (Fin q) => format_6f q
  | CFloat PInf => "inf"
  | CFloat NInf => "-inf"
  | CFloat NaN => ""
  | CInt z => format_int z
  | CStr s => s
  | CNA => ""
  end.

(** A written file: the header line and the data lines, each as its list
    of fields. *)
Record file : Type := mk_file {
  header : list string;
  lines : list (list string)
}.

(** The fields of row [i]. *)
Definition row (cols : list (string * column)) (i : nat) : list string :=
  map (fun c => render (nth i (snd c) CNA)) cols.

(** [df.to_csv(path, index=False, float_format="%.6f")]. *)
Definition of_frame (df : frame) : file :=
  mk_file (map fst (columns df))
          (map (row (columns df)) (seq 0 (nrows df))).

End Csv.

(** The files written so far, by path. *)
Definition world := list (string * Csv.file).

(** A command of the script: it may write files and may raise. *)
Definition io (A : Type) : Type := world -> world * result A.

Definition ret {A} (a : A) : io A := fun w => (w, Ok a).

Definition raise {A} (e : exn) : io A := fun w => (w, Raise e).

Definition io_bind {A B} (m : io A) (k : A -> io B) : io B :=
  fun w =>
    match m w with
    | (w', Ok a) => k a w'
    | (w', Raise e) => (w', Raise e)
    end.

Notation "x <~ e ;; k" := (io_bind e (fun x => k))
  (at level 61, e at next level, right associativity).

Notation "e ;;; k" := (io_bind e (fun _ => k))
  (at level 61, right associativity).

Definition lift {A} (r : result A) : io A := fun w => (w, r).

(** [try: m except: h ()], bare [except]: what [m] wrote stays written. *)
Definition io_try {A} (m : io A) (h : io A) : io A :=
  fun w =>
    match m w with
    | (w', Ok a) => (w', Ok a)
    | (w', Raise _) => h w'
    end.

Definition write_file (path : string) (f : Csv.file) : io unit :=
  fun w => (assoc_set path f w, Ok tt).

(** [os.path.dirname]. *)
Definition slash : ascii := "/"%char.

Fixpoint drop_while {A} (p : A -> bool) (l : list A) : list A :=
  match l with
  | [] => []
  | x :: rest => if p x then drop_while p rest else l
  end.

Definition dirname (p : string) : string :=
  let is_slash := fun c => Ascii.eqb c slash in
  let head_rev := drop_while (fun c => negb (is_slash c)) (rev (list_ascii_of_string p)) in
  if forallb is_slash head_rev then string_of_list_ascii (rev head_rev)
  else string_of_list_ascii (rev (drop_while is_slash head_rev)).

(** [os.makedirs(d, exist_ok=True)]: the empty path is refused; the model
    has no directories otherwise. *)
Definition makedirs (d : string) : io unit :=
  if String.eqb d "" then raise FileNotFoundError else ret tt.

(** Arithmetic on whole Series. *)
Definition ssub (a b : series) : series := zip_with F.sub a b.
Definition sdiv (a b : series) : series := zip_with F.div a b.
Definition scale (k : Z) (s : series) : series := map (fun x => (x * lit k)%F) s.
Definition sadd_const (s : series) (k : Z) : series := map (fun x => (x + lit k)%F) s.

(** The [Gap_Filled] expression over the four columns. *)
Definition gap_filled (gap_pct low high prior_close : series) : list Z :=
  map (fun i => gap_filled1 (nth i gap_pct NaN) (nth i low NaN)
                            (nth i high NaN) (nth i prior_close NaN))
      (seq 0 (List.length gap_pct)).

Definition DEFAULT_START : string := "2022-01-01".
Definition DEFAULT_OUTPUT : string :=
  "/home/tradeblocks/data/_marketdata/spx_daily.csv".
Definition TICKER_SPX : string := "^GSPC".
Definition TICKER_VIX : string := "^VIX".
Definition TICKER_VIX9D : string := "^VIX9D".
Definition TICKER_VIX3M : string := "^VIX3M".

(** The placeholder columns of [build]. *)
Definition placeholder_columns : list string :=
  ["High_Time"; "Low_Time"; "High_Before_Low"; "High_In_First_Hour";
   "Low_In_First_Hour"; "High_In_Last_Hour"; "Low_In_Last_Hour";
   "Reversal_Type"; "High_Low_Spread"; "Early_Extreme"; "Late_Extreme"].

(** The list [cols] of [build]. *)
Definition cols : list string :=
  ["time"; "ticker"; "date"; "Prior_Close"; "open"; "high"; "low"; "close";
   "Gap_Pct"; "Intraday_Range_Pct"; "Intraday_Return_Pct"; "Total_Return_Pct";
   "Close_Position_In_Range"; "Gap_Filled";
   "VIX_Open"; "VIX_Close"; "VIX_Change_Pct"; "VIX_Spike_Pct"; "VIX_Percentile";
   "Vol_Regime";
   "VIX9D_Open"; "VIX9D_Close"; "VIX9D_Change_Pct";
   "VIX3M_Open"; "VIX3M_Close"; "VIX3M_Change_Pct";
   "VIX9D_VIX_Ratio"; "VIX_VIX3M_Ratio"; "Term_Structure_State";
   "ATR_Pct"; "RSI_14"; "Price_vs_EMA21_Pct"; "Price_vs_SMA50_Pct";
   "Trend_Score"; "BB_Position";
   "Return_5D"; "Return_20D"; "Consecutive_Days"; "Day_of_Week"; "Month";
   "Is_Opex"; "Prev_Return_Pct";
   "High_Time"; "Low_Time"; "High_Before_Low"; "High_In_First_Hour";
   "Low_In_First_Hour";
   "High_In_Last_Hour"; "Low_In_Last_Hour"; "Reversal_Type"; "High_Low_Spread";
   "Early_Extreme"; "Late_Extreme";
   "Intraday_High"; "Intraday_Low"; "VIX_High"; "VIX_Low"; "VIX_Gap_Pct"].

(** ** The feature assembler *)

Section Pipeline.

(** What the run takes from outside the script:
    - [fsqrt], the square root of doubles (for the rolling standard
      deviation);
    - [eastern_utcoffset d], the UTC offset in seconds of
      America/New_York at 16:00 local time on day [d];
    - [pad], whether this pandas forward-fills in [pct_change];
    - [yf_download ticker start end], the answer of Yahoo Finance;
    - [today], the ordinal of [datetime.today()]. *)
Variable fsqrt : float -> float.
Variable eastern_utcoffset : Z -> Z.
Variable pad : bool.
Variable yf_download : string -> Z -> Z -> result fframe.
Variable today : Z.

(** [s.rolling(w).std()]: the sample standard deviation of a full window. *)
Definition rolling_std (w : nat) (s : series) : series :=
  let s := prep_values s in
  map (fun i =>
         let obs := filter F.notna (window w s i) in
         let n := Z.of_nat (List.length obs) in
         if Nat.leb w (List.length obs) then
           let m := (fsum obs / lit n)%F in
           let sq := map (fun x => ((x - m) * (x - m))%F) obs in
           fsqrt (fsum sq / lit (n - 1))%F
         else NaN)
      (seq 0 (List.length s)).

(** [bollinger(c, w=20, ns=2)]. *)
Definition bollinger_w (w : nat) (ns : Z) (c : series) : series :=
  let m := rolling_mean w c in
  let s := rolling_std w c in
  clip (lit 0) (lit 1)
       (sdiv (zip_with F.add (ssub c m) (scale ns s)) (scale (2 * ns) s)).

Definition bollinger (c : series) : series := bollinger_w 20 2 c.

(** [download]. *)
Definition frame_empty (df : fframe) : bool :=
  match f_index df, f_columns df with
  | [], _ | _, [] => true
  | _, _ => false
  end.

Definition download (ticker : string) (start end_ : Z) : result fframe :=
  df <- yf_download ticker start end_ ;;
  if frame_empty df then Raise (RuntimeError ("No data for " ++ ticker)%string)
  else
    sel <- select_columns df ["Open"; "High"; "Low"; "Close"] ;;
    Ok (mk_fframe (f_index df) sel).

(** The Unix time of 16:00 in New York on day [d] (day 719163 is
    1970-01-01). *)
Definition time_of (d : Z) : Z :=
  (d - 719163) * 86400 + 16 * 3600 - eastern_utcoffset d.

(** Lines 101 to 147 of [build]: the table before trimming, from the
    index calendar, the columns of the index frame, the trend score, the
    columns of the short-vol frame reindexed on the calendar, and the
    Open and Close columns of the 9-day and 3-month frames as lines 133
    to 137 read them. *)
Definition assemble_table (idx : list Z)
    (spx_Open spx_High spx_Low spx_Close : series) (ts : list Z)
    (vix_Open vix_Close vix_High vix_Low : series)
    (vix9d_Open vix9d_Close vix3m_Open vix3m_Close : series) : frame :=
  let df := mk_frame idx [] in
  let df := setitem_scalar "ticker" (CStr "SPX") df in
  let df := setitem "date" (map (fun d => CStr (Cal.strftime_ymd d)) (index df)) df in
  let df := setitem "time" (of_ints (map time_of (index df))) df in
  let df := setitem "Prior_Close" (of_floats (shift 1 spx_Close)) df in
  let df := setitem "open" (of_floats spx_Open) df in
  let df := setitem "high" (of_floats spx_High) df in
  let df := setitem "low" (of_floats spx_Low) df in
  let df := setitem "close" (of_floats spx_Close) df in
  let df := setitem "Intraday_High" (of_floats spx_High) df in
  let df := setitem "Intraday_Low" (of_floats spx_Low) df in
  let df := setitem "Gap_Pct"
    (of_floats (scale 100 (sdiv (ssub (fcol df "open") (fcol df "Prior_Close"))
                                (fcol df "Prior_Close")))) df in
  let df := setitem "Intraday_Range_Pct"
    (of_floats (scale 100 (sdiv (ssub (fcol df "high") (fcol df "low"))
                                (fcol df "open")))) df in
  let df := setitem "Intraday_Return_Pct"
    (of_floats (scale 100 (sdiv (ssub (fcol df "close") (fcol df "open"))
                                (fcol df "open")))) df in
  let df := setitem "Total_Return_Pct"
    (of_floats (scale 100 (sdiv (ssub (fcol df "close") (fcol df "Prior_Close"))
                                (fcol df "Prior_Close")))) df in
  let df := setitem "Close_Position_In_Range"
    (of_floats (clip (lit 0) (lit 1)
                 (sdiv (ssub (fcol df "close") (fcol df "low"))
                       (ssub (fcol df "high") (fcol df "low"))))) df in
  let df := setitem "Gap_Filled"
    (of_ints (gap_filled (fcol df "Gap_Pct") (fcol df "low") (fcol df "high")
                         (fcol df "Prior_Close"))) df in
  let df := setitem "Return_5D" (of_floats (scale 100 (pct_change pad 5 spx_Close))) df in
  let df := setitem "Return_20D" (of_floats (scale 100 (pct_change pad 20 spx_Close))) df in
  let df := setitem "Prev_Return_Pct"
    (of_floats (shift 1 (fcol df "Total_Return_Pct"))) df in
  let df := setitem "Consecutive_Days"
    (of_ints (consec (fcol df "Total_Return_Pct"))) df in
  let df := setitem "RSI_14" (of_floats (rsi spx_Close)) df in
  let a := atr spx_High spx_Low spx_Close in
  let df := setitem "ATR_Pct" (of_floats (scale 100 (sdiv a spx_Close))) df in
  let df := setitem "Price_vs_EMA21_Pct"
    (of_floats (scale 100 (sadd_const (sdiv spx_Close (ema spx_Close 21)) (-1)))) df in
  let df := setitem "Price_vs_SMA50_Pct"
    (of_floats (scale 100 (sadd_const (sdiv spx_Close (sma spx_Close 50)) (-1)))) df in
  let df := setitem "BB_Position" (of_floats (bollinger spx_Close)) df in
  let df := setitem "Trend_Score" (of_ints ts) df in
  let df := setitem "Day_of_Week"
    (of_ints (map (fun d => Cal.weekday d + 2) (index df))) df in
  let df := setitem "Month" (of_ints (map Cal.month (index df))) df in
  let df := setitem "Is_Opex" (of_ints (is_opex (index df))) df in
  let df := setitem "VIX_Open" (of_floats vix_Open) df in
  let df := setitem "VIX_Close" (of_floats vix_Close) df in
  let df := setitem "VIX_High" (of_floats vix_High) df in
  let df := setitem "VIX_Low" (of_floats vix_Low) df in
  let df := setitem "VIX_Change_Pct" (of_floats (scale 100 (pct_change pad 1 vix_Close))) df in
  let df := setitem "VIX_Gap_Pct"
    (of_floats (scale 100 (sdiv (ssub vix_Open (shift 1 vix_Close))
                                (shift 1 vix_Close)))) df in
  let df := setitem "VIX_Spike_Pct"
    (of_floats (scale 100 (sdiv (ssub vix_High vix_Open) vix_Open))) df in
  let df := setitem "VIX_Percentile" (of_floats (vix_pct vix_Close)) df in
  let df := setitem "VIX9D_Open" (of_floats vix9d_Open) df in
  let df := setitem "VIX9D_Close" (of_floats vix9d_Close) df in
  let df := setitem "VIX9D_Change_Pct"
    (of_floats (scale 100 (pct_change pad 1 (fcol df "VIX9D_Close")))) df in
  let df := setitem "VIX3M_Open" (of_floats vix3m_Open) df in
  let df := setitem "VIX3M_Close" (of_floats vix3m_Close) df in
  let df := setitem "VIX3M_Change_Pct"
    (of_floats (scale 100 (pct_change pad 1 (fcol df "VIX3M_Close")))) df in
  let df := setitem "VIX9D_VIX_Ratio"
    (of_floats (sdiv (fcol df "VIX9D_Close") (fcol df "VIX_Close"))) df in
  let df := setitem "VIX_VIX3M_Ratio"
    (of_floats (sdiv (fcol df "VIX_Close") (fcol df "VIX3M_Close"))) df in
  let df := setitem "Vol_Regime" (of_Int64 (vol_regime (fcol df "VIX_Close"))) df in
  let df := setitem "Term_Structure_State"
    (of_ints (term_state (fcol df "VIX9D_VIX_Ratio") (fcol df "VIX_VIX3M_Ratio"))) df in
  let df := fold_left (fun df c => setitem_scalar c (CFloat NaN) df)
                      placeholder_columns df in
  df.

(** Lines 98 to 147 of [build].  The steps that can raise are the three
    reindexes of line 99, the column reads [spx[...]], [trend_score], the
    reads [vix[...]] and the reindexes of lines 133 to 137; they are taken
    here in the order in which [build] reaches them, every other step
    being pure. *)
Definition assemble (spx vix vix9d vix3m : fframe) : result frame :=
  let idx := f_index spx in
  vix <- reindex vix idx ;;
  vix9d <- reindex vix9d idx ;;
  vix3m <- reindex vix3m idx ;;
  spx_Close <- getitem spx "Close" ;;
  spx_Open <- getitem spx "Open" ;;
  spx_High <- getitem spx "High" ;;
  spx_Low <- getitem spx "Low" ;;
  ts <- trend_score spx_Close ;;
  vix_Open <- getitem vix "Open" ;;
  vix_Close <- getitem vix "Close" ;;
  vix_High <- getitem vix "High" ;;
  vix_Low <- getitem vix "Low" ;;
  vix9d_Open <- get_reindexed vix9d "Open" idx ;;
  vix9d_Close <- get_reindexed vix9d "Close" idx ;;
  vix3m_Open <- get_reindexed vix3m "Open" idx ;;
  vix3m_Close <- get_reindexed vix3m "Close" idx ;;
  Ok (assemble_table idx spx_Open spx_High spx_Low spx_Close ts
                     vix_Open vix_Close vix_High vix_Low
                     vix9d_Open vix9d_Close vix3m_Open vix3m_Close).

(** [build]. *)
Definition build (start : Z) (output : string) : io unit :=
  let ws := start - 400 in
  let end_ := today + 1 in
  spx <~ lift (download TICKER_SPX ws end_) ;;
  vix <~ lift (download TICKER_VIX ws end_) ;;
  vix9d <~ io_try (lift (download TICKER_VIX9D ws end_))
                  (ret (empty_frame (f_index spx) ["Open"; "Close"])) ;;
  vix3m <~ io_try (lift (download TICKER_VIX3M ws end_))
                  (ret (empty_frame (f_index spx) ["Open"; "Close"])) ;;
  df <~ lift (assemble spx vix vix9d vix3m) ;;
  let df := trim start df in
  let df := reindex_columns cols df in
  makedirs (dirname output) ;;;
  write_file output (Csv.of_frame df) ;;;
  (* the report reads [df['date'].iloc[0]] *)
  (if Nat.eqb (nrows df) 0 then raise IndexError else ret tt).

End Pipeline.

(** ** Predicates of the statements *)

(** Entry [k] of the day-of-year table: the month and day it gives lead back
    to day [k] of the year. *)
Definition month_day_ok (leap : bool) (k : nat) : bool :=
  let n := Z.of_nat k in
  let m := fst (Cal.month_day n leap) in
  Cal.DAYS_BEFORE_MONTH m + (if (2 <? m) && leap then 1 else 0)
  + snd (Cal.month_day n leap) =? n + 1.

(** A value that compares equal to zero. *)
Definition is_zero (x : float) : Prop := F.eqb x (lit 0) = true.

(** A Series without a value. *)
Definition all_nan (s : series) : Prop := Forall (fun x => x = NaN) s.

(** A column whose every cell is missing. *)
Definition all_missing (c : column) : Prop := Forall (fun x => x = CFloat NaN) c.

(** A series of closes without a down move: each close is finite and at
    least the one before it. *)
Fixpoint nondecreasing (prev : Q) (rest : list Q) : Prop :=
  match rest with
  | [] => True
  | q :: rest' => (prev <= q)%Q /\ nondecreasing q rest'
  end.

Definition no_down_moves (closes : list Q) : Prop :=
  match closes with
  | [] => True
  | q :: rest => nondecreasing q rest
  end.

(** The number of Fridays among the [k] days that end with day [t]. *)
Fixpoint fridays_back (t : Z) (k : nat) : nat :=
  match k with
  | O => 0
  | S k' =>
      Nat.add (if Cal.weekday (t - Z.of_nat k') =? 4 then 1%nat else 0%nat)
              (fridays_back t k')
  end.

(** Day [t] is the third Friday of its month: it is a Friday, and the days
    of its month up to it (as many as its day of month) hold three
    Fridays. *)
Definition third_friday (t : Z) : Prop :=
  Cal.weekday t = 4 /\ fridays_back t (Z.to_nat (Cal.day t)) = 3%nat.

(** ** Reading the table and the written file *)

(** The cell of column [name] in row [row] of a frame. *)
Definition cell_at (df : frame) (name : string) (row : nat) : option cell :=
  match lookup name (columns df) with
  | Some col => nth_error col row
  | None => None
  end.

(** Lines 149 and 162 of [build]: the table that is written. *)
Definition emitted (start : Z) (df : frame) : frame :=
  reindex_columns cols (trim start df).

(** The row of the emitted table that holds calendar position [N]: the
    number of kept dates before it. *)
Definition row_of (start : Z) (idx : list Z) (N : nat) : nat :=
  List.length (filter (fun d => start <=? d) (firstn N idx)).

(** The position of a name in a header. *)
Fixpoint position (name : string) (names : list string) : option nat :=
  match names with
  | [] => None
  | n :: rest =>
      if String.eqb n name then Some O else option_map S (position name rest)
  end.

(** The field of a line under the column [name] of the header. *)
Definition field (f : Csv.file) (line : list string) (name : string)
  : option string :=
  match position name (Csv.header f) with
  | Some k => nth_error line k
  | None => None
  end.

(** The columns that [build] computes from a 9-day or 3-month frame. *)
Definition vix9d_columns : list string :=
  ["VIX9D_Open"; "VIX9D_Close"; "VIX9D_Change_Pct"; "VIX9D_VIX_Ratio"].

Definition vix3m_columns : list string :=
  ["VIX3M_Open"; "VIX3M_Close"; "VIX3M_Change_Pct"; "VIX_VIX3M_Ratio"].

(** The columns that [build] computes from the index and short-vol frames
    alone. *)
Definition index_vix_columns : list string :=
  filter (fun n => negb (existsb (String.eqb n)
                           (("Term_Structure_State" :: vix9d_columns)
                              ++ vix3m_columns)))
         cols.

(** The frame that [build] uses for a 9-day or 3-month instrument: the
    downloaded one, or the all-missing substitute. *)
Definition secondary (r : result fframe) (idx : list Z) : fframe :=
  try_except r (empty_frame idx ["Open"; "Close"]).

(** A value that is neither missing nor infinite. *)
Definition finite (x : float) : Prop := exists q : Q, x = Fin q.

(** A retrieval that raised. *)
Definition failed {A} (r : result A) : Prop := exists e, r = Raise e.

(** A frame that line 99 of [build] can put on the calendar [idx]: no date
    occurs twice in its index, or its index is the calendar. *)
Definition alignable (df : fframe) (idx : list Z) : Prop :=
  NoDup (f_index df) \/ f_index df = idx.

(** ** A small run *)

Module Demo.

(** Sixteen closes, each one point above the one before. *)
Definition rising : series := map (fun k => lit (100 + Z.of_nat k)) (seq 0 16).

(** Thursday 2024-01-18. *)
Definition d0 : Z := Cal.ymd2ord 2024 1 18.

(** Three sessions: Thursday, Friday, and the Monday after. *)
Definition days : list Z := [d0; d0 + 1; d0 + 4].

Definition opens : series := [lit 99; lit 102; lit 100].
Definition highs : series := [lit 102; lit 103; lit 100].
Definition lows : series := [lit 98; lit 99; lit 97].
Definition closes : series := [lit 100; lit 101; lit 99].

Definition vix_opens : series := [lit 14; lit 15; lit 16].
Definition vix_highs : series := [lit 17; lit 17; lit 37].
Definition vix_lows : series := [lit 13; lit 11; lit 13].
Definition vix_closes : series := [lit 15; lit 12; lit 36].

(** What Yahoo returns: the price columns in its own order, and a volume. *)
Definition spx_raw : fframe :=
mk_fframe days
  [("Close", closes); ("High", highs); ("Low", lows); ("Open", opens);
   ("Volume", [lit 1000; lit 1100; lit 1200])].

Definition vix_raw : fframe :=
mk_fframe days
  [("Close", vix_closes); ("High", vix_highs); ("Low", vix_lows);
   ("Open", vix_opens); ("Volume", [lit 0; lit 0; lit 0])].

Definition vix3m_opens : series := [lit 18; lit 18; lit 19].
Definition vix3m_closes : series := [lit 18; lit 18; lit 30].

Definition vix3m_raw : fframe :=
mk_fframe days
  [("Close", vix3m_closes); ("High", [lit 19; lit 19; lit 31]);
   ("Low", [lit 17; lit 17; lit 17]); ("Open", vix3m_opens);
   ("Volume", [lit 0; lit 0; lit 0])].

(** A column without a value. *)
Definition missing : series := [NaN; NaN; NaN].

(** What [download] makes of them. *)
Definition spx : fframe :=
mk_fframe days
  [("Open", opens); ("High", highs); ("Low", lows); ("Close", closes)].

Definition vix : fframe :=
mk_fframe days
  [("Open", vix_opens); ("High", vix_highs); ("Low", vix_lows);
   ("Close", vix_closes)].

(** Yahoo answers for the index, the short-vol index and the 3-month
  index; the request for the 9-day index fails. *)
Definition yf (ticker : string) (start end_ : Z) : result fframe :=
if String.eqb ticker TICKER_SPX then Ok spx_raw
else if String.eqb ticker TICKER_VIX then Ok vix_raw
else if String.eqb ticker TICKER_VIX3M then Ok vix3m_raw
else Raise DownloadError.

(** Eastern Standard Time on every day. *)
Definition est (d : Z) : Z := -18000.

(** A stand-in for the square root; no result stated on this run reads
  it. *)
Definition root (x : float) : float := x.

Definition run (start : Z) (output : string) : io unit :=
build root est true yf (d0 + 10) start output.

(** A table over the three sessions, without a 9-day frame. *)
Definition table : frame :=
assemble_table root est true days opens highs lows closes [3; 3; -3]
  vix_opens vix_closes vix_highs vix_lows
  missing missing vix3m_opens vix3m_closes.

End Demo.

(** A finite value that is a whole number between [lo] and [hi]. *)
Definition whole (lo hi : Z) (x : float) : Prop :=
  exists (q : Q) (z : Z), x = Fin q /\ (q == inject_Z z)%Q /\ lo <= z <= hi.

(** An answer of Yahoo Finance per ticker. *)
Definition oracle (spx vix vix9d vix3m : result fframe)
    (ticker : string) (start end_ : Z) : result fframe :=
  if String.eqb ticker TICKER_SPX then spx
  else if String.eqb ticker TICKER_VIX then vix
  else if String.eqb ticker TICKER_VIX9D then vix9d
  else vix3m.

(** The index frame of the small run with the close of Friday missing. *)
Definition spx_gap : fframe :=
  mk_fframe Demo.days
    [("Close", [lit 100; NaN; lit 99]); ("High", Demo.highs);
     ("Low", Demo.lows); ("Open", Demo.opens)].

(** A file that is there before the run. *)
Definition other_file : Csv.file := Csv.mk_file ["a"] [["1"]].

(** A value that is missing or lies between 0 and 1. *)
Definition in_unit (x : float) : Prop :=
  x = NaN \/ (F.leb (lit 0) x = true /\ F.leb x (lit 1) = true).

(** A value that is missing or lies above 0 and at most at 100. *)
Definition percent (x : float) : Prop :=
  x = NaN \/ (F.ltb (lit 0) x = true /\ F.leb x (lit 100) = true).

(** ** Tactics *)

(** Boolean comparisons of rationals as inequalities. *)
Ltac qbool :=
  repeat match goal with
  | H : Qle_bool _ _ = true |- _ => apply Qle_bool_iff in H
  | H : Qle_bool _ _ = false |- _ =>
      apply not_true_iff_false in H; rewrite Qle_bool_iff in H;
      apply Qnot_le_lt in H
  end.

(** Membership of a literal name in a literal list of names. *)
Ltac in_names := repeat (first [left; reflexivity | right]).

(** Evaluates the column plumbing of [assemble_table] and nothing else. *)
Ltac table_lookup :=
  lazy beta iota zeta delta
    [assemble_table setitem setitem_scalar assoc_set lookup fcol columns index
     nrows String.eqb Ascii.eqb Bool.eqb fold_left placeholder_columns];
  reflexivity.

(** ** Facts on comparisons *)

Lemma ltb_Fin (a b : Q) : F.ltb (Fin a) (Fin b) = true <-> (a < b)%Q.
Proof.
  cbn. rewrite negb_true_iff. split; intro H.
  - apply Qnot_le_lt. intro Hle. apply Qle_bool_iff in Hle. congruence.
  - destruct (Qle_bool b a) eqn:E; [|reflexivity].
    apply Qle_bool_iff in E. exfalso. apply (Qlt_not_le _ _ H E).
Qed.

Lemma ltb_Fin_false (a b : Q) : F.ltb (Fin a) (Fin b) = false <-> (b <= a)%Q.
Proof.
  cbn. rewrite negb_false_iff. apply Qle_bool_iff.
Qed.

Lemma eqb_Fin (a b : Q) : F.eqb (Fin a) (Fin b) = true <-> (a == b)%Q.
Proof. cbn. apply Qeq_bool_iff. Qed.

Lemma leb_Fin (a b : Q) : F.leb (Fin a) (Fin b) = true <-> (a <= b)%Q.
Proof.
  unfold F.leb. rewrite orb_true_iff, ltb_Fin, eqb_Fin. split.
  - intros [H|H]; [apply Qlt_le_weak; exact H | rewrite H; apply Qle_refl].
  - intro H. destruct (Qle_lt_or_eq _ _ H); [left| right]; assumption.
Qed.

Lemma lit_inj (z : Z) : lit z = Fin (inject_Z z).
Proof. reflexivity. Qed.

(** A value that is neither missing, nor above zero, nor below zero, is
    zero. *)
Lemma float_trichotomy (r : float) :
  F.isna r = false -> F.gtb r (lit 0) = false -> F.ltb r (lit 0) = false ->
  F.eqb r (lit 0) = true.
Proof.
  destruct r as [q| | |]; cbn; try discriminate.
  intros _ H1 H2. rewrite negb_false_iff in H1, H2.
  apply Qle_bool_iff in H1, H2. apply Qeq_bool_iff. apply Qle_antisym; assumption.
Qed.

Lemma float_zero_not_signed (r : float) :
  F.eqb r (lit 0) = true -> F.gtb r (lit 0) = false /\ F.ltb r (lit 0) = false.
Proof.
  destruct r as [q| | |]; cbn; try discriminate.
  intro H. apply Qeq_bool_iff in H. rewrite !negb_false_iff. split; apply Qle_bool_iff; rewrite H; apply Qle_refl.
Qed.

Lemma gtb_ltb_exclusive (r : float) :
  F.gtb r (lit 0) = true -> F.ltb r (lit 0) = false.
Proof.
  destruct r as [q| | |]; cbn; try discriminate; try reflexivity.
  rewrite negb_true_iff, negb_false_iff. intro H. qbool.
  apply Qle_bool_iff. lra.
Qed.

(** ** consec *)

Lemma consec_step_zero (s : Z) (r : float) :
  consec_step s r = 0 <-> F.isna r = true \/ F.eqb r (lit 0) = true.
Proof.
  unfold consec_step. destruct (F.isna r) eqn:Ena.
  - split; auto.
  - destruct (F.gtb r (lit 0)) eqn:Egt.
    + split; [lia|]. intros [H|H]; [discriminate|].
      apply float_zero_not_signed in H. destruct H; congruence.
    + destruct (F.ltb r (lit 0)) eqn:Elt.
      * split; [lia|]. intros [H|H]; [discriminate|].
        apply float_zero_not_signed in H. destruct H; congruence.
      * split; [|reflexivity]. intros _. right. apply float_trichotomy; assumption.
Qed.

Lemma consec_step_pos (s : Z) (r : float) :
  0 < consec_step s r ->
  consec_step s r = (if s <? 0 then 1 else s + 1).
Proof.
  unfold consec_step. destruct (F.isna r); [lia|].
  destruct (F.gtb r (lit 0)).
  - intros _. destruct (Z.ltb_spec s 0); lia.
  - destruct (F.ltb r (lit 0)); lia.
Qed.

Lemma consec_step_neg (s : Z) (r : float) :
  consec_step s r < 0 ->
  consec_step s r = (if 0 <? s then -1 else s - 1).
Proof.
  unfold consec_step. destruct (F.isna r); [lia|].
  destruct (F.gtb r (lit 0)); [lia|].
  destruct (F.ltb r (lit 0)); [|lia].
  intros _. destruct (Z.ltb_spec 0 s); lia.
Qed.

Lemma consec_from_length s ret : List.length (consec_from s ret) = List.length ret.
Proof. revert s; induction ret; intros; cbn; auto. Qed.

(** The streak on day [i] is one loop turn away from the streak of the day
    before (the initial streak on the first day). *)
Lemma consec_from_nth (ret : series) : forall (s : Z) (i : nat),
  (i < List.length ret)%nat ->
  nth i (consec_from s ret) 0 =
  consec_step (match i with O => s | S j => nth j (consec_from s ret) 0 end)
              (nth i ret NaN).
Proof.
  induction ret as [|r rest IH]; intros s i Hi; [cbn in Hi; lia|].
  destruct i as [|i]; [reflexivity|].
  cbn [consec_from nth]. cbn in Hi. rewrite IH by lia.
  destruct i; reflexivity.
Qed.

Lemma consec_step_up (s : Z) (r : float) :
  F.gtb r (lit 0) = true -> consec_step s r = Z.max (s + 1) 1.
Proof.
  intro H. unfold consec_step. rewrite H.
  destruct r; try discriminate; reflexivity.
Qed.

Lemma consec_step_down (s : Z) (r : float) :
  F.ltb r (lit 0) = true -> consec_step s r = Z.min (s - 1) (-1).
Proof.
  intro H. unfold consec_step. rewrite H.
  destruct (F.gtb r (lit 0)) eqn:Eg.
  - rewrite (gtb_ltb_exclusive r Eg) in H. discriminate H.
  - destruct r; try discriminate; reflexivity.
Qed.

Lemma Qle_bool_false (a b : Q) : Qle_bool a b = false <-> (b < a)%Q.
Proof.
  split; intro H.
  - apply Qnot_le_lt. intro Hle. apply Qle_bool_iff in Hle. congruence.
  - destruct (Qle_bool a b) eqn:E; [|reflexivity].
    apply Qle_bool_iff in E. exfalso. apply (Qlt_not_le _ _ H E).
Qed.

(** C2: a finite short-vol close gets bucket 1 when it is at most 12,
    bucket 2 when it is above 12 and at most 15, bucket 3 up to 20, bucket
    4 up to 25, bucket 5 up to 35, and bucket 6 above 35: a breakpoint
    belongs to the bucket below it, so 15 gets bucket 2 as 14.9 does.  A
    missing close gets a missing bucket. *)
Theorem vol_regime_buckets (q : Q) :
  (vol_regime1 (Fin q) = Some 1 <-> (q <= 12)%Q) /\
  (vol_regime1 (Fin q) = Some 2 <-> (12 < q <= 15)%Q) /\
  (vol_regime1 (Fin q) = Some 3 <-> (15 < q <= 20)%Q) /\
  (vol_regime1 (Fin q) = Some 4 <-> (20 < q <= 25)%Q) /\
  (vol_regime1 (Fin q) = Some 5 <-> (25 < q <= 35)%Q) /\
  (vol_regime1 (Fin q) = Some 6 <-> (35 < q)%Q) /\
  vol_regime1 NaN = None /\
  vol_regime1 (lit 15) = Some 2 /\
  vol_regime1 (Fin (149 # 10)) = Some 2.
Proof.
  unfold vol_regime1, cut1, vol_bins, vol_labels, lit, F.of_Z.
  cbn -[Qle_bool].
  change (inject_Z 12) with (12%Q); change (inject_Z 15) with (15%Q);
  change (inject_Z 20) with (20%Q); change (inject_Z 25) with (25%Q);
  change (inject_Z 35) with (35%Q).
  destruct (Qle_bool q 12) eqn:E12; destruct (Qle_bool q 15) eqn:E15;
  destruct (Qle_bool q 20) eqn:E20; destruct (Qle_bool q 25) eqn:E25;
  destruct (Qle_bool q 35) eqn:E35; qbool; cbn;
  repeat split; intros; try discriminate; try reflexivity; try lra;
  try (exfalso; lra).
Qed.

(** C3: the streak of a row is 0 exactly when the return of the row is
    missing or zero.  On a row whose return is positive after a negative
    streak the streak restarts at 1, and on a row whose return is negative
    after a positive streak it restarts at -1, without a 0 in between;
    a positive return after a streak that is not negative adds one to it,
    and a negative return after a streak that is not positive takes one
    off.  The streak before the first row is 0. *)
Theorem consec_resets_and_switches (ret : series) (i : nat)
    (Hi : (i < List.length ret)%nat) :
  let out := consec ret in
  let prev := match i with O => 0 | S j => nth j out 0 end in
  let r := nth i ret NaN in
  (nth i out 0 = 0 <-> F.isna r = true \/ F.eqb r (lit 0) = true) /\
  (F.gtb r (lit 0) = true -> prev < 0 -> nth i out 0 = 1) /\
  (F.ltb r (lit 0) = true -> 0 < prev -> nth i out 0 = -1) /\
  (F.gtb r (lit 0) = true -> 0 <= prev -> nth i out 0 = prev + 1) /\
  (F.ltb r (lit 0) = true -> prev <= 0 -> nth i out 0 = prev - 1).
Proof.
  cbv zeta. unfold consec. rewrite consec_from_nth by exact Hi.
  set (prev := match i with O => 0 | S j => nth j (consec_from 0 ret) 0 end).
  split; [apply consec_step_zero|].
  split; [|split; [|split]]; intros Hr Hp.
  - rewrite (consec_step_up _ _ Hr). lia.
  - rewrite (consec_step_down _ _ Hr). lia.
  - rewrite (consec_step_up _ _ Hr). lia.
  - rewrite (consec_step_down _ _ Hr). lia.
Qed.

Lemma consec_resets_and_switches_witness :
  let ret := [lit (-1); lit 1; NaN] in
  let out := consec ret in
  let prev := nth 0%nat out 0 in
  let r := nth 1%nat ret NaN in
  (nth 1%nat out 0 = 0 <-> F.isna r = true \/ F.eqb r (lit 0) = true) /\
  (F.gtb r (lit 0) = true -> prev < 0 -> nth 1%nat out 0 = 1) /\
  (F.ltb r (lit 0) = true -> 0 < prev -> nth 1%nat out 0 = -1) /\
  (F.gtb r (lit 0) = true -> 0 <= prev -> nth 1%nat out 0 = prev + 1) /\
  (F.ltb r (lit 0) = true -> prev <= 0 -> nth 1%nat out 0 = prev - 1).
Proof.
  apply (consec_resets_and_switches [lit (-1); lit 1; NaN] 1%nat). simpl. lia.
Defined.

Lemma consec_jumps_without_reset :
  ~ (forall (ret : series) (i : nat),
       ~ (nth i (consec ret) 0 < 0 /\ 0 < nth (S i) (consec ret) 0)).
Proof.
  intro H. apply (H [lit (-3); lit 2] 0%nat). vm_compute. split; reflexivity.
Qed.

(** term_state *)

Lemma leb_not_gtb (x y : float) : F.leb x y = true -> F.gtb x y = false.
Proof.
  unfold F.leb, F.gtb. destruct x as [a| | |], y as [b| | |]; cbn; try discriminate; try reflexivity.
  rewrite orb_true_iff, negb_true_iff, negb_false_iff. intros [H|H].
  - qbool. apply Qle_bool_iff. apply Qlt_le_weak. exact H.
  - apply Qeq_bool_iff in H. apply Qle_bool_iff. rewrite H. apply Qle_refl.
Qed.

Lemma term_state_nth (r9d : series) : forall (rvx3m : series) (i : nat),
  (i < List.length r9d)%nat ->
  nth i (term_state r9d rvx3m) 0 = term_state1 (nth i r9d NaN) (nth i rvx3m NaN).
Proof.
  induction r9d as [|a r9d IH]; intros rvx3m i Hi; [cbn in Hi; lia|].
  destruct i as [|i].
  - destruct rvx3m; reflexivity.
  - cbn in Hi. cbn [term_state nth]. rewrite IH by lia. destruct rvx3m; [destruct i|]; reflexivity.
Qed.

Lemma term_state1_cases (a b : float) :
  let s := term_state1 a b in
  (s = -1 \/ s = 0 \/ s = 1) /\
  (s = 1 <-> F.leb a (lit 1) = true /\ F.leb b (lit 1) = true) /\
  (s = -1 <-> F.gtb a (lit 1) = true /\ F.gtb b (lit 1) = true) /\
  (F.isna a = true \/ F.isna b = true -> s = 0).
Proof.
  unfold term_state1.
  destruct (F.leb a (lit 1)) eqn:Ea; destruct (F.leb b (lit 1)) eqn:Eb;
  destruct (F.gtb a (lit 1)) eqn:Ga; destruct (F.gtb b (lit 1)) eqn:Gb;
  try (apply leb_not_gtb in Ea; congruence);
  try (apply leb_not_gtb in Eb; congruence);
  cbn; repeat split; try tauto; try lia; try (intros [? ?]; discriminate);
  try (intros [H|H]; [destruct a | destruct b]; cbn in *; discriminate).
Qed.

(** C4: the state of a row is -1, 0 or 1.  It is 1 exactly when both
    ratios are at most 1, and -1 exactly when both are above 1, so it is 0
    in every other case; it is 0 when a ratio is missing. *)
Theorem term_state_encoding (r9d rvx3m : series) (i : nat)
    (Hi : (i < List.length r9d)%nat) :
  let s := nth i (term_state r9d rvx3m) 0 in
  let a := nth i r9d NaN in
  let b := nth i rvx3m NaN in
  (s = -1 \/ s = 0 \/ s = 1) /\
  (s = 1 <-> F.leb a (lit 1) = true /\ F.leb b (lit 1) = true) /\
  (s = -1 <-> F.gtb a (lit 1) = true /\ F.gtb b (lit 1) = true) /\
  (F.isna a = true \/ F.isna b = true -> s = 0).
Proof.
  cbv zeta. rewrite term_state_nth by exact Hi. apply term_state1_cases.
Qed.

(** gap filled *)
Lemma nth_map_seq {A} (f : nat -> A) (n i : nat) (d : A) :
  (i < n)%nat -> nth i (map f (seq 0 n)) d = f i.
Proof.
  intro Hi.
  rewrite (nth_indep _ d (f 0%nat)) by (rewrite length_map, length_seq; exact Hi).
  rewrite (map_nth f). rewrite seq_nth by exact Hi. reflexivity.
Qed.

Lemma gap_filled_nth (gap low high pc : series) (i : nat) :
  (i < List.length gap)%nat ->
  nth i (gap_filled gap low high pc) 0 =
  gap_filled1 (nth i gap NaN) (nth i low NaN) (nth i high NaN) (nth i pc NaN).
Proof.
  intro Hi. unfold gap_filled. rewrite nth_map_seq by exact Hi. reflexivity.
Qed.

Lemma gap_filled_flag_row (gap_pct low high prior_close : series) (i : nat) :
  (i < List.length gap_pct)%nat ->
  let v := nth i (gap_filled gap_pct low high prior_close) 0 in
  let g := nth i gap_pct NaN in
  let l := nth i low NaN in
  let h := nth i high NaN in
  let pc := nth i prior_close NaN in
  (v = 0 \/ v = 1) /\
  (v = 1 <->
   (F.gtb g (lit 0) = true /\ F.leb l pc = true) \/
   (F.ltb g (lit 0) = true /\ F.geb h pc = true)) /\
  (F.eqb g (lit 0) = true -> v = 0).
Proof.
  intro Hi. cbv zeta. rewrite gap_filled_nth by exact Hi. unfold gap_filled1.
  set (g := nth i gap_pct NaN).
  split; [|split].
  - destruct (_ || _); cbn; auto.
  - rewrite <- !andb_true_iff, <- orb_true_iff.
    destruct (_ || _); cbn; split; intro; try reflexivity; try discriminate; lia.
  - intro H0. apply float_zero_not_signed in H0. destruct H0 as [H1 H2].
    rewrite H1, H2. reflexivity.
Qed.

(** ** The calendar conversions *)

Lemma month_day_table (leap : bool) :
  forallb (month_day_ok leap) (seq 0 365) = true.
Proof. destruct leap; vm_compute; reflexivity. Qed.

Lemma month_day_preceding (n : Z) (leap : bool) :
  0 <= n <= 364 ->
  Cal.DAYS_BEFORE_MONTH (fst (Cal.month_day n leap))
  + (if (2 <? fst (Cal.month_day n leap)) && leap then 1 else 0)
  + snd (Cal.month_day n leap) = n + 1.
Proof.
  intro Hn.
  pose proof (month_day_table leap) as H.
  rewrite forallb_forall in H.
  specialize (H (Z.to_nat n)).
  unfold month_day_ok in H. rewrite Z2Nat.id in H by lia.
  apply Z.eqb_eq. apply H. apply in_seq. lia.
Qed.

(** The year found by [ord2ymd], away from the last day of a leap cycle. *)
Lemma days_before_year_split (a b c d : Z) :
  0 <= b <= 3 -> 0 <= c <= 24 -> 0 <= d <= 3 ->
  Cal.days_before_year (a * 400 + 1 + b * 100 + c * 4 + d)
  = a * 146097 + b * 36524 + c * 1461 + d * 365.
Proof.
  intros Hb Hc Hd. unfold Cal.days_before_year.
  Z.to_euclidean_division_equations. lia.
Qed.

Lemma is_leap_split (a b c d : Z) :
  0 <= b <= 3 -> 0 <= c <= 24 -> 0 <= d <= 3 ->
  Cal.is_leap (a * 400 + 1 + b * 100 + c * 4 + d)
  = (d =? 3) && (negb (c =? 24) || (b =? 3)).
Proof.
  intros Hb Hc Hd. unfold Cal.is_leap.
  repeat match goal with
  | |- context [?x =? ?y] => destruct (Z.eqb_spec x y)
  end; cbn; try reflexivity; exfalso;
  Z.to_euclidean_division_equations; lia.
Qed.

Lemma ymd2ord_ord2ymd (t : Z) :
  1 <= t -> Cal.ymd2ord (Cal.year t) (Cal.month t) (Cal.day t) = t.
Proof.
  intro Ht. unfold Cal.year, Cal.month, Cal.day, Cal.ord2ymd.
  unfold Cal.DI400Y, Cal.DI100Y, Cal.DI4Y.
  set (n0 := t - 1).
  set (a := n0 / 146097). set (r1 := n0 mod 146097).
  set (b := r1 / 36524). set (r2 := r1 mod 36524).
  set (c := r2 / 1461). set (r3 := r2 mod 1461).
  set (d := r3 / 365). set (r4 := r3 mod 365).
  assert (Hn0 : n0 = a * 146097 + r1 /\ 0 <= r1 < 146097).
  { subst a r1. pose proof (Z.div_mod n0 146097 ltac:(lia)).
    pose proof (Z.mod_pos_bound n0 146097 ltac:(lia)). lia. }
  assert (Hr1 : r1 = b * 36524 + r2 /\ 0 <= r2 < 36524).
  { subst b r2. pose proof (Z.div_mod r1 36524 ltac:(lia)).
    pose proof (Z.mod_pos_bound r1 36524 ltac:(lia)). lia. }
  assert (Hr2 : r2 = c * 1461 + r3 /\ 0 <= r3 < 1461).
  { subst c r3. pose proof (Z.div_mod r2 1461 ltac:(lia)).
    pose proof (Z.mod_pos_bound r2 1461 ltac:(lia)). lia. }
  assert (Hr3 : r3 = d * 365 + r4 /\ 0 <= r4 < 365).
  { subst d r4. pose proof (Z.div_mod r3 365 ltac:(lia)).
    pose proof (Z.mod_pos_bound r3 365 ltac:(lia)). lia. }
  clearbody a r1 b r2 c r3 d r4.
  assert (Hb : 0 <= b <= 4) by lia.
  assert (Hc : 0 <= c <= 24) by lia.
  assert (Hd : 0 <= d <= 4) by lia.
  destruct (Z.eqb_spec d 4) as [Hd4|Hd4]; cbn [orb].
  - (* the last day of a leap year *)
    cbn [fst snd]. subst d.
    unfold Cal.ymd2ord, Cal.days_before_month.
    change (Cal.DAYS_BEFORE_MONTH 12) with 334. subst n0.
    destruct (Z.eq_dec b 4) as [Hb4|Hb4].
    + assert (c = 0) by lia. subst b c.
      replace (a * 400 + 1 + 4 * 100 + 0 * 4 + 4 - 1) with ((a + 1) * 400 + 1 + 0 * 100 + 0*4 + 3) by lia. 
      lia.
    + replace (a * 400 + 1 + b * 100 + c * 4 + 4 - 1)
        with (a * 400 + 1 + b * 100 + c * 4 + 3) by lia.
      rewrite days_before_year_split, is_leap_split by lia.
      destruct (Z.eqb_spec c 24); destruct (Z.eqb_spec b 3); cbn; lia.
  - subst n0. change (Cal.DAYS_BEFORE_MONTH 12) with 334.
    destruct (Z.eqb_spec b 4) as [Hb4|Hb4].
    + cbn [fst snd]. assert (r2 = 0) by lia. assert (c = 0 /\ d = 0 /\ r4 = 0) by lia.
      destruct H0 as (-> & -> & ->). subst b r2.
      replace (a * 400 + 1 + 4 * 100 + 0 * 4 + 0 - 1) with (a * 400 + 1 + 3 * 100 + 24 * 4 + 3) by lia.
      unfold Cal.ymd2ord, Cal.days_before_month.
      change (Cal.DAYS_BEFORE_MONTH 12) with 334.
      rewrite days_before_year_split, is_leap_split by lia. cbn. lia.
    + cbn [fst snd].
      unfold Cal.ymd2ord, Cal.days_before_month.
      rewrite days_before_year_split, is_leap_split by lia.
      pose proof (month_day_preceding r4 ((d =? 3) && (negb (c =? 24) || (b =? 3))) ltac:(lia)).
      lia.
Qed.

Lemma replace_day1_offset (t : Z) :
  1 <= t -> Cal.replace_day1 t = t - (Cal.day t - 1).
Proof.
  intro Ht. pose proof (ymd2ord_ord2ymd t Ht) as H.
  unfold Cal.replace_day1. unfold Cal.ymd2ord in *. lia.
Qed.

Lemma fridays_back_count (t : Z) (k : nat) :
  Cal.weekday t = 4 ->
  Z.of_nat (fridays_back t k) = (Z.of_nat k + 6) / 7.
Proof.
  unfold Cal.weekday. intro Hw. induction k as [|k IH].
  - reflexivity.
  - cbn [fridays_back]. rewrite Nat2Z.inj_add, IH. unfold Cal.weekday.
    destruct (Z.eqb_spec ((t - Z.of_nat k + 6) mod 7) 4) as [E|E];
      rewrite Nat2Z.inj_succ; cbn [Z.of_nat];
      Z.to_euclidean_division_equations; lia.
Qed.

Lemma is_opex1_flag (dt : Z) : is_opex1 dt = 0 \/ is_opex1 dt = 1.
Proof. unfold is_opex1. destruct (_ =? _); auto. Qed.

Lemma is_opex1_third_friday (dt : Z) :
  1 <= dt -> (is_opex1 dt = 1 <-> third_friday dt).
Proof.
  intro Hdt. unfold is_opex1, third_friday, Cal.add_days, Cal.add_weeks.
  rewrite replace_day1_offset by exact Hdt.
  set (D := Cal.day dt). clearbody D.
  split.
  - destruct (Z.eqb_spec dt (dt - (D - 1) + (4 - Cal.weekday (dt - (D - 1))) mod 7 + 7 * 2)) as [E|E];
      [intros _|discriminate].
    assert (Hw : Cal.weekday dt = 4).
    { unfold Cal.weekday in *. Z.to_euclidean_division_equations. lia. }
    split; [exact Hw|].
    apply Nat2Z.inj. rewrite (fridays_back_count _ _ Hw).
    assert (15 <= D <= 21).
    { unfold Cal.weekday in *. Z.to_euclidean_division_equations. lia. }
    rewrite Z2Nat.id by lia. Z.to_euclidean_division_equations. lia.
  - intros [Hw Hc].
    apply (f_equal Z.of_nat) in Hc. rewrite (fridays_back_count _ _ Hw) in Hc.
    assert (HD : 15 <= D <= 21).
    { destruct (Z.le_gt_cases D 0).
      - replace (Z.to_nat D) with 0%nat in Hc by lia. cbn in Hc. discriminate.
      - rewrite Z2Nat.id in Hc by lia. Z.to_euclidean_division_equations. lia. }
    destruct (Z.eqb_spec dt (dt - (D - 1) + (4 - Cal.weekday (dt - (D - 1))) mod 7 + 7 * 2)) as [E|E];
      [reflexivity|].
    exfalso. apply E. unfold Cal.weekday in *.
    Z.to_euclidean_division_equations. lia.
Qed.


(** ** Lengths and rows of Series operations *)

Lemma zip_with_length {A B C} (f : A -> B -> C) (a : list A) (b : list B) :
  List.length (zip_with f a b) = Nat.min (List.length a) (List.length b).
Proof. unfold zip_with. rewrite length_map. apply length_combine. Qed.

Lemma zip_with_nth {A B C} (f : A -> B -> C) (a : list A) : forall (b : list B)
    (i : nat) (da : A) (db : B) (d : C),
  (i < List.length a)%nat -> (i < List.length b)%nat ->
  nth i (zip_with f a b) d = f (nth i a da) (nth i b db).
Proof.
  induction a as [|x a IH]; intros b i da db d Ha Hb; [cbn in Ha; lia|].
  destruct b as [|y b]; [cbn in Hb; lia|].
  destruct i as [|i]; [reflexivity|].
  cbn in Ha, Hb. apply (IH b i da db d); lia.
Qed.

Lemma ewm_loop_length alpha adjust minp (vals : series) : forall st,
  List.length (ewm_loop alpha adjust minp st vals) = List.length vals.
Proof. induction vals; intros; cbn; auto. Qed.

Lemma prep_values_length (s : series) :
  List.length (prep_values s) = List.length s.
Proof. apply length_map. Qed.

Lemma ewm_core_length alpha adjust minp (vals : series) :
  List.length (ewm_core alpha adjust minp vals) = List.length vals.
Proof. destruct vals; cbn; [reflexivity|]. rewrite ewm_loop_length. reflexivity. Qed.

Lemma ewm_mean_length alpha adjust minp (vals : series) :
  List.length (ewm_mean alpha adjust minp vals) = List.length vals.
Proof. unfold ewm_mean. rewrite ewm_core_length. apply prep_values_length. Qed.

Lemma shift_length (k : nat) (s : series) : List.length (shift k s) = List.length s.
Proof.
  unfold shift. rewrite length_firstn, length_app, repeat_length. lia.
Qed.

Lemma diff_length (k : nat) (s : series) : List.length (diff k s) = List.length s.
Proof. unfold diff. rewrite zip_with_length, shift_length. lia. Qed.

Lemma avg_gain_length (n : nat) (s : series) :
  List.length (avg_gain n s) = List.length s.
Proof.
  unfold avg_gain, clip_lower. rewrite ewm_mean_length, length_map. apply diff_length.
Qed.

Lemma avg_loss_length (n : nat) (s : series) :
  List.length (avg_loss n s) = List.length s.
Proof.
  unfold avg_loss, clip_upper. rewrite ewm_mean_length, !length_map. apply diff_length.
Qed.

(** ** rsi *)

Lemma rsi_value_zero_loss (g l : float) :
  F.eqb l (lit 0) = true -> rsi_value g l = NaN.
Proof.
  intro H. unfold rsi_value. rewrite H. destruct g; reflexivity.
Qed.

(** C1: at a row whose smoothed average loss is zero, RSI_14 is missing.
    The code replaces a zero average loss by a missing value before it
    divides, so such a row gets no 100. *)
Theorem rsi_zero_loss_missing (s : series) (i : nat)
    (Hzero : F.eqb (nth i (avg_loss 14 s) NaN) (lit 0) = true) :
  nth i (rsi s) NaN = NaN.
Proof.
  destruct (Nat.lt_ge_cases i (List.length s)) as [Hi|Hi].
  - unfold rsi, rsi_n.
    rewrite (zip_with_nth rsi_value _ _ i NaN NaN NaN)
      by (rewrite ?avg_gain_length, ?avg_loss_length; exact Hi).
    apply rsi_value_zero_loss. exact Hzero.
  - rewrite nth_overflow in Hzero by (rewrite avg_loss_length; exact Hi).
    discriminate.
Qed.

Lemma is_zero_Fin (x : float) : is_zero x -> exists q, x = Fin q /\ (q == 0)%Q.
Proof.
  unfold is_zero. destruct x as [q| | |]; cbn; try discriminate.
  intro H. exists q. split; [reflexivity|]. apply Qeq_bool_iff. exact H.
Qed.

Lemma ewm_step_zero alpha (st : ewm_state) (cur : float) :
  is_zero (weighted st) -> is_zero cur ->
  weighted (ewm_step alpha true st cur) = weighted st /\
  nobs (ewm_step alpha true st cur) = S (nobs st).
Proof.
  intros Hw Hc.
  destruct (is_zero_Fin _ Hw) as (w & Ew & Hw0).
  destruct (is_zero_Fin _ Hc) as (c & Ec & Hc0).
  unfold ewm_step. rewrite Ew, Ec. cbn.
  assert (E : Qeq_bool w c = true).
  { apply Qeq_bool_iff. rewrite Hw0, Hc0. reflexivity. }
  rewrite E. cbn. split; reflexivity.
Qed.

Lemma ewm_loop_zeros alpha minp (zs : series) : forall (st : ewm_state) (j : nat),
  Forall is_zero zs -> is_zero (weighted st) -> (j < List.length zs)%nat ->
  nth j (ewm_loop alpha true minp st zs) NaN =
  if Nat.leb minp (nobs st + S j) then weighted st else NaN.
Proof.
  induction zs as [|z zs IH]; intros st j Hz Hw Hj; [cbn in Hj; lia|].
  inversion Hz as [|? ? Hz1 Hzs]; subst.
  destruct (ewm_step_zero alpha st z Hw Hz1) as [E1 E2].
  cbn [ewm_loop]. destruct j as [|j].
  - cbn [nth]. unfold ewm_out. rewrite E1, E2.
    replace (nobs st + 1)%nat with (S (nobs st)) by lia. reflexivity.
  - cbn [nth]. cbn in Hj. rewrite IH; [|exact Hzs| rewrite E1; exact Hw | lia].
    rewrite E1, E2. replace (S (nobs st) + S j)%nat with (nobs st + S (S j))%nat by lia.
    reflexivity.
Qed.

(** Values that are all finite pass the window preparation unchanged. *)
Lemma prep_values_fixed (s : series) :
  Forall (fun x => exists q, x = Fin q) s -> prep_values s = s.
Proof.
  induction 1 as [|x s [q ->] _ IH]; [reflexivity|].
  cbn. f_equal. exact IH.
Qed.

Lemma prep_values_zeros (zs : series) :
  Forall is_zero zs -> prep_values (NaN :: zs) = NaN :: zs.
Proof.
  intro H. cbn. f_equal. apply prep_values_fixed.
  eapply Forall_impl; [|exact H]. intros x Hx.
  destruct (is_zero_Fin x Hx) as (q & -> & _). exists q. reflexivity.
Qed.

(** The smoothed mean of a Series that starts with a missing value and has
    zeros after it: zero (its first zero) once [minp] zeros were seen. *)
Lemma ewm_mean_nan_zeros alpha minp (zs : series) (i : nat) :
  Forall is_zero zs -> (1 <= minp <= i)%nat -> (i <= List.length zs)%nat ->
  is_zero (nth i (ewm_mean alpha true minp (NaN :: zs)) NaN).
Proof.
  intros Hz Hm Hi. unfold ewm_mean. rewrite (prep_values_zeros zs Hz).
  destruct i as [|i]; [lia|].
  destruct zs as [|z zs]; [cbn in Hi; lia|].
  inversion Hz as [|? ? Hz1 Hzs]; subst.
  destruct (is_zero_Fin _ Hz1) as (q & -> & Hq).
  cbn [ewm_core nth ewm_loop].
  change (ewm_step alpha true (ewm_init NaN) (Fin q))
    with (mk_ewm (Fin q) (lit 1) 1).
  destruct i as [|i].
  - cbn [nth]. unfold ewm_out. cbn [nobs weighted].
    replace (Nat.leb minp 1) with true by (symmetry; apply Nat.leb_le; lia).
    exact Hz1.
  - cbn [nth]. cbn in Hi. rewrite ewm_loop_zeros; [|exact Hzs|exact Hz1|lia].
    cbn [nobs weighted].
    replace (Nat.leb minp (1 + S i)) with true by (symmetry; apply Nat.leb_le; lia).
    exact Hz1.
Qed.

Lemma combine_firstn_r {A B} (a : list A) : forall (b : list B),
  combine a (firstn (List.length a) b) = combine a b.
Proof.
  induction a as [|x a IH]; intros [|y b]; cbn; try reflexivity.
  rewrite IH. reflexivity.
Qed.

Lemma diff1_cons (x : float) (s : series) :
  diff 1 (x :: s) = F.sub x NaN :: zip_with F.sub s (x :: s).
Proof.
  unfold diff, shift, zip_with. cbn [repeat app List.length firstn combine map fst snd].
  rewrite combine_firstn_r. reflexivity.
Qed.

(** Without a down move, every loss is zero. *)
Lemma losses_zero (rest : list Q) : forall (prev : Q),
  nondecreasing prev rest ->
  Forall is_zero
    (map F.neg (clip_upper (lit 0)
       (zip_with F.sub (map Fin rest) (map Fin (prev :: rest))))).
Proof.
  induction rest as [|q rest IH]; intros prev H; [constructor|].
  destruct H as [Hle Hnd].
  cbn [map zip_with combine fst snd clip_upper]. 
  change (map (fun p : float * float => F.sub (fst p) (snd p)) (combine (map Fin rest) (Fin q :: map Fin rest)))
    with (zip_with F.sub (map Fin rest) (map Fin (q :: rest))).
  constructor; [|apply (IH q Hnd)].
  unfold is_zero. cbn -[Qle_bool Qeq_bool].
  destruct (Qle_bool (q + - prev) (inject_Z 0)) eqn:E; cbn -[Qle_bool Qeq_bool].
  - apply Qeq_bool_iff. apply Qle_bool_iff in E. change (inject_Z 0) with 0%Q in *. lra.
  - reflexivity.
Qed.

Lemma avg_loss_zero_without_down_moves (closes : list Q) (i : nat) :
  no_down_moves closes -> (14 <= i < List.length closes)%nat ->
  F.eqb (nth i (avg_loss 14 (map Fin closes)) NaN) (lit 0) = true.
Proof.
  intros Hnd Hi. destruct closes as [|q rest]; [cbn in Hi; lia|].
  unfold avg_loss. cbn [map]. rewrite diff1_cons.
  cbn [clip_upper map F.sub F.add F.neg F.gtb F.ltb].
  apply ewm_mean_nan_zeros.
  - apply (losses_zero rest q Hnd).
  - lia.
  - unfold clip_upper. rewrite !length_map, zip_with_length, !length_map.
    cbn [List.length] in *. rewrite length_map. lia.
Qed.

(** ** Frames: generic facts *)

Lemma lookup_map_values {A B} (g : A -> B) (name : string)
    (l : list (string * A)) :
  lookup name (map (fun c => (fst c, g (snd c))) l) = option_map g (lookup name l).
Proof.
  induction l as [|[k v] l IH]; [reflexivity|].
  cbn. destruct (String.eqb k name); [reflexivity|exact IH].
Qed.

Lemma lookup_tabulate {A} (h : string -> A) (name : string) (names : list string) :
  In name names -> lookup name (map (fun n => (n, h n)) names) = Some (h name).
Proof.
  induction names as [|n names IH]; intro Hin; [contradiction|].
  cbn. destruct (String.eqb_spec n name) as [->|Hne]; [reflexivity|].
  destruct Hin as [E|Hin]; [contradiction|]. exact (IH Hin).
Qed.

Lemma map_fst_tabulate {A} (h : string -> A) (names : list string) :
  map fst (map (fun n => (n, h n)) names) = names.
Proof. rewrite map_map. cbn. apply map_id. Qed.

Lemma mask_filter_row {A} (f : Z -> bool) (idx : list Z) :
  forall (l : list A) (N : nat),
  (N < List.length idx)%nat -> f (nth N idx 0) = true ->
  nth_error (mask_filter (map f idx) l)
            (List.length (filter f (firstn N idx))) = nth_error l N.
Proof.
  induction idx as [|d idx IH]; intros l N HN Hf; [cbn in HN; lia|].
  destruct l as [|x l].
  - cbn [map mask_filter]. destruct (f d); rewrite !nth_error_nil; reflexivity.
  - destruct N as [|N].
    + cbn in Hf. cbn. rewrite Hf. reflexivity.
    + cbn in HN, Hf. cbn [map mask_filter firstn filter].
      destruct (f d); cbn [List.length nth_error]; apply IH; (lia || exact Hf).
Qed.

Lemma mask_filter_Forall {A} (P : A -> Prop) (mask : list bool) :
  forall (l : list A), Forall P l -> Forall P (mask_filter mask l).
Proof.
  induction mask as [|b mask IH]; intros l Hl; [constructor|].
  destruct Hl as [|x l Hx Hl]; [destruct b; constructor|].
  destruct b; cbn; [constructor; [exact Hx|]|]; apply IH; exact Hl.
Qed.

Lemma mask_filter_length {A B} (mask : list bool) :
  forall (l : list A) (l' : list B),
  List.length l = List.length l' ->
  List.length (mask_filter mask l) = List.length (mask_filter mask l').
Proof.
  induction mask as [|b mask IH]; intros l l' H; [reflexivity|].
  destruct l, l'; try discriminate; [destruct b; reflexivity|].
  cbn in H. destruct b; cbn; [f_equal|]; apply IH; lia.
Qed.

Lemma fit_length (n : nat) (c : column) : List.length (fit n c) = n.
Proof.
  unfold fit. rewrite length_firstn, length_app, repeat_length. lia.
Qed.

Lemma fit_id (n : nat) (c : column) : List.length c = n -> fit n c = c.
Proof.
  intro H. unfold fit. rewrite H, Nat.sub_diag. cbn [repeat].
  rewrite app_nil_r. rewrite <- H. apply firstn_all.
Qed.

Lemma Forall_prefix {A} (P : A -> Prop) (l : list A) : forall (n : nat),
  Forall P l -> Forall P (firstn n l).
Proof.
  induction l as [|x l IH]; intros [|n] H; cbn; try constructor.
  - inversion H; assumption.
  - apply IH. inversion H; assumption.
Qed.

Lemma fit_Forall (P : cell -> Prop) (n : nat) (c : column) :
  P (CFloat NaN) -> Forall P c -> Forall P (fit n c).
Proof.
  intros HP Hc. unfold fit. apply Forall_prefix. apply Forall_app. split; [exact Hc|].
  apply Forall_forall. intros x Hx. apply repeat_spec in Hx. subst. exact HP.
Qed.

(** The cell of a kept calendar position in the emitted table. *)
Lemma cell_at_emitted (start : Z) (df : frame) (name : string) (col : column)
    (N : nat) :
  In name cols -> lookup name (columns df) = Some col ->
  (N < List.length (index df))%nat -> start <= nth N (index df) 0 ->
  cell_at (emitted start df) name (row_of start (index df) N) = nth_error col N.
Proof.
  intros Hin Hcol HN Hstart.
  unfold cell_at, emitted, reindex_columns. cbn [columns].
  rewrite (lookup_tabulate _ name cols Hin).
  unfold trim. cbn [columns index].
  rewrite lookup_map_values, Hcol. cbn [option_map].
  unfold row_of. apply mask_filter_row; [exact HN|]. apply Z.leb_le. exact Hstart.
Qed.

Lemma nth_error_of_floats (s : series) (N : nat) :
  nth_error (of_floats s) N = option_map CFloat (nth_error s N).
Proof. unfold of_floats. apply nth_error_map. Qed.

Lemma nth_error_of_ints (l : list Z) (N : nat) :
  nth_error (of_ints l) N = option_map CInt (nth_error l N).
Proof. unfold of_ints. apply nth_error_map. Qed.

Lemma of_floats_length (s : series) : List.length (of_floats s) = List.length s.
Proof. apply length_map. Qed.

Lemma of_ints_length (l : list Z) : List.length (of_ints l) = List.length l.
Proof. apply length_map. Qed.

(** Row [N] of [s.shift(1)]: missing in the first row, the value of the row
    before in the others. *)
Lemma shift1_nth_error (s : series) (N : nat) :
  (N < List.length s)%nat ->
  nth_error (shift 1 s) N =
  Some (match N with O => NaN | S M => nth M s NaN end).
Proof.
  intro HN. unfold shift. cbn [repeat app].
  rewrite nth_error_firstn.
  destruct (Nat.ltb_spec N (List.length s)) as [_|H]; [|lia].
  destruct N as [|M]; [reflexivity|]. cbn [nth_error].
  apply nth_error_nth'. lia.
Qed.

Section Table.

Variables (fsqrt : float -> float) (tz : Z -> Z) (pad : bool).
Variables (idx : list Z) (o h l c : series) (ts : list Z).
Variables (vo vc vh vl : series) (v9o v9c v3o v3c : series).

Local Abbreviation df :=
  (assemble_table fsqrt tz pad idx o h l c ts vo vc vh vl v9o v9c v3o v3c).

Lemma assemble_table_index : index df = idx.
Proof. reflexivity. Qed.

(** C9: in the written row of the session at calendar position N,
    Prior_Close is the index close of position N-1, and missing at
    position 0; the close of the row is the close of position N. *)
Theorem prior_close_is_lagged_close (start : Z) (N : nat)
    (Hlen : List.length c = List.length idx)
    (HN : (N < List.length idx)%nat)
    (Hkept : start <= nth N idx 0) :
  let row := row_of start idx N in
  cell_at (emitted start df) "Prior_Close" row
  = Some (CFloat (match N with O => NaN | S M => nth M c NaN end)) /\
  cell_at (emitted start df) "close" row = Some (CFloat (nth N c NaN)) /\
  nth_error (fcol df "Prior_Close") N
  = Some (match N with O => NaN | S M => nth M (fcol df "close") NaN end).
Proof.
  cbv zeta. split; [|split].
  - transitivity (nth_error (fit (List.length idx) (of_floats (shift 1 c))) N).
    + refine (cell_at_emitted start df "Prior_Close" _ N _ _ HN Hkept);
        [cbn; tauto | reflexivity].
    + rewrite fit_id by (rewrite of_floats_length, shift_length; exact Hlen).
      rewrite nth_error_of_floats, shift1_nth_error by lia. reflexivity.
  - transitivity (nth_error (fit (List.length idx) (of_floats c)) N).
    + refine (cell_at_emitted start df "close" _ N _ _ HN Hkept);
        [cbn; tauto | reflexivity].
    + rewrite fit_id by (rewrite of_floats_length; exact Hlen).
      rewrite nth_error_of_floats. rewrite (nth_error_nth' c NaN) by lia. reflexivity.
  - change (fcol df "Prior_Close")
      with (map cell_float (fit (List.length idx) (of_floats (shift 1 c)))).
    change (fcol df "close")
      with (map cell_float (fit (List.length idx) (of_floats c))).
    rewrite !fit_id by (rewrite of_floats_length, ?shift_length; exact Hlen).
    unfold of_floats. rewrite !map_map. cbn [cell_float]. rewrite !map_id.
    apply shift1_nth_error. lia.
Qed.

End Table.

Lemma mem_In (name : string) (names : list string) :
  existsb (String.eqb name) names = true -> In name names.
Proof.
  intro H. apply existsb_exists in H. destruct H as (x & Hx & E).
  apply String.eqb_eq in E. subst. exact Hx.
Qed.

(** A float column as it is stored in the table and read back. *)
Lemma fit_of_floats_nth_error (n : nat) (s : series) (N : nat) :
  (N < n)%nat ->
  nth_error (fit n (of_floats s)) N
  = Some (CFloat (nth N (map cell_float (fit n (of_floats s))) NaN)).
Proof.
  intro HN.
  assert (Hall : Forall (fun x => x = CFloat (cell_float x)) (fit n (of_floats s))).
  { apply fit_Forall; [reflexivity|]. unfold of_floats. apply Forall_map.
    apply Forall_forall. intros; reflexivity. }
  pose proof (fit_length n (of_floats s)) as Hlen.
  revert Hall Hlen. generalize (fit n (of_floats s)) as col. intros col Hall Hlen.
  destruct (nth_error col N) as [x|] eqn:E.
  - rewrite Forall_forall in Hall. rewrite (Hall x (nth_error_In _ _ E)) at 1.
    f_equal. f_equal.
    rewrite (nth_indep _ NaN (cell_float x)) by (rewrite length_map; lia).
    rewrite map_nth. f_equal. symmetry. apply nth_error_nth. exact E.
  - apply nth_error_None in E. lia.
Qed.

Lemma emitted_float_cell (start : Z) (df : frame) (name : string) (s : series)
    (N : nat) :
  In name cols ->
  lookup name (columns df) = Some (fit (nrows df) (of_floats s)) ->
  (N < List.length (index df))%nat -> start <= nth N (index df) 0 ->
  cell_at (emitted start df) name (row_of start (index df) N)
  = Some (CFloat (nth N (fcol df name) NaN)).
Proof.
  intros Hin Hcol HN Hkept.
  rewrite (cell_at_emitted start df name _ N Hin Hcol HN Hkept).
  unfold fcol. rewrite Hcol. apply fit_of_floats_nth_error. exact HN.
Qed.

Lemma emitted_int_cell (start : Z) (df : frame) (name : string) (l : list Z)
    (N : nat) :
  In name cols ->
  lookup name (columns df) = Some (fit (nrows df) (of_ints l)) ->
  List.length l = nrows df ->
  (N < List.length (index df))%nat -> start <= nth N (index df) 0 ->
  cell_at (emitted start df) name (row_of start (index df) N)
  = Some (CInt (nth N l 0)).
Proof.
  intros Hin Hcol Hlen HN Hkept.
  rewrite (cell_at_emitted start df name _ N Hin Hcol HN Hkept).
  rewrite fit_id by (rewrite of_ints_length; exact Hlen).
  rewrite nth_error_of_ints. unfold nrows in Hlen.
  rewrite (nth_error_nth' l 0) by lia. reflexivity.
Qed.

Lemma fcol_length (df : frame) (name : string) (c : column) :
  lookup name (columns df) = Some (fit (nrows df) c) ->
  List.length (fcol df name) = nrows df.
Proof.
  intro H. unfold fcol. rewrite H, length_map. apply fit_length.
Qed.

Lemma term_state_length (a : series) : forall (b : series),
  List.length (term_state a b) = List.length a.
Proof. induction a; intros; cbn; auto. Qed.

Lemma gap_filled_length (g l h p : series) :
  List.length (gap_filled g l h p) = List.length g.
Proof. unfold gap_filled. rewrite length_map, length_seq. reflexivity. Qed.

Section Table.

Variables (fsqrt : float -> float) (tz : Z -> Z) (pad : bool).
Variables (idx : list Z) (o h l c : series) (ts : list Z).
Variables (vo vc vh vl : series) (v9o v9c v3o v3c : series).

Local Abbreviation df :=
  (assemble_table fsqrt tz pad idx o h l c ts vo vc vh vl v9o v9c v3o v3c).

Lemma lookup_Day_of_Week :
  lookup "Day_of_Week" (columns df)
  = Some (fit (nrows df) (of_ints (map (fun d => Cal.weekday d + 2) idx))).
Proof. table_lookup. Qed.

Lemma lookup_Gap_Filled :
  lookup "Gap_Filled" (columns df)
  = Some (fit (nrows df)
            (of_ints (gap_filled (fcol df "Gap_Pct") (fcol df "low")
                                 (fcol df "high") (fcol df "Prior_Close")))).
Proof. table_lookup. Qed.

Lemma lookup_float_columns :
  (exists s, lookup "Gap_Pct" (columns df) = Some (fit (nrows df) (of_floats s))) /\
  (exists s, lookup "low" (columns df) = Some (fit (nrows df) (of_floats s))) /\
  (exists s, lookup "high" (columns df) = Some (fit (nrows df) (of_floats s))) /\
  (exists s, lookup "Prior_Close" (columns df) = Some (fit (nrows df) (of_floats s))) /\
  (exists s, lookup "VIX9D_VIX_Ratio" (columns df) = Some (fit (nrows df) (of_floats s))) /\
  (exists s, lookup "VIX_VIX3M_Ratio" (columns df) = Some (fit (nrows df) (of_floats s))).
Proof. repeat split; eexists; table_lookup. Qed.

(** C10: Day_of_Week of a written row is the weekday of its date, counted
    from 0 on Monday, plus 2: a value from 2 to 8, and 2, 3, 4, 5 and 6
    from Monday to Friday. *)
Theorem day_of_week_encoding (start : Z) (N : nat)
    (HN : (N < List.length idx)%nat) (Hkept : start <= nth N idx 0) :
  cell_at (emitted start df) "Day_of_Week" (row_of start idx N)
  = Some (CInt (Cal.weekday (nth N idx 0) + 2)) /\
  2 <= Cal.weekday (nth N idx 0) + 2 <= 8 /\
  map (fun d => Cal.weekday d + 2)
      [Cal.ymd2ord 2024 1 15; Cal.ymd2ord 2024 1 16; Cal.ymd2ord 2024 1 17;
       Cal.ymd2ord 2024 1 18; Cal.ymd2ord 2024 1 19]
  = [2; 3; 4; 5; 6].
Proof.
  split; [|split].
  - transitivity (Some (CInt (nth N (map (fun d => Cal.weekday d + 2) idx) 0))).
    + exact (emitted_int_cell start df "Day_of_Week" _ N ltac:(in_names)
               lookup_Day_of_Week (length_map _ idx) HN Hkept).
    + rewrite (nth_indep _ 0 ((fun d => Cal.weekday d + 2) 0))
        by (rewrite length_map; exact HN).
      rewrite (map_nth (fun d => Cal.weekday d + 2)). reflexivity.
  - unfold Cal.weekday. pose proof (Z.mod_pos_bound (nth N idx 0 + 6) 7). lia.
  - vm_compute. reflexivity.
Qed.

(** C6: in every written row Gap_Filled is 0 or 1.  It is 1 exactly when
    Gap_Pct is above 0 and the low is at most the prior close, or Gap_Pct
    is below 0 and the high is at least the prior close; it is 0 when
    Gap_Pct is 0. *)
Theorem gap_filled_rows (start : Z) (N : nat)
    (HN : (N < List.length idx)%nat) (Hkept : start <= nth N idx 0) :
  let row := row_of start idx N in
  exists (v : Z) (g lo hi pc : float),
    cell_at (emitted start df) "Gap_Filled" row = Some (CInt v) /\
    cell_at (emitted start df) "Gap_Pct" row = Some (CFloat g) /\
    cell_at (emitted start df) "low" row = Some (CFloat lo) /\
    cell_at (emitted start df) "high" row = Some (CFloat hi) /\
    cell_at (emitted start df) "Prior_Close" row = Some (CFloat pc) /\
    (v = 0 \/ v = 1) /\
    (v = 1 <->
     (F.gtb g (lit 0) = true /\ F.leb lo pc = true) \/
     (F.ltb g (lit 0) = true /\ F.geb hi pc = true)) /\
    (F.eqb g (lit 0) = true -> v = 0).
Proof.
  cbv zeta.
  destruct lookup_float_columns as ((sg & Hg) & (sl & Hl) & (sh & Hh) & (sp & Hp) & _).
  pose proof (fcol_length df "Gap_Pct" _ Hg) as HG.
  exists (nth N (gap_filled (fcol df "Gap_Pct") (fcol df "low")
                            (fcol df "high") (fcol df "Prior_Close")) 0),
         (nth N (fcol df "Gap_Pct") NaN), (nth N (fcol df "low") NaN),
         (nth N (fcol df "high") NaN), (nth N (fcol df "Prior_Close") NaN).
  split; [|split; [|split; [|split; [|split]]]].
  - refine (emitted_int_cell start df "Gap_Filled" _ N ltac:(in_names)
               lookup_Gap_Filled _ HN Hkept).
    rewrite gap_filled_length. exact HG.
  - exact (emitted_float_cell start df "Gap_Pct" _ N ltac:(in_names) Hg HN Hkept).
  - exact (emitted_float_cell start df "low" _ N ltac:(in_names) Hl HN Hkept).
  - exact (emitted_float_cell start df "high" _ N ltac:(in_names) Hh HN Hkept).
  - exact (emitted_float_cell start df "Prior_Close" _ N ltac:(in_names) Hp HN Hkept).
  - apply (gap_filled_flag_row _ _ _ _ N). rewrite HG. exact HN.
Qed.

End Table.

(** ** [trend_score] does not raise on finite closes *)

Lemma zip_with_Forall {A B C} (P : A -> Prop) (Q : B -> Prop) (R : C -> Prop)
    (f : A -> B -> C) :
  (forall x y, P x -> Q y -> R (f x y)) ->
  forall (a : list A) (b : list B),
  Forall P a -> Forall Q b -> Forall R (zip_with f a b).
Proof.
  intros Hf a. induction a as [|x a IH]; intros b Ha Hb; [constructor|].
  destruct b as [|y b]; [constructor|].
  inversion Ha; inversion Hb; subst.
  change (zip_with f (x :: a) (y :: b)) with (f x y :: zip_with f a b).
  constructor; [apply Hf; assumption | apply IH; assumption].
Qed.

Lemma Forall_True {A} (l : list A) : Forall (fun _ => True) l.
Proof. induction l; constructor; auto. Qed.

Lemma Qeq_bool_one (d : Q) : (d == 1)%Q -> Qeq_bool d 0 = false.
Proof.
  intro H. destruct (Qeq_bool d 0) eqn:E; [|reflexivity].
  apply Qeq_bool_iff in E. rewrite H in E. discriminate E.
Qed.

Lemma ewm_step_finite (alpha : Q) (st : ewm_state) (cur : float) :
  Qeq_bool (inject_Z 1 * (1 - alpha) + alpha) 0 = false ->
  finite (weighted st) -> old_wt st = lit 1 -> finite cur ->
  finite (weighted (ewm_step alpha false st cur)) /\
  old_wt (ewm_step alpha false st cur) = lit 1 /\
  nobs (ewm_step alpha false st cur) = S (nobs st).
Proof.
  intros Ha [w Hw] Ho [c Hc]. unfold ewm_step. rewrite Hw, Ho, Hc.
  cbn -[Qeq_bool inject_Z Qplus Qmult Qminus Qdiv Qopp].
  split; [|split; reflexivity].
  destruct (Qeq_bool w c); cbn -[Qeq_bool inject_Z Qplus Qmult Qminus Qdiv Qopp].
  - exists w. reflexivity.
  - destruct (Qeq_bool alpha (1 # 2));
      cbn -[Qeq_bool inject_Z Qplus Qmult Qminus Qdiv Qopp].
    + rewrite Qeq_bool_one by ring. eexists. reflexivity.
    + rewrite Ha. eexists. reflexivity.
Qed.

Lemma ewm_loop_finite (alpha : Q) (vals : series) :
  Qeq_bool (inject_Z 1 * (1 - alpha) + alpha) 0 = false ->
  forall st : ewm_state,
  Forall finite vals -> finite (weighted st) -> old_wt st = lit 1 ->
  (1 <= nobs st)%nat ->
  Forall finite (ewm_loop alpha false 1 st vals).
Proof.
  intro Ha. induction vals as [|v vals IH]; intros st Hv Hw Ho Hn; [constructor|].
  inversion Hv as [|? ? Hv1 Hvs]; subst.
  destruct (ewm_step_finite alpha st v Ha Hw Ho Hv1) as (Hw' & Ho' & Hn').
  cbn [ewm_loop]. constructor.
  - unfold ewm_out. rewrite Hn'. cbn. exact Hw'.
  - apply IH; [exact Hvs | exact Hw' | exact Ho' | lia].
Qed.

Lemma ema_finite (s : series) (n : nat) :
  Qeq_bool (inject_Z 1 * (1 - alpha_of_span (Z.of_nat n))
            + alpha_of_span (Z.of_nat n)) 0 = false ->
  Forall finite s -> Forall finite (ema s n).
Proof.
  intros Ha Hs. unfold ema, ewm_mean. rewrite (prep_values_fixed s Hs).
  unfold ewm_core. destruct s as [|v0 rest]; [constructor|].
  inversion Hs as [|? ? [q Hq] Hrest]; subst.
  constructor.
  - exists q. reflexivity.
  - apply ewm_loop_finite; [exact Ha | exact Hrest | exists q; reflexivity
                           | reflexivity | cbn; lia].
Qed.

Lemma np_sign_sub_finite (x y : float) :
  finite x -> finite y -> finite (np_sign (F.sub x y)).
Proof. intros [a ->] [b ->]. cbn. eexists. reflexivity. Qed.

Lemma add_finite (x y : float) : finite x -> finite y -> finite (F.add x y).
Proof. intros [a ->] [b ->]. cbn. eexists. reflexivity. Qed.

Lemma round_astype_int_finite (s : series) :
  Forall finite s -> exists zs, round_astype_int s = Ok zs.
Proof.
  induction s as [|x s IH]; intro H; [exists []; reflexivity|].
  inversion H as [|? ? [q ->] Hs]; subst.
  destruct (IH Hs) as [zs E]. cbn. rewrite E. cbn. eexists. reflexivity.
Qed.

Lemma sign_column_finite (c : series) (n : nat) :
  Qeq_bool (inject_Z 1 * (1 - alpha_of_span (Z.of_nat n))
            + alpha_of_span (Z.of_nat n)) 0 = false ->
  Forall finite c ->
  Forall finite (map np_sign (zip_with F.sub c (ema c n))).
Proof.
  intros Ha Hc. apply Forall_map.
  apply (zip_with_Forall finite finite (fun x => finite (np_sign x)) F.sub
           np_sign_sub_finite); [exact Hc|].
  apply ema_finite; assumption.
Qed.

(** On closes that are all finite, [astype(int)] has nothing to refuse. *)
Lemma trend_score_total (c : series) :
  Forall finite c -> exists ts, trend_score c = Ok ts.
Proof.
  intro Hc. unfold trend_score.
  match goal with
  | |- context [round_astype_int ?sc] =>
      assert (Hsc : Forall finite sc);
        [|destruct (round_astype_int_finite sc Hsc) as [zs E]]
  end.
  - apply (zip_with_Forall finite (fun _ => True) finite).
    + intros x a [q ->] _. cbn. eexists. reflexivity.
    + apply (zip_with_Forall finite finite finite F.add add_finite).
      * apply (zip_with_Forall finite finite finite F.add add_finite);
          apply sign_column_finite; try exact Hc; vm_compute; reflexivity.
      * apply sign_column_finite; try exact Hc; vm_compute; reflexivity.
    + apply Forall_True.
  - rewrite E. cbn. eexists. reflexivity.
Qed.

(** ** The written file *)

Lemma position_spec (name : string) (names : list string) :
  In name names ->
  exists k, position name names = Some k /\ nth_error names k = Some name.
Proof.
  induction names as [|n names IH]; intro Hin; [contradiction|].
  cbn. destruct (String.eqb_spec n name) as [->|Hne].
  - exists 0%nat. split; reflexivity.
  - destruct Hin as [E|Hin]; [contradiction|].
    destruct (IH Hin) as (k & Hk & Hnth). exists (S k). rewrite Hk. split; [reflexivity|exact Hnth].
Qed.

Lemma emitted_header (start : Z) (df : frame) :
  Csv.header (Csv.of_frame (emitted start df)) = cols.
Proof.
  unfold Csv.of_frame, emitted, reindex_columns. cbn [Csv.header columns].
  apply map_fst_tabulate.
Qed.

Lemma emitted_line_length (start : Z) (df : frame) (line : list string) :
  In line (Csv.lines (Csv.of_frame (emitted start df))) ->
  List.length line = List.length cols.
Proof.
  unfold Csv.of_frame, emitted, reindex_columns. cbn [Csv.lines columns].
  intro H. apply in_map_iff in H. destruct H as (i & <- & _).
  unfold Csv.row. rewrite !length_map. reflexivity.
Qed.

Lemma lookup_emitted (start : Z) (df : frame) (name : string) (c : column) :
  In name cols -> lookup name (columns df) = Some c ->
  lookup name (columns (emitted start df))
  = Some (mask_filter (map (fun d => start <=? d) (index df)) c).
Proof.
  intros Hin Hc. unfold emitted, reindex_columns. cbn [columns].
  rewrite (lookup_tabulate _ name cols Hin).
  unfold trim. cbn [columns index]. rewrite lookup_map_values, Hc. reflexivity.
Qed.

(** The field of a written line under a column: the rendering of a cell of
    that column of the table. *)
Lemma field_of_emitted (start : Z) (df : frame) (name : string) (c : column)
    (line : list string) :
  In name cols -> lookup name (columns df) = Some c ->
  In line (Csv.lines (Csv.of_frame (emitted start df))) ->
  exists i : nat,
    (i < nrows (emitted start df))%nat /\
    field (Csv.of_frame (emitted start df)) line name
    = Some (Csv.render
              (nth i (mask_filter (map (fun d => start <=? d) (index df)) c) CNA)).
Proof.
  intros Hin Hc Hline.
  unfold field. rewrite emitted_header.
  destruct (position_spec name cols Hin) as (k & Hk & Hnth). rewrite Hk.
  unfold Csv.of_frame in Hline. cbn [Csv.lines] in Hline.
  apply in_map_iff in Hline. destruct Hline as (i & <- & Hi).
  apply in_seq in Hi. exists i. split; [lia|].
  unfold Csv.row. rewrite nth_error_map.
  unfold emitted, reindex_columns. cbn [columns].
  rewrite nth_error_map, Hnth. cbn [option_map snd].
  unfold trim. cbn [columns index]. rewrite lookup_map_values, Hc. reflexivity.
Qed.

(** ** Columns without a value *)

Lemma all_nan_repeat (n : nat) : all_nan (repeat NaN n).
Proof. apply Forall_forall. intros x Hx. apply repeat_spec in Hx. exact Hx. Qed.

Lemma all_nan_map (f : float -> float) (s : series) :
  f NaN = NaN -> all_nan s -> all_nan (map f s).
Proof.
  intros Hf Hs. apply Forall_map. eapply Forall_impl; [|exact Hs].
  intros x ->. exact Hf.
Qed.

Lemma all_nan_firstn (n : nat) (s : series) : all_nan s -> all_nan (firstn n s).
Proof. apply Forall_prefix. Qed.

Lemma all_nan_shift (k : nat) (s : series) : all_nan s -> all_nan (shift k s).
Proof.
  intro Hs. unfold shift. apply all_nan_firstn. apply Forall_app.
  split; [apply all_nan_repeat | exact Hs].
Qed.

Lemma all_nan_ffill (s : series) : all_nan s -> all_nan (ffill_from NaN s).
Proof.
  induction 1 as [|x s Hx Hs IH]; [constructor|].
  subst x. cbn. constructor; [reflexivity|exact IH].
Qed.

Lemma div_nan_l (y : float) : F.div NaN y = NaN.
Proof. reflexivity. Qed.

Lemma div_nan_r (x : float) : F.div x NaN = NaN.
Proof. destruct x; reflexivity. Qed.

Lemma all_nan_sdiv_l (a b : series) : all_nan a -> all_nan (sdiv a b).
Proof.
  intro Ha. unfold sdiv.
  apply (zip_with_Forall (fun x => x = NaN) (fun _ => True) (fun x => x = NaN));
    [intros x y -> _; apply div_nan_l | exact Ha | apply Forall_True].
Qed.

Lemma all_nan_sdiv_r (a b : series) : all_nan b -> all_nan (sdiv a b).
Proof.
  intro Hb. unfold sdiv.
  apply (zip_with_Forall (fun _ => True) (fun x => x = NaN) (fun x => x = NaN));
    [intros x y _ ->; apply div_nan_r | apply Forall_True | exact Hb].
Qed.

Lemma all_nan_pct_change (pad : bool) (k : nat) (s : series) :
  all_nan s -> all_nan (pct_change pad k s).
Proof.
  intro Hs. unfold pct_change.
  assert (H : all_nan (if pad then ffill_from NaN s else s)).
  { destruct pad; [apply all_nan_ffill|]; exact Hs. }
  apply all_nan_map; [reflexivity|]. apply all_nan_sdiv_l. exact H.
Qed.

Lemma all_nan_scale (k : Z) (s : series) : all_nan s -> all_nan (scale k s).
Proof. intro Hs. unfold scale. apply all_nan_map; [reflexivity|exact Hs]. Qed.

Lemma all_missing_fit (n : nat) (s : series) :
  all_nan s -> all_missing (fit n (of_floats s)).
Proof.
  intro Hs. apply fit_Forall; [reflexivity|]. unfold of_floats.
  apply Forall_map. eapply Forall_impl; [|exact Hs]. intros x ->. reflexivity.
Qed.

Lemma all_nan_read_back (n : nat) (s : series) :
  all_nan s -> all_nan (map cell_float (fit n (of_floats s))).
Proof.
  intro Hs. apply Forall_map. eapply Forall_impl; [|exact (all_missing_fit n s Hs)].
  intros x ->. reflexivity.
Qed.

Lemma all_nan_take_rows (src : list Z) (s : series) (idx : list Z) :
  all_nan s -> all_nan (take_rows src s idx).
Proof.
  intro Hs. unfold take_rows. apply Forall_map. apply Forall_forall.
  intros d _. destruct (index_of d src) as [i|]; [|reflexivity].
  destruct (nth_in_or_default i s NaN) as [Hin|E]; [|exact E].
  unfold all_nan in Hs. rewrite Forall_forall in Hs. exact (Hs _ Hin).
Qed.

(** ** Reindexing *)

Lemma index_identical_eq (a : list Z) : forall (b : list Z),
  index_identical a b = true <-> a = b.
Proof.
  induction a as [|x a IH]; intros [|y b]; cbn; split; intro H;
    try reflexivity; try discriminate.
  - apply andb_true_iff in H. destruct H as [Hx Hab].
    apply Z.eqb_eq in Hx. apply IH in Hab. subst. reflexivity.
  - injection H as -> ->. rewrite Z.eqb_refl. cbn. apply IH. reflexivity.
Qed.

Lemma index_identical_refl (a : list Z) : index_identical a a = true.
Proof. apply index_identical_eq. reflexivity. Qed.

Lemma has_duplicates_NoDup (l : list Z) : NoDup l -> has_duplicates l = false.
Proof.
  induction 1 as [|x l Hx _ IH]; [reflexivity|].
  cbn. rewrite IH, orb_false_r.
  destruct (existsb (Z.eqb x) l) eqn:E; [|reflexivity].
  apply existsb_exists in E. destruct E as (y & Hy & Exy).
  apply Z.eqb_eq in Exy. subst y. contradiction.
Qed.

Lemma has_duplicates_repeated (l : list Z) : has_duplicates l = false -> NoDup l.
Proof.
  induction l as [|x l IH]; intro H; [constructor|].
  cbn in H. apply orb_false_iff in H. destruct H as [Hx Hl].
  constructor; [|apply IH; exact Hl].
  intro Hin. assert (E : existsb (Z.eqb x) l = true).
  { apply existsb_exists. exists x. split; [exact Hin|apply Z.eqb_refl]. }
  rewrite E in Hx. discriminate Hx.
Qed.

Lemma alignable_can_reindex (df : fframe) (idx : list Z) :
  alignable df idx ->
  index_identical (f_index df) idx = true \/
  (index_identical (f_index df) idx = false /\ cannot_reindex (f_index df) idx = false).
Proof.
  intros [Hnd|Heq].
  - destruct (index_identical (f_index df) idx) eqn:E; [left; reflexivity|right].
    split; [reflexivity|]. unfold cannot_reindex.
    rewrite E, (has_duplicates_NoDup _ Hnd). reflexivity.
  - left. apply index_identical_eq. exact Heq.
Qed.

(** What [reindex] returns for a frame that can be put on the calendar:
    a frame over the calendar with the columns under the same names. *)
Lemma reindex_alignable (df : fframe) (idx : list Z) :
  alignable df idx ->
  exists df', reindex df idx = Ok df' /\ f_index df' = idx /\
              forall name, (exists s, lookup name (f_columns df) = Some s) ->
                           exists s', lookup name (f_columns df') = Some s'.
Proof.
  intro H. unfold reindex.
  destruct (alignable_can_reindex df idx H) as [E|[E1 E2]].
  - rewrite E. exists df. split; [reflexivity|]. split; [|auto].
    apply index_identical_eq. exact E.
  - rewrite E1, E2. eexists. split; [reflexivity|]. split; [reflexivity|].
    intros name [s Hs]. cbn [f_columns].
    rewrite (lookup_map_values (fun s => take_rows (f_index df) s idx)), Hs.
    eexists. reflexivity.
Qed.

(** A frame with a repeated date that is not the calendar is refused. *)
Lemma reindex_refused (df : fframe) (idx : list Z) :
  ~ alignable df idx -> reindex df idx = Raise ValueError.
Proof.
  intros Hna. unfold reindex, cannot_reindex.
  destruct (index_identical (f_index df) idx) eqn:E.
  - exfalso. apply Hna. right. apply index_identical_eq. exact E.
  - destruct (has_duplicates (f_index df)) eqn:Ed; [reflexivity|].
    exfalso. apply Hna. left. apply has_duplicates_repeated. exact Ed.
Qed.

(** Lines 133 to 137: a column of a frame over the calendar is read as it
    is, and a column that the frame lacks is read as missing. *)
Lemma get_reindexed_on_calendar (df : fframe) (name : string) (idx : list Z) :
  f_index df = idx ->
  exists s, get_reindexed df name idx = Ok s /\
            (forall c, lookup name (f_columns df) = Some c -> s = c) /\
            (lookup name (f_columns df) = None -> all_nan s).
Proof.
  intro Hidx. unfold get_reindexed, reindex_series.
  destruct (lookup name (f_columns df)) as [c|].
  - rewrite Hidx, index_identical_refl. exists c.
    split; [reflexivity|]. split; [intros c' [= <-]; reflexivity|discriminate].
  - destruct idx as [|d idx'].
    + exists []. cbn. split; [reflexivity|]. split; [discriminate|constructor].
    + exists (take_rows [] [] (d :: idx')).
      split; [reflexivity|]. split; [discriminate|].
      intros _. apply all_nan_take_rows. constructor.
Qed.

(** The substitute frame gives all-missing Open and Close columns. *)
Lemma substitute_all_nan (idx : list Z) (name : string) :
  exists s, get_reindexed (empty_frame idx ["Open"; "Close"]) name idx = Ok s /\
            all_nan s.
Proof.
  destruct (get_reindexed_on_calendar (empty_frame idx ["Open"; "Close"]) name idx
              eq_refl) as (s & E & Hsome & Hnone).
  exists s. split; [exact E|].
  cbn [empty_frame f_columns map lookup] in Hsome, Hnone.
  destruct (String.eqb "Open" name).
  - rewrite (Hsome _ eq_refl). apply all_nan_repeat.
  - destruct (String.eqb "Close" name).
    + rewrite (Hsome _ eq_refl). apply all_nan_repeat.
    + apply Hnone. reflexivity.
Qed.

Lemma term_state_nan_l (a : series) : forall (b : series),
  all_nan a -> Forall (fun z => z = 0) (term_state a b).
Proof.
  induction a as [|x a IH]; intros b Ha; [constructor|].
  inversion Ha as [|? ? Hx Ha']; subst. cbn [term_state].
  constructor; [reflexivity | apply IH; exact Ha'].
Qed.

Lemma term_state1_nan_r (x : float) : term_state1 x NaN = 0.
Proof.
  unfold term_state1. cbn. rewrite !andb_false_r. reflexivity.
Qed.

Lemma term_state_nan_r (a : series) : forall (b : series),
  all_nan b -> Forall (fun z => z = 0) (term_state a b).
Proof.
  induction a as [|x a IH]; intros b Hb; [constructor|].
  cbn [term_state]. constructor.
  - destruct Hb as [|y b Hy Hb]; cbn [hd]; [|subst y]; apply term_state1_nan_r.
  - apply IH. destruct Hb; cbn [tl]; [constructor|assumption].
Qed.

Lemma render_all_missing (c : column) (i : nat) :
  all_missing c -> Csv.render (nth i c CNA) = "".
Proof.
  intro Hc. destruct (nth_in_or_default i c CNA) as [Hin|E].
  - unfold all_missing in Hc. rewrite Forall_forall in Hc. rewrite (Hc _ Hin). reflexivity.
  - rewrite E. reflexivity.
Qed.

Lemma render_all_zero (c : column) (i : nat) :
  Forall (fun x => x = CInt 0) c -> (i < List.length c)%nat ->
  Csv.render (nth i c CNA) = "0".
Proof.
  intros Hc Hi. rewrite Forall_forall in Hc.
  rewrite (Hc _ (nth_In c CNA Hi)). reflexivity.
Qed.

Lemma field_of_emitted_fit (start : Z) (df : frame) (name : string) (c : column)
    (line : list string) :
  In name cols -> lookup name (columns df) = Some (fit (nrows df) c) ->
  In line (Csv.lines (Csv.of_frame (emitted start df))) ->
  exists i : nat,
    (i < List.length (mask_filter (map (fun d => (start <=? d)%Z) (index df))
                                  (fit (nrows df) c)))%nat /\
    field (Csv.of_frame (emitted start df)) line name
    = Some (Csv.render
              (nth i (mask_filter (map (fun d => start <=? d) (index df))
                                  (fit (nrows df) c)) CNA)).
Proof.
  intros Hin Hc Hline.
  destruct (field_of_emitted start df name _ line Hin Hc Hline) as (i & Hi & E).
  exists i. split; [|exact E].
  rewrite (mask_filter_length _ _ (index df)) by apply fit_length.
  exact Hi.
Qed.

Lemma all_missing_field (start : Z) (df : frame) (name : string) (c : column)
    (line : list string) :
  In name cols -> lookup name (columns df) = Some c -> all_missing c ->
  In line (Csv.lines (Csv.of_frame (emitted start df))) ->
  field (Csv.of_frame (emitted start df)) line name = Some "".
Proof.
  intros Hin Hc Hall Hline.
  destruct (field_of_emitted start df name c line Hin Hc Hline) as (i & _ & ->).
  f_equal. apply render_all_missing. apply mask_filter_Forall. exact Hall.
Qed.

Lemma all_zero_field (start : Z) (df : frame) (name : string) (l : list Z)
    (line : list string) :
  In name cols -> lookup name (columns df) = Some (fit (nrows df) (of_ints l)) ->
  Forall (fun z => z = 0) l ->
  List.length l = nrows df ->
  In line (Csv.lines (Csv.of_frame (emitted start df))) ->
  field (Csv.of_frame (emitted start df)) line name = Some "0".
Proof.
  intros Hin Hc Hall Hlen Hline.
  destruct (field_of_emitted_fit start df name _ line Hin Hc Hline) as (i & Hi & ->).
  f_equal. apply render_all_zero; [|exact Hi].
  apply mask_filter_Forall. rewrite fit_id by (rewrite of_ints_length; exact Hlen).
  unfold of_ints. apply Forall_map. eapply Forall_impl; [|exact Hall].
  intros z ->. reflexivity.
Qed.

Section Table.

Variables (fsqrt : float -> float) (tz : Z -> Z) (pad : bool).
Variables (idx : list Z) (o h l c : series) (ts : list Z).
Variables (vo vc vh vl : series).

Local Abbreviation table :=
  (assemble_table fsqrt tz pad idx o h l c ts vo vc vh vl).

Lemma lookup_placeholders (v9o v9c v3o v3c : series) (p : string) :
  In p placeholder_columns ->
  lookup p (columns (table v9o v9c v3o v3c))
  = Some (fit (nrows (table v9o v9c v3o v3c))
            (repeat (CFloat NaN) (nrows (table v9o v9c v3o v3c)))).
Proof.
  intro Hin. unfold placeholder_columns in Hin. cbn [In] in Hin.
  repeat (destruct Hin as [<-|Hin]; [table_lookup|]). contradiction.
Qed.

Lemma placeholders_missing (v9o v9c v3o v3c : series) (p : string) :
  In p placeholder_columns ->
  exists col, lookup p (columns (table v9o v9c v3o v3c)) = Some col /\
              all_missing col.
Proof.
  intro Hin. eexists. split; [apply lookup_placeholders; exact Hin|].
  apply fit_Forall; [reflexivity|].
  apply Forall_forall. intros x Hx. apply repeat_spec in Hx. exact Hx.
Qed.

Lemma vix9d_columns_missing (v9o v9c v3o v3c : series) (n : string) :
  all_nan v9o -> all_nan v9c ->
  In n vix9d_columns ->
  exists col, lookup n (columns (table v9o v9c v3o v3c)) = Some col /\
              all_missing col.
Proof.
  intros Ho Hc Hin. unfold vix9d_columns in Hin. cbn [In] in Hin.
  repeat (destruct Hin as [<-|Hin]; [eexists; split; [table_lookup|]|]);
    [| | | |contradiction].
  - apply all_missing_fit. exact Ho.
  - apply all_missing_fit. exact Hc.
  - apply all_missing_fit. apply all_nan_scale. apply all_nan_pct_change.
    apply all_nan_read_back. exact Hc.
  - apply all_missing_fit. apply all_nan_sdiv_l. apply all_nan_read_back. exact Hc.
Qed.

Lemma vix3m_columns_missing (v9o v9c v3o v3c : series) (n : string) :
  all_nan v3o -> all_nan v3c ->
  In n vix3m_columns ->
  exists col, lookup n (columns (table v9o v9c v3o v3c)) = Some col /\
              all_missing col.
Proof.
  intros Ho Hc Hin. unfold vix3m_columns in Hin. cbn [In] in Hin.
  repeat (destruct Hin as [<-|Hin]; [eexists; split; [table_lookup|]|]);
    [| | | |contradiction].
  - apply all_missing_fit. exact Ho.
  - apply all_missing_fit. exact Hc.
  - apply all_missing_fit. apply all_nan_scale. apply all_nan_pct_change.
    apply all_nan_read_back. exact Hc.
  - apply all_missing_fit. apply all_nan_sdiv_r. apply all_nan_read_back. exact Hc.
Qed.

Lemma lookup_Term_Structure_State (v9o v9c v3o v3c : series) :
  lookup "Term_Structure_State" (columns (table v9o v9c v3o v3c))
  = Some (fit (nrows (table v9o v9c v3o v3c))
            (of_ints (term_state (fcol (table v9o v9c v3o v3c) "VIX9D_VIX_Ratio")
                                 (fcol (table v9o v9c v3o v3c) "VIX_VIX3M_Ratio")))).
Proof. table_lookup. Qed.

Lemma fcol_all_nan (df : frame) (name : string) (col : column) :
  lookup name (columns df) = Some col -> all_missing col -> all_nan (fcol df name).
Proof.
  intros H Hall. unfold fcol. rewrite H. apply Forall_map.
  eapply Forall_impl; [|exact Hall]. intros x ->. reflexivity.
Qed.

(** Without the 9-day or the 3-month closes, the state is 0 in every row. *)
Lemma term_state_without_secondary (v9o v9c v3o v3c : series) :
  all_nan v9c \/ all_nan v3c ->
  exists zs,
    lookup "Term_Structure_State" (columns (table v9o v9c v3o v3c))
    = Some (fit (nrows (table v9o v9c v3o v3c)) (of_ints zs)) /\
    Forall (fun z => z = 0) zs /\
    List.length zs = nrows (table v9o v9c v3o v3c).
Proof.
  intro H. eexists. split; [apply lookup_Term_Structure_State|]. split.
  - destruct H as [H|H].
    + apply term_state_nan_l.
      assert (E : lookup "VIX9D_VIX_Ratio" (columns (table v9o v9c v3o v3c))
                  = Some (fit (nrows (table v9o v9c v3o v3c))
                            (of_floats (sdiv (map cell_float
                                               (fit (nrows (table v9o v9c v3o v3c))
                                                    (of_floats v9c)))
                                             (fcol (table v9o v9c v3o v3c) "VIX_Close")))))
        by table_lookup.
      apply (fcol_all_nan _ _ _ E). apply all_missing_fit. apply all_nan_sdiv_l.
      apply all_nan_read_back. exact H.
    + apply term_state_nan_r.
      assert (E : lookup "VIX_VIX3M_Ratio" (columns (table v9o v9c v3o v3c))
                  = Some (fit (nrows (table v9o v9c v3o v3c))
                            (of_floats (sdiv (fcol (table v9o v9c v3o v3c) "VIX_Close")
                                             (map cell_float
                                               (fit (nrows (table v9o v9c v3o v3c))
                                                    (of_floats v3c)))))))
        by table_lookup.
      apply (fcol_all_nan _ _ _ E). apply all_missing_fit. apply all_nan_sdiv_r.
      apply all_nan_read_back. exact H.
  - rewrite term_state_length.
    destruct (lookup_float_columns fsqrt tz pad idx o h l c ts vo vc vh vl
                v9o v9c v3o v3c)
      as (_ & _ & _ & _ & (s & Hs) & _).
    exact (fcol_length _ _ _ Hs).
Qed.

(** The columns computed from the index and the short-vol frames do not
    read the 9-day and 3-month frames. *)
Lemma index_vix_columns_independent
    (v9o v9c v3o v3c v9o' v9c' v3o' v3c' : series) (n : string) :
  In n index_vix_columns ->
  lookup n (columns (table v9o v9c v3o v3c))
  = lookup n (columns (table v9o' v9c' v3o' v3c')).
Proof.
  intro Hin.
  let names := eval vm_compute in index_vix_columns in
  change index_vix_columns with names in Hin.
  cbn [In] in Hin.
  repeat (destruct Hin as [<-|Hin]; [table_lookup|]). contradiction.
Qed.

End Table.

(** ** The run *)

Lemma mask_filter_self {A} (f : A -> bool) (l : list A) :
  mask_filter (map f l) l = filter f l.
Proof.
  induction l as [|x l IH]; [reflexivity|].
  cbn. destruct (f x); [f_equal|]; exact IH.
Qed.

Lemma emitted_nrows (start : Z) (df : frame) :
  nrows (emitted start df)
  = List.length (filter (fun d => start <=? d) (index df)).
Proof.
  unfold emitted, reindex_columns, trim, nrows. cbn [index].
  rewrite mask_filter_self. reflexivity.
Qed.

Lemma emitted_nonempty (start : Z) (df : frame) :
  (exists d, In d (index df) /\ start <= d) ->
  Nat.eqb (nrows (emitted start df)) 0 = false.
Proof.
  intros (d & Hin & Hd). rewrite emitted_nrows. apply Nat.eqb_neq.
  assert (H : In d (filter (fun d => start <=? d) (index df))).
  { apply filter_In. split; [exact Hin|]. apply Z.leb_le. exact Hd. }
  destruct (filter _ _); [contradiction|discriminate].
Qed.

Lemma emitted_lines_length (start : Z) (df : frame) :
  List.length (Csv.lines (Csv.of_frame (emitted start df))) = nrows (emitted start df).
Proof. unfold Csv.of_frame. cbn [Csv.lines]. rewrite length_map, length_seq. reflexivity. Qed.

Lemma Ok_inj {A} (a b : A) : Ok a = Ok b -> a = b.
Proof. intro H. injection H as H. exact H. Qed.

Lemma Raise_inj {A} (a b : exn) : @Raise A a = Raise b -> a = b.
Proof. intro H. injection H as H. exact H. Qed.

Section Run.

Variables (fsqrt : float -> float) (tz : Z -> Z) (pad : bool).
Variable yf : string -> Z -> Z -> result fframe.
Variable today : Z.

(** What [download] returns: a frame with a row at least, and the four
    price columns in the order of the selection. *)
Lemma download_shape (ticker : string) (s e : Z) (f : fframe) :
  download yf ticker s e = Ok f ->
  f_index f <> [] /\
  exists o h l c,
    f_columns f = [("Open", o); ("High", h); ("Low", l); ("Close", c)].
Proof.
  unfold download. destruct (yf ticker s e) as [df|x]; cbn [bind]; [|discriminate].
  destruct (frame_empty df) eqn:E; [discriminate|].
  unfold select_columns, getitem.
  destruct (lookup "Open" (f_columns df)) as [o|]; cbn [bind]; [|discriminate].
  destruct (lookup "High" (f_columns df)) as [h|]; cbn [bind]; [|discriminate].
  destruct (lookup "Low" (f_columns df)) as [l|]; cbn [bind]; [|discriminate].
  destruct (lookup "Close" (f_columns df)) as [c|]; cbn [bind]; [|discriminate].
  intros [= <-]. cbn [f_index f_columns]. split; [|eauto 6].
  unfold frame_empty in E. destruct (f_index df); [discriminate|discriminate].
Qed.

(** Line 99 on the short-vol frame: the four price columns are there
    after the reindex. *)
Lemma reindexed_prices (vix : fframe) (idx : list Z) (vo vh vl vc : series) :
  f_columns vix = [("Open", vo); ("High", vh); ("Low", vl); ("Close", vc)] ->
  alignable vix idx ->
  exists vix' vo' vc' vh' vl',
    reindex vix idx = Ok vix' /\
    getitem vix' "Open" = Ok vo' /\ getitem vix' "Close" = Ok vc' /\
    getitem vix' "High" = Ok vh' /\ getitem vix' "Low" = Ok vl'.
Proof.
  intros Hv Ha.
  destruct (reindex_alignable vix idx Ha) as (vix' & E & _ & Hcols).
  assert (H : forall name, In name ["Open"; "Close"; "High"; "Low"] ->
              exists s, getitem vix' name = Ok s).
  { intros name Hin. destruct (Hcols name) as [s Hs].
    - rewrite Hv. cbn [In] in Hin.
      repeat (destruct Hin as [<-|Hin]; [eexists; reflexivity|]). contradiction.
    - exists s. unfold getitem. rewrite Hs. reflexivity. }
  destruct (H "Open") as [vo' Ho]; [in_names|].
  destruct (H "Close") as [vc' Hc]; [in_names|].
  destruct (H "High") as [vh' Hh]; [in_names|].
  destruct (H "Low") as [vl' Hl]; [in_names|].
  exists vix', vo', vc', vh', vl'. repeat split; assumption.
Qed.

(** Lines 99 and 133 to 137 on a 9-day or 3-month frame: the Open and
    Close columns on the calendar, all missing when the frame is the
    substitute. *)
Lemma reindexed_secondary (v : fframe) (idx : list Z) :
  alignable v idx ->
  exists v' so sc,
    reindex v idx = Ok v' /\
    get_reindexed v' "Open" idx = Ok so /\
    get_reindexed v' "Close" idx = Ok sc /\
    (v = empty_frame idx ["Open"; "Close"] -> all_nan so /\ all_nan sc).
Proof.
  intro Ha.
  destruct (reindex_alignable v idx Ha) as (v' & E & Hidx & _).
  destruct (get_reindexed_on_calendar v' "Open" idx Hidx) as (so & Eo & _).
  destruct (get_reindexed_on_calendar v' "Close" idx Hidx) as (sc & Ec & _).
  exists v', so, sc.
  split; [exact E|]. split; [exact Eo|]. split; [exact Ec|].
  intros ->. unfold reindex in E. cbn [empty_frame f_index] in E.
  rewrite index_identical_refl in E. apply Ok_inj in E. subst v'.
  destruct (substitute_all_nan idx "Open") as (s & Es & Hs).
  destruct (substitute_all_nan idx "Close") as (s' & Es' & Hs').
  rewrite Es in Eo. apply Ok_inj in Eo. subst so.
  rewrite Es' in Ec. apply Ok_inj in Ec. subst sc.
  split; assumption.
Qed.

Lemma alignable_secondary (r : result fframe) (idx : list Z) :
  (forall f, r = Ok f -> alignable f idx) -> alignable (secondary r idx) idx.
Proof.
  intro H. unfold secondary. destruct r as [f|e]; cbn [try_except].
  - apply H. reflexivity.
  - right. reflexivity.
Qed.

Lemma assemble_downloaded (spx vix v9 v3 vix' v9' v3' : fframe)
    (o h l c vo vc vh vl v9o v9c v3o v3c : series) (ts : list Z) :
  f_columns spx = [("Open", o); ("High", h); ("Low", l); ("Close", c)] ->
  trend_score c = Ok ts ->
  reindex vix (f_index spx) = Ok vix' ->
  getitem vix' "Open" = Ok vo -> getitem vix' "Close" = Ok vc ->
  getitem vix' "High" = Ok vh -> getitem vix' "Low" = Ok vl ->
  reindex v9 (f_index spx) = Ok v9' ->
  get_reindexed v9' "Open" (f_index spx) = Ok v9o ->
  get_reindexed v9' "Close" (f_index spx) = Ok v9c ->
  reindex v3 (f_index spx) = Ok v3' ->
  get_reindexed v3' "Open" (f_index spx) = Ok v3o ->
  get_reindexed v3' "Close" (f_index spx) = Ok v3c ->
  assemble fsqrt tz pad spx vix v9 v3
  = Ok (assemble_table fsqrt tz pad (f_index spx) o h l c ts vo vc vh vl
          v9o v9c v3o v3c).
Proof.
  intros Hs Hts Hvix Hvo Hvc Hvh Hvl H9 H9o H9c H3 H3o H3c.
  assert (Ec : getitem spx "Close" = Ok c) by (unfold getitem; rewrite Hs; reflexivity).
  assert (Eo : getitem spx "Open" = Ok o) by (unfold getitem; rewrite Hs; reflexivity).
  assert (Eh : getitem spx "High" = Ok h) by (unfold getitem; rewrite Hs; reflexivity).
  assert (El : getitem spx "Low" = Ok l) by (unfold getitem; rewrite Hs; reflexivity).
  unfold assemble.
  rewrite Hvix, H9, H3. cbn [bind].
  rewrite Ec, Eo, Eh, El. cbn [bind].
  rewrite Hts. cbn [bind].
  rewrite Hvo, Hvc, Hvh, Hvl. cbn [bind].
  rewrite H9o, H9c, H3o, H3c. cbn [bind].
  reflexivity.
Qed.

(** A frame with a repeated date that is not on the calendar stops the
    assembly at line 99. *)
Lemma assemble_refused (spx vix v9 v3 : fframe) :
  ~ alignable vix (f_index spx) \/ ~ alignable v9 (f_index spx) \/
  ~ alignable v3 (f_index spx) ->
  assemble fsqrt tz pad spx vix v9 v3 = Raise ValueError.
Proof.
  intro H. unfold assemble.
  destruct (reindex vix (f_index spx)) as [vix'|e] eqn:Ev.
  - destruct (reindex v9 (f_index spx)) as [v9'|e] eqn:E9.
    + destruct (reindex v3 (f_index spx)) as [v3'|e] eqn:E3.
      * exfalso. destruct H as [H|[H|H]].
        -- rewrite (reindex_refused _ _ H) in Ev. discriminate Ev.
        -- rewrite (reindex_refused _ _ H) in E9. discriminate E9.
        -- rewrite (reindex_refused _ _ H) in E3. discriminate E3.
      * cbn [bind]. unfold reindex in E3.
        destruct (index_identical _ _); [discriminate E3|].
        destruct (cannot_reindex _ _); [|discriminate E3].
        apply Raise_inj in E3. rewrite E3. reflexivity.
    + cbn [bind]. unfold reindex in E9.
      destruct (index_identical _ _); [discriminate E9|].
      destruct (cannot_reindex _ _); [|discriminate E9].
      apply Raise_inj in E9. rewrite E9. reflexivity.
  - cbn [bind]. unfold reindex in Ev.
    destruct (index_identical _ _); [discriminate Ev|].
    destruct (cannot_reindex _ _); [|discriminate Ev].
    apply Raise_inj in Ev. rewrite Ev. reflexivity.
Qed.

(** A table that [assemble] returns is a table of [assemble_table]. *)
Lemma assemble_cases (spx vix v9 v3 : fframe) (df : frame) :
  assemble fsqrt tz pad spx vix v9 v3 = Ok df ->
  exists o h l c ts vo vc vh vl v9o v9c v3o v3c,
    df = assemble_table fsqrt tz pad (f_index spx) o h l c ts vo vc vh vl
           v9o v9c v3o v3c.
Proof.
  unfold assemble.
  destruct (reindex vix _) as [vix'|]; cbn [bind]; [|discriminate].
  destruct (reindex v9 _) as [v9'|]; cbn [bind]; [|discriminate].
  destruct (reindex v3 _) as [v3'|]; cbn [bind]; [|discriminate].
  destruct (getitem spx "Close") as [c|]; cbn [bind]; [|discriminate].
  destruct (getitem spx "Open") as [o|]; cbn [bind]; [|discriminate].
  destruct (getitem spx "High") as [h|]; cbn [bind]; [|discriminate].
  destruct (getitem spx "Low") as [l|]; cbn [bind]; [|discriminate].
  destruct (trend_score c) as [ts|]; cbn [bind]; [|discriminate].
  destruct (getitem _ "Open") as [vo|]; cbn [bind]; [|discriminate].
  destruct (getitem _ "Close") as [vc|]; cbn [bind]; [|discriminate].
  destruct (getitem _ "High") as [vh|]; cbn [bind]; [|discriminate].
  destruct (getitem _ "Low") as [vl|]; cbn [bind]; [|discriminate].
  destruct (get_reindexed v9' "Open" _) as [v9o|]; cbn [bind]; [|discriminate].
  destruct (get_reindexed v9' "Close" _) as [v9c|]; cbn [bind]; [|discriminate].
  destruct (get_reindexed v3' "Open" _) as [v3o|]; cbn [bind]; [|discriminate].
  destruct (get_reindexed v3' "Close" _) as [v3c|]; cbn [bind]; [|discriminate].
  intro E. apply Ok_inj in E.
  exists o, h, l, c, ts, vo, vc, vh, vl, v9o, v9c, v3o, v3c.
  symmetry. exact E.
Qed.

Local Abbreviation fetch ticker start :=
  (download yf ticker (start - 400) (today + 1)).

Local Abbreviation run := (build fsqrt tz pad yf today).

Lemma build_primary_failure (start : Z) (output : string) (w : world) (e : exn) :
  fetch TICKER_SPX start = Raise e -> run start output w = (w, Raise e).
Proof. intro H. unfold build, io_bind, lift. rewrite H. reflexivity. Qed.

Lemma build_vix_failure (start : Z) (output : string) (w : world)
    (spx : fframe) (e : exn) :
  fetch TICKER_SPX start = Ok spx -> fetch TICKER_VIX start = Raise e ->
  run start output w = (w, Raise e).
Proof. intros H1 H2. unfold build, io_bind, lift. rewrite H1, H2. reflexivity. Qed.

(** [build] from the two downloads that it needs on. *)
Lemma build_unfold (start : Z) (output : string) (w : world) (spx vix : fframe) :
  fetch TICKER_SPX start = Ok spx -> fetch TICKER_VIX start = Ok vix ->
  run start output w
  = match assemble fsqrt tz pad spx vix
            (secondary (fetch TICKER_VIX9D start) (f_index spx))
            (secondary (fetch TICKER_VIX3M start) (f_index spx)) with
    | Raise e => (w, Raise e)
    | Ok df =>
        if String.eqb (dirname output) "" then (w, Raise FileNotFoundError)
        else (assoc_set output (Csv.of_frame (emitted start df)) w,
              if Nat.eqb (nrows (emitted start df)) 0 then Raise IndexError
              else Ok tt)
    end.
Proof.
  intros H1 H2. unfold build, io_bind, lift, io_try, ret, secondary. rewrite H1, H2.
  destruct (fetch TICKER_VIX9D start) as [v9|e9];
    destruct (fetch TICKER_VIX3M start) as [v3|e3]; cbn [try_except];
    (destruct (assemble _ _ _ _ _ _ _) as [df|e]; [|reflexivity]);
    unfold makedirs, write_file, raise, ret;
    (destruct (String.eqb (dirname output) ""); [reflexivity|]);
    fold (emitted start df);
    destruct (Nat.eqb (nrows (emitted start df)) 0); reflexivity.
Qed.

(** Every run either leaves the files as they were and raises, or writes
    one table of [assemble_table] and then reports. *)
Lemma build_cases (start : Z) (output : string) (w : world) :
  (exists e, run start output w = (w, Raise e)) \/
  (exists idx o h l c ts vo vc vh vl v9o v9c v3o v3c,
     let df := assemble_table fsqrt tz pad idx o h l c ts vo vc vh vl
                 v9o v9c v3o v3c in
     run start output w
     = (assoc_set output (Csv.of_frame (emitted start df)) w,
        if Nat.eqb (nrows (emitted start df)) 0 then Raise IndexError
        else Ok tt)).
Proof.
  destruct (fetch TICKER_SPX start) as [spx|e] eqn:H1;
    [|left; exists e; apply build_primary_failure; exact H1].
  destruct (fetch TICKER_VIX start) as [vix|e] eqn:H2;
    [|left; exists e; apply (build_vix_failure _ _ _ spx); assumption].
  rewrite (build_unfold start output w spx vix H1 H2).
  destruct (assemble _ _ _ _ _ _ _) as [df|e] eqn:Ha; [|left; eauto].
  destruct (String.eqb (dirname output) ""); [left; eauto|].
  right. destruct (assemble_cases _ _ _ _ _ Ha)
    as (o & h & l & c & ts & vo & vc & vh & vl & v9o & v9c & v3o & v3c & E).
  rewrite E.
  exists (f_index spx), o, h, l, c, ts, vo, vc, vh, vl, v9o, v9c, v3o, v3c.
  reflexivity.
Qed.

End Run.

Lemma vix9d_columns_declared (n : string) : In n vix9d_columns -> In n cols.
Proof.
  intro H. unfold vix9d_columns in H. cbn [In] in H.
  repeat (destruct H as [<-|H]; [in_names|]). contradiction.
Qed.

Lemma vix3m_columns_declared (n : string) : In n vix3m_columns -> In n cols.
Proof.
  intro H. unfold vix3m_columns in H. cbn [In] in H.
  repeat (destruct H as [<-|H]; [in_names|]). contradiction.
Qed.

Lemma placeholder_columns_declared (n : string) :
  In n placeholder_columns -> In n cols.
Proof.
  intro H. unfold placeholder_columns in H. cbn [In] in H.
  repeat (destruct H as [<-|H]; [in_names|]). contradiction.
Qed.

Lemma filter_sub {A} (f : A -> bool) (l : list A) (x : A) :
  In x (filter f l) -> In x l.
Proof. intro H. apply filter_In in H. destruct H as [H _]. exact H. Qed.

Lemma index_vix_columns_declared (n : string) : In n index_vix_columns -> In n cols.
Proof. unfold index_vix_columns. apply filter_sub. Qed.

(** A column of the written table depends on the same column of the table
    and on the calendar. *)
Lemma lookup_emitted_eq (start : Z) (df df' : frame) (n : string) :
  In n cols -> index df = index df' ->
  lookup n (columns df) = lookup n (columns df') ->
  lookup n (columns (emitted start df)) = lookup n (columns (emitted start df')).
Proof.
  intros Hin Hi Hl. unfold emitted, reindex_columns. cbn [columns].
  rewrite !(lookup_tabulate _ n cols Hin).
  unfold trim, nrows. cbn [columns index]. rewrite !lookup_map_values, Hl, Hi.
  reflexivity.
Qed.

Lemma secondary_failed (r : result fframe) (idx : list Z) :
  failed r -> secondary r idx = empty_frame idx ["Open"; "Close"].
Proof. intros [e ->]. reflexivity. Qed.

Section Run.

Variables (fsqrt : float -> float) (tz : Z -> Z) (pad : bool).
Variable yf : string -> Z -> Z -> result fframe.
Variable today : Z.

Local Abbreviation fetch ticker start :=
  (download yf ticker (start - 400) (today + 1)).

Local Abbreviation run := (build fsqrt tz pad yf today).


(** C8: the list of declared columns has 58 names, each once.  A run
    either raises before it writes, or writes one file whose header is
    that list in that order, every line of which has 58 fields, the
    fields of the placeholder columns empty; the run then completes when
    the file has a line, and raises IndexError when it has none. *)
Theorem output_contract (start : Z) (output : string) (w : world) :
  List.length cols = 58%nat /\ NoDup cols /\
  ((exists e, run start output w = (w, Raise e)) \/
   (exists f r,
      run start output w = (assoc_set output f w, r) /\
      Csv.header f = cols /\
      (forall line, In line (Csv.lines f) ->
         List.length line = 58%nat /\
         forall p, In p placeholder_columns -> field f line p = Some "") /\
      (Csv.lines f <> [] -> r = Ok tt) /\
      (Csv.lines f = [] -> r = Raise IndexError))).
Proof.
  split; [reflexivity|]. split.
  { apply (NoDup_count_occ' string_dec). intros x Hx.
    assert (E : forallb (fun n => Nat.eqb (count_occ string_dec cols n) 1) cols = true)
      by (vm_compute; reflexivity).
    rewrite forallb_forall in E. apply Nat.eqb_eq. exact (E x Hx). }
  destruct (build_cases fsqrt tz pad yf today start output w)
    as [H|(idx & o & h & l & c & ts & vo & vc & vh & vl & v9o & v9c & v3o & v3c & H)];
    [left; exact H|right].
  cbv zeta in H.
  set (df := assemble_table _ _ _ _ _ _ _ _ _ _ _ _ _ _ _ _ _) in H.
  exists (Csv.of_frame (emitted start df)).
  eexists. split; [exact H|]. split; [apply emitted_header|].
  split; [|split].
  - intros line Hline. split; [apply (emitted_line_length start df line Hline)|].
    intros p Hp.
    destruct (placeholders_missing fsqrt tz pad idx o h l c ts vo vc vh vl
                v9o v9c v3o v3c p Hp)
      as (col & Hcol & Hall).
    exact (all_missing_field start df p col line
             (placeholder_columns_declared p Hp) Hcol Hall Hline).
  - intro Hne. destruct (Nat.eqb_spec (nrows (emitted start df)) 0) as [E|_];
      [|reflexivity].
    rewrite <- emitted_lines_length in E. apply length_zero_iff_nil in E.
    contradiction.
  - intro He. apply (f_equal (@List.length _)) in He.
    rewrite emitted_lines_length in He. cbn [List.length] in He.
    rewrite He. reflexivity.
Qed.

End Run.

(** ** The results on concrete inputs *)

Lemma rsi_zero_loss_missing_witness : nth 14 (rsi Demo.rising) NaN = NaN.
Proof.
  apply (rsi_zero_loss_missing Demo.rising 14). vm_compute. reflexivity.
Defined.

(** On sixteen rising closes the average loss of row 14, the first row after
    the warm-up, is zero, and RSI is missing there, not 100. *)
Lemma rsi_zero_loss_is_not_100 :
  nth 13 (avg_loss 14 Demo.rising) (lit 0) = NaN /\
  F.eqb (nth 14 (avg_loss 14 Demo.rising) NaN) (lit 0) = true /\
  nth 14 (rsi Demo.rising) (lit 100) = NaN /\
  F.eqb (nth 14 (rsi Demo.rising) (lit 100)) (lit 100) = false.
Proof. vm_compute. repeat split; reflexivity. Qed.

(** A short-vol close of exactly 15 gets bucket 2, not bucket 3. *)
Lemma vol_regime_boundary_in_lower_bucket :
  vol_regime [lit 15; lit 12; lit 35] = [Some 2; Some 1; Some 5] /\
  vol_regime1 (lit 15) <> Some 3.
Proof. split; [vm_compute; reflexivity | vm_compute; discriminate]. Qed.

Lemma term_state_encoding_witness :
  let r9d := [Fin (9 # 10); Fin (11 # 10); NaN] in
  let rvx3m := [Fin (8 # 10); Fin (12 # 10); Fin (8 # 10)] in
  let s := nth 1%nat (term_state r9d rvx3m) 0 in
  let a := nth 1%nat r9d NaN in
  let b := nth 1%nat rvx3m NaN in
  (s = -1 \/ s = 0 \/ s = 1) /\
  (s = 1 <-> F.leb a (lit 1) = true /\ F.leb b (lit 1) = true) /\
  (s = -1 <-> F.gtb a (lit 1) = true /\ F.gtb b (lit 1) = true) /\
  (F.isna a = true \/ F.isna b = true -> s = 0).
Proof.
  apply (term_state_encoding [Fin (9 # 10); Fin (11 # 10); NaN]
           [Fin (8 # 10); Fin (12 # 10); Fin (8 # 10)] 1%nat).
  simpl. lia.
Defined.


Lemma prior_close_is_lagged_close_witness :
  cell_at (emitted (Demo.d0 + 1) Demo.table) "Prior_Close" 0 = Some (CFloat (lit 100)) /\
  cell_at (emitted (Demo.d0 + 1) Demo.table) "close" 0 = Some (CFloat (lit 101)).
Proof.
  destruct (prior_close_is_lagged_close Demo.root Demo.est true Demo.days
              Demo.opens Demo.highs Demo.lows Demo.closes [3; 3; -3]
              Demo.vix_opens Demo.vix_closes Demo.vix_highs Demo.vix_lows
              Demo.missing Demo.missing Demo.vix3m_opens Demo.vix3m_closes
              (Demo.d0 + 1) 1%nat)
    as (H1 & H2 & _).
  - reflexivity.
  - simpl. lia.
  - vm_compute. discriminate.
  - split; [exact H1 | exact H2].
Defined.

Lemma day_of_week_encoding_witness :
  cell_at (emitted (Demo.d0 + 1) Demo.table) "Day_of_Week" 0 = Some (CInt 6).
Proof.
  destruct (day_of_week_encoding Demo.root Demo.est true Demo.days
              Demo.opens Demo.highs Demo.lows Demo.closes [3; 3; -3]
              Demo.vix_opens Demo.vix_closes Demo.vix_highs Demo.vix_lows
              Demo.missing Demo.missing Demo.vix3m_opens Demo.vix3m_closes
              (Demo.d0 + 1) 1%nat)
    as (H1 & _).
  - simpl. lia.
  - vm_compute. discriminate.
  - exact H1.
Defined.

Lemma gap_filled_rows_witness :
  exists (v : Z) (g lo hi pc : float),
    cell_at (emitted (Demo.d0 + 1) Demo.table) "Gap_Filled" 0 = Some (CInt v) /\
    cell_at (emitted (Demo.d0 + 1) Demo.table) "Gap_Pct" 0 = Some (CFloat g) /\
    cell_at (emitted (Demo.d0 + 1) Demo.table) "low" 0 = Some (CFloat lo) /\
    cell_at (emitted (Demo.d0 + 1) Demo.table) "high" 0 = Some (CFloat hi) /\
    cell_at (emitted (Demo.d0 + 1) Demo.table) "Prior_Close" 0 = Some (CFloat pc) /\
    (v = 0 \/ v = 1) /\
    (v = 1 <->
     (F.gtb g (lit 0) = true /\ F.leb lo pc = true) \/
     (F.ltb g (lit 0) = true /\ F.geb hi pc = true)) /\
    (F.eqb g (lit 0) = true -> v = 0).
Proof.
  apply (gap_filled_rows Demo.root Demo.est true Demo.days
              Demo.opens Demo.highs Demo.lows Demo.closes [3; 3; -3]
              Demo.vix_opens Demo.vix_closes Demo.vix_highs Demo.vix_lows
              Demo.missing Demo.missing Demo.vix3m_opens Demo.vix3m_closes
              (Demo.d0 + 1) 1%nat).
  - simpl. lia.
  - vm_compute. discriminate.
Defined.



(** The file of a run has 58 columns, not 57. *)
Lemma output_has_58_columns :
  List.length cols = 58%nat /\
  exists f,
    Demo.run (Demo.d0 + 1) "out/spx_daily.csv" [] = ([("out/spx_daily.csv", f)], Ok tt) /\
    List.length (Csv.header f) <> 57%nat /\
    map (@List.length string) (Csv.lines f) = [58%nat; 58%nat].
Proof.
  split; [reflexivity|]. eexists. split; [vm_compute; reflexivity|].
  split; [vm_compute; discriminate | vm_compute; reflexivity].
Qed.

(** ** [trend_score]: range and failure *)

Lemma rint_whole (q : Q) (z : Z) : (q == inject_Z z)%Q -> rint q = z.
Proof.
  intro H. unfold rint.
  assert (Hf : Qfloor q = z) by (rewrite H; apply Qfloor_Z).
  rewrite Hf.
  assert (Hc : (q - inject_Z z ?= 1 # 2)%Q = Lt).
  { rewrite H. apply -> Qlt_alt. lra. }
  rewrite Hc. reflexivity.
Qed.

Lemma np_sign_sub_whole (x y : float) :
  finite x -> finite y -> whole (-1) 1 (np_sign (F.sub x y)).
Proof.
  intros [a ->] [b ->]. cbn. eexists. eexists. split; [reflexivity|].
  split; [reflexivity|]. unfold F.Qsgn.
  destruct (Qnum (a + - b)); cbn; lia.
Qed.

Lemma add_whole (l1 h1 l2 h2 : Z) (x y : float) :
  whole l1 h1 x -> whole l2 h2 y -> whole (l1 + l2) (h1 + h2) (F.add x y).
Proof.
  intros (q1 & z1 & -> & E1 & B1) (q2 & z2 & -> & E2 & B2).
  exists (q1 + q2)%Q, (z1 + z2). split; [reflexivity|].
  split; [rewrite E1, E2, inject_Z_plus; reflexivity | lia].
Qed.

Lemma lit_whole (lo hi a : Z) : lo <= a <= hi -> whole lo hi (lit a).
Proof. intro H. exists (inject_Z a), a. repeat split; try reflexivity; lia. Qed.

Lemma sign_column_whole (c : series) (n : nat) :
  Qeq_bool (inject_Z 1 * (1 - alpha_of_span (Z.of_nat n))
            + alpha_of_span (Z.of_nat n)) 0 = false ->
  Forall finite c ->
  Forall (whole (-1) 1) (map np_sign (zip_with F.sub c (ema c n))).
Proof.
  intros Ha Hc. apply Forall_map.
  apply (zip_with_Forall finite finite (fun x => whole (-1) 1 (np_sign x)) F.sub
           np_sign_sub_whole); [exact Hc|].
  apply ema_finite; assumption.
Qed.

Lemma round_astype_int_whole (lo hi : Z) (s : series) :
  Forall (whole lo hi) s ->
  exists zs, round_astype_int s = Ok zs /\
             List.length zs = List.length s /\
             Forall (fun z => lo <= z <= hi) zs.
Proof.
  induction s as [|x s IH]; intro H.
  - exists []. repeat split; constructor.
  - inversion H as [|? ? (q & z & -> & E & B) Hs]; subst.
    destruct (IH Hs) as (zs & Ezs & Hlen & Hall).
    exists (rint q :: zs). cbn. rewrite Ezs. cbn.
    split; [reflexivity|]. split; [f_equal; exact Hlen|].
    constructor; [rewrite (rint_whole q z E); exact B | exact Hall].
Qed.

Lemma round_astype_int_raises (s : series) :
  In NaN s -> round_astype_int s = Raise IntCastingNaNError.
Proof.
  induction s as [|x s IH]; intro H; [contradiction|].
  destruct x as [q| | |]; try reflexivity.
  destruct H as [H|H]; [discriminate|].
  cbn. rewrite (IH H). reflexivity.
Qed.

Lemma ema_length (s : series) (n : nat) : List.length (ema s n) = List.length s.
Proof. apply ewm_mean_length. Qed.

(** The length of the score column before it is cast. *)
Lemma trend_score_cast (c : series) :
  exists sc : series,
    List.length sc = List.length c /\
    trend_score c = bind (round_astype_int sc) (fun ints => Ok (clip_int (-5) 5 ints)) /\
    (Forall finite c -> Forall (whole (-4) 4) sc) /\
    (forall k, (k < List.length c)%nat -> nth k c NaN = NaN -> nth k sc NaN = NaN).
Proof.
  unfold trend_score.
  match goal with
  | |- context [round_astype_int ?x] => exists x
  end.
  split; [|split; [reflexivity|split]].
  - rewrite !zip_with_length, !length_map, !zip_with_length, !ema_length,
      diff_length, shift_length, ema_length. lia.
  - intro Hc.
    apply (zip_with_Forall (whole (-3) 3) (fun a => -1 <= a <= 1) (whole (-4) 4)).
    + intros x a Hx Ha. apply (add_whole (-3) 3 (-1) 1); [exact Hx|].
      apply lit_whole. exact Ha.
    + apply (zip_with_Forall (whole (-2) 2) (whole (-1) 1) (whole (-3) 3) F.add
               (add_whole (-2) 2 (-1) 1)).
      * apply (zip_with_Forall (whole (-1) 1) (whole (-1) 1) (whole (-2) 2) F.add
                 (add_whole (-1) 1 (-1) 1));
          apply sign_column_whole; try exact Hc; vm_compute; reflexivity.
      * apply sign_column_whole; try exact Hc; vm_compute; reflexivity.
    + apply Forall_map. apply Forall_forall. intros x _. unfold np_where.
      destruct (F.gtb x _), (F.ltb x _); lia.
  - intros k Hk Hnan.
    rewrite (zip_with_nth _ _ _ k NaN 0 NaN);
      [| rewrite !zip_with_length, !length_map, !zip_with_length, !ema_length; lia
       | rewrite !length_map, !zip_with_length, diff_length, shift_length, ema_length; lia].
    rewrite (zip_with_nth F.add _ _ k NaN NaN NaN);
      [| rewrite !zip_with_length, !length_map, !zip_with_length, !ema_length; lia
       | rewrite !length_map, !zip_with_length, !ema_length; lia].
    rewrite (zip_with_nth F.add _ _ k NaN NaN NaN);
      [| rewrite !length_map, !zip_with_length, !ema_length; lia
       | rewrite !length_map, !zip_with_length, !ema_length; lia].
    change NaN with (np_sign NaN) at 1. rewrite map_nth.
    rewrite (zip_with_nth F.sub _ _ k NaN NaN NaN); [|exact Hk|rewrite ema_length; exact Hk].
    rewrite Hnan. reflexivity.
Qed.

(** X1: on closes that are all finite [trend_score] returns one score per
    close, each between -4 and 4: three signs and one slope adjustment.
    The final clip to -5..5 never changes a score. *)
Theorem trend_score_range (c : series) (Hc : Forall finite c) :
  exists ts, trend_score c = Ok ts /\
             List.length ts = List.length c /\
             Forall (fun z => -4 <= z <= 4) ts.
Proof.
  destruct (trend_score_cast c) as (sc & Hlen & E & Hwhole & _).
  destruct (round_astype_int_whole (-4) 4 sc (Hwhole Hc)) as (zs & Ezs & Hl & Hall).
  exists zs. rewrite E, Ezs. cbn [bind]. split; [|split; [congruence|exact Hall]].
  f_equal. unfold clip_int. rewrite <- (map_id zs) at 2.
  apply map_ext_in. intros z Hz. rewrite Forall_forall in Hall.
  pose proof (Hall z Hz). lia.
Qed.

Lemma trend_score_range_witness :
  exists ts, trend_score Demo.closes = Ok ts /\
             List.length ts = List.length Demo.closes /\
             Forall (fun z => -4 <= z <= 4) ts.
Proof.
  apply (trend_score_range Demo.closes).
  unfold Demo.closes. repeat constructor; eexists; reflexivity.
Defined.

Lemma trend_score_nan (c : series) :
  In NaN c -> trend_score c = Raise IntCastingNaNError.
Proof.
  intro Hin. destruct (In_nth c NaN NaN Hin) as (k & Hk & Hnth).
  destruct (trend_score_cast c) as (sc & Hlen & E & _ & Hnan).
  rewrite E, round_astype_int_raises; [reflexivity|].
  rewrite <- (Hnan k Hk Hnth). apply nth_In. rewrite Hlen. exact Hk.
Qed.

(** X2: a missing close makes [trend_score] raise: the sign of a missing
    difference is missing, and the cast to int refuses it. *)
Theorem trend_score_missing_close (c : series) (Hc : In NaN c) :
  trend_score c = Raise IntCastingNaNError.
Proof. exact (trend_score_nan c Hc). Qed.

Lemma trend_score_missing_close_witness :
  trend_score [lit 100; NaN; lit 101] = Raise IntCastingNaNError.
Proof.
  apply (trend_score_missing_close [lit 100; NaN; lit 101]).
  right. left. reflexivity.
Defined.

(** ** [download] *)

Section Download.

Variable yf : string -> Z -> Z -> result fframe.

(** X3: a frame that [download] returns has the index of the frame that
    Yahoo answered, which has a row and a column at least, and exactly the
    columns Open, High, Low and Close of that frame, in this order
    whatever their order was. *)
Theorem download_selects_price_columns (ticker : string) (s e : Z)
    (raw f : fframe)
    (Hraw : yf ticker s e = Ok raw) (Hf : download yf ticker s e = Ok f) :
  f_index f = f_index raw /\ f_index raw <> [] /\ f_columns raw <> [] /\
  exists o h l c,
    f_columns f = [("Open", o); ("High", h); ("Low", l); ("Close", c)] /\
    lookup "Open" (f_columns raw) = Some o /\
    lookup "High" (f_columns raw) = Some h /\
    lookup "Low" (f_columns raw) = Some l /\
    lookup "Close" (f_columns raw) = Some c.
Proof.
  unfold download in Hf. rewrite Hraw in Hf. cbn [bind] in Hf.
  destruct (frame_empty raw) eqn:E; [discriminate Hf|].
  unfold select_columns, getitem in Hf.
  destruct (lookup "Open" (f_columns raw)) as [o|]; cbn [bind] in Hf; [|discriminate Hf].
  destruct (lookup "High" (f_columns raw)) as [h|]; cbn [bind] in Hf; [|discriminate Hf].
  destruct (lookup "Low" (f_columns raw)) as [l|]; cbn [bind] in Hf; [|discriminate Hf].
  destruct (lookup "Close" (f_columns raw)) as [c|]; cbn [bind] in Hf; [|discriminate Hf].
  injection Hf as <-. cbn [f_index f_columns].
  unfold frame_empty in E.
  split; [reflexivity|]. split; [|split].
  - destruct (f_index raw); [discriminate E|discriminate].
  - destruct (f_index raw); [discriminate E|].
    destruct (f_columns raw); [discriminate E|discriminate].
  - exists o, h, l, c. repeat split; reflexivity.
Qed.

(** X4: [download] passes on what the request raised; it raises
    RuntimeError with the ticker in the message when the answer has no
    row or no column; and it raises KeyError when the answer has rows and
    columns but lacks one of Open, High, Low and Close. *)
Theorem download_failures (ticker : string) (s e : Z) :
  (forall x, yf ticker s e = Raise x -> download yf ticker s e = Raise x) /\
  (forall raw, yf ticker s e = Ok raw ->
     f_index raw = [] \/ f_columns raw = [] ->
     download yf ticker s e = Raise (RuntimeError ("No data for " ++ ticker))) /\
  (forall raw n, yf ticker s e = Ok raw ->
     f_index raw <> [] -> f_columns raw <> [] ->
     In n ["Open"; "High"; "Low"; "Close"] ->
     lookup n (f_columns raw) = None ->
     exists k, download yf ticker s e = Raise (KeyError k)).
Proof.
  split; [|split].
  - intros x H. unfold download. rewrite H. reflexivity.
  - intros raw H Hempty. unfold download. rewrite H. cbn [bind].
    assert (E : frame_empty raw = true).
    { unfold frame_empty. destruct Hempty as [-> | ->]; [reflexivity|].
      destruct (f_index raw); reflexivity. }
    rewrite E. reflexivity.
  - intros raw n H Hi Hc Hn Hnone. unfold download. rewrite H. cbn [bind].
    assert (E : frame_empty raw = false).
    { unfold frame_empty. destruct (f_index raw); [contradiction|].
      destruct (f_columns raw); [contradiction|reflexivity]. }
    rewrite E. unfold select_columns, getitem.
    destruct (lookup "Open" (f_columns raw)) eqn:EO; cbn [bind]; [|eauto].
    destruct (lookup "High" (f_columns raw)) eqn:EH; cbn [bind]; [|eauto].
    destruct (lookup "Low" (f_columns raw)) eqn:EL; cbn [bind]; [|eauto].
    destruct (lookup "Close" (f_columns raw)) eqn:EC; cbn [bind]; [|eauto].
    cbn [In] in Hn. destruct Hn as [<-|[<-|[<-|[<-|[]]]]]; congruence.
Qed.

End Download.

Lemma download_selects_price_columns_witness :
  f_index Demo.spx = f_index Demo.spx_raw /\ f_index Demo.spx_raw <> [] /\
  f_columns Demo.spx_raw <> [] /\
  exists o h l c,
    f_columns Demo.spx = [("Open", o); ("High", h); ("Low", l); ("Close", c)] /\
    lookup "Open" (f_columns Demo.spx_raw) = Some o /\
    lookup "High" (f_columns Demo.spx_raw) = Some h /\
    lookup "Low" (f_columns Demo.spx_raw) = Some l /\
    lookup "Close" (f_columns Demo.spx_raw) = Some c.
Proof.
  apply (download_selects_price_columns Demo.yf TICKER_SPX 0 1 Demo.spx_raw Demo.spx);
    reflexivity.
Defined.

(** ** The run: failures and effects *)

Lemma drop_while_all {A} (p : A -> bool) (l : list A) :
  (forall x, In x l -> p x = true) -> drop_while p l = [].
Proof.
  induction l as [|x l IH]; intro H; [reflexivity|].
  cbn. rewrite (H x (or_introl eq_refl)). apply IH. intros y Hy. apply H. right. exact Hy.
Qed.

Lemma dirname_no_slash (p : string) :
  (forall c, In c (list_ascii_of_string p) -> c <> slash) -> dirname p = "".
Proof.
  intro H. unfold dirname. rewrite drop_while_all; [reflexivity|].
  intros c Hc. apply in_rev in Hc. apply negb_true_iff.
  apply Ascii.eqb_neq. apply H. exact Hc.
Qed.

Lemma lookup_assoc_set_other {A} (k name : string) (v : A) (l : list (string * A)) :
  k <> name -> lookup k (assoc_set name v l) = lookup k l.
Proof.
  intro Hne. induction l as [|[k' x] l IH]; cbn.
  - destruct (String.eqb_spec name k); [congruence|reflexivity].
  - destruct (String.eqb_spec k' name) as [->|Hk]; cbn.
    + destruct (String.eqb_spec name k); [congruence|reflexivity].
    + destruct (String.eqb_spec k' k); [reflexivity|exact IH].
Qed.

Lemma lookup_assoc_set_same {A} (name : string) (v : A) (l : list (string * A)) :
  lookup name (assoc_set name v l) = Some v.
Proof.
  induction l as [|[k' x] l IH]; cbn.
  - rewrite String.eqb_refl. reflexivity.
  - destruct (String.eqb_spec k' name) as [->|Hk]; cbn.
    + rewrite String.eqb_refl. reflexivity.
    + destruct (String.eqb_spec k' name); [contradiction|exact IH].
Qed.

Lemma pair_inj {A B} (a a' : A) (b b' : B) : (a, b) = (a', b') -> a = a' /\ b = b'.
Proof. intro H. split; [exact (f_equal fst H) | exact (f_equal snd H)]. Qed.

Lemma mask_filter_map {A B} (f : A -> bool) (g : A -> B) (l : list A) :
  mask_filter (map f l) (map g l) = map g (filter f l).
Proof.
  induction l as [|x l IH]; [reflexivity|].
  cbn. destruct (f x); cbn; [f_equal|]; exact IH.
Qed.

Lemma map_nth_seq {A B} (h : A -> B) (l : list A) (d : A) :
  map (fun i => h (nth i l d)) (seq 0 (List.length l)) = map h l.
Proof.
  induction l as [|x l IH]; [reflexivity|].
  cbn [List.length seq map nth]. f_equal.
  rewrite <- seq_shift, map_map. exact IH.
Qed.

(** The field of line [i] of the written table under a column. *)
Lemma field_of_row (start : Z) (df : frame) (name : string) (c : column) (i : nat) :
  In name cols -> lookup name (columns df) = Some c ->
  field (Csv.of_frame (emitted start df))
        (Csv.row (columns (emitted start df)) i) name
  = Some (Csv.render (nth i (mask_filter (map (fun d => start <=? d) (index df)) c) CNA)).
Proof.
  intros Hin Hc. unfold field. rewrite emitted_header.
  destruct (position_spec name cols Hin) as (k & Hk & Hnth). rewrite Hk.
  unfold Csv.row. rewrite nth_error_map.
  unfold emitted, reindex_columns. cbn [columns].
  rewrite nth_error_map, Hnth. cbn [option_map snd].
  unfold trim. cbn [columns index]. rewrite lookup_map_values, Hc. reflexivity.
Qed.

Lemma filter_before (start : Z) (l : list Z) :
  (forall d, In d l -> d < start) -> filter (fun d => start <=? d) l = [].
Proof.
  induction l as [|d l IH]; intro H; [reflexivity|].
  cbn. destruct (Z.leb_spec start d) as [Hle|_].
  - pose proof (H d (or_introl eq_refl)). lia.
  - apply IH. intros d' Hd'. apply H. right. exact Hd'.
Qed.

Section Run.

Variables (fsqrt : float -> float) (tz : Z -> Z) (pad : bool).
Variable yf : string -> Z -> Z -> result fframe.
Variable today : Z.

Local Abbreviation fetch ticker start :=
  (download yf ticker (start - 400) (today + 1)).

Local Abbreviation run := (build fsqrt tz pad yf today).

(** What a run leaves, given the index frame: the files as they were and
    an exception, or one more file, the table of [assemble_table] over
    the calendar of the index frame. *)
Lemma build_outcome (start : Z) (output : string) (w : world) (spx : fframe) :
  fetch TICKER_SPX start = Ok spx ->
  (exists e, run start output w = (w, Raise e)) \/
  (exists o h l c ts vo vc vh vl v9o v9c v3o v3c,
     dirname output <> "" /\
     run start output w
     = (assoc_set output
          (Csv.of_frame (emitted start
             (assemble_table fsqrt tz pad (f_index spx) o h l c ts vo vc vh vl
                v9o v9c v3o v3c))) w,
        if Nat.eqb (nrows (emitted start
             (assemble_table fsqrt tz pad (f_index spx) o h l c ts vo vc vh vl
                v9o v9c v3o v3c))) 0
        then Raise IndexError else Ok tt)).
Proof.
  intro H1.
  destruct (fetch TICKER_VIX start) as [vix|e] eqn:H2;
    [|left; exists e; apply (build_vix_failure _ _ _ _ _ _ _ _ spx); assumption].
  rewrite (build_unfold fsqrt tz pad yf today start output w spx vix H1 H2).
  destruct (assemble _ _ _ _ _ _ _) as [df|e] eqn:Ha; [|left; exists e; reflexivity].
  destruct (String.eqb_spec (dirname output) "") as [E|E];
    [left; exists FileNotFoundError; reflexivity|].
  right. destruct (assemble_cases _ _ _ _ _ _ _ _ Ha)
    as (o & h & l & c & ts & vo & vc & vh & vl & v9o & v9c & v3o & v3c & Edf).
  rewrite Edf.
  exists o, h, l, c, ts, vo, vc, vh, vl, v9o, v9c, v3o, v3c.
  split; [exact E | reflexivity].
Qed.

(** Once line 99 has put the three vol frames on the calendar, what
    [trend_score] raises on the closes is what the assembly raises. *)
Lemma assemble_trend_failure (spx vix v9 v3 : fframe) (c : series) (e : exn) :
  getitem spx "Close" = Ok c -> trend_score c = Raise e ->
  (exists o, getitem spx "Open" = Ok o) ->
  (exists h, getitem spx "High" = Ok h) ->
  (exists l, getitem spx "Low" = Ok l) ->
  alignable vix (f_index spx) -> alignable v9 (f_index spx) ->
  alignable v3 (f_index spx) ->
  assemble fsqrt tz pad spx vix v9 v3 = Raise e.
Proof.
  intros Hc Hts [o Ho] [h Hh] [l Hl] Avix A9 A3. unfold assemble.
  destruct (reindex_alignable vix _ Avix) as (vix' & -> & _).
  destruct (reindex_alignable v9 _ A9) as (v9' & -> & _).
  destruct (reindex_alignable v3 _ A3) as (v3' & -> & _).
  cbn [bind]. rewrite Hc, Ho, Hh, Hl. cbn [bind]. rewrite Hts. reflexivity.
Qed.

(** X5: when the short-vol retrieval fails after the index retrieval
    succeeded, the run raises what the retrieval raised and writes no
    file; only the 9-day and 3-month retrievals are guarded. *)
Theorem short_vol_failure_aborts (start : Z) (output : string) (w : world)
    (spx : fframe) (e : exn)
    (Hspx : fetch TICKER_SPX start = Ok spx)
    (Hvix : fetch TICKER_VIX start = Raise e) :
  run start output w = (w, Raise e).
Proof. exact (build_vix_failure fsqrt tz pad yf today start output w spx e Hspx Hvix). Qed.

(** X6: with an output path that has no slash, no run writes a file: the
    directory name is empty, [os.makedirs] refuses it, and the run raises
    at the latest there. *)
Theorem build_without_directory (start : Z) (output : string) (w : world)
    (Hout : forall c, In c (list_ascii_of_string output) -> c <> slash) :
  exists e, run start output w = (w, Raise e).
Proof.
  pose proof (dirname_no_slash output Hout) as Hdir.
  destruct (fetch TICKER_SPX start) as [spx|e] eqn:H1;
    [|exists e; apply build_primary_failure; exact H1].
  destruct (build_outcome start output w spx H1)
    as [H|(o & h & l & c & ts & vo & vc & vh & vl & v9o & v9c & v3o & v3c & Hne & _)];
    [exact H | contradiction].
Qed.

(** X7: a missing close in the index frame aborts the run before anything
    is written: [trend_score] cannot cast the score of that row.  The run
    gets as far as [trend_score] when the short-vol frame and every
    retrieved 9-day or 3-month frame can be put on the calendar of the
    index (no date occurs twice in it, or its dates are the calendar). *)
Theorem missing_close_aborts (start : Z) (output : string) (w : world)
    (spx vix : fframe) (c : series)
    (Hspx : fetch TICKER_SPX start = Ok spx)
    (Hvix : fetch TICKER_VIX start = Ok vix)
    (Hc : getitem spx "Close" = Ok c) (Hnan : In NaN c)
    (Avix : alignable vix (f_index spx))
    (A9 : forall f, fetch TICKER_VIX9D start = Ok f -> alignable f (f_index spx))
    (A3 : forall f, fetch TICKER_VIX3M start = Ok f -> alignable f (f_index spx)) :
  run start output w = (w, Raise IntCastingNaNError).
Proof.
  rewrite (build_unfold fsqrt tz pad yf today start output w spx vix Hspx Hvix).
  destruct (download_shape yf _ _ _ _ Hspx) as (_ & o & h & l & c' & Hs).
  rewrite (assemble_trend_failure spx vix _ _ c IntCastingNaNError Hc
             (trend_score_nan c Hnan)); [reflexivity| | | | | |].
  - exists o. unfold getitem. rewrite Hs. reflexivity.
  - exists h. unfold getitem. rewrite Hs. reflexivity.
  - exists l. unfold getitem. rewrite Hs. reflexivity.
  - exact Avix.
  - apply alignable_secondary. exact A9.
  - apply alignable_secondary. exact A3.
Qed.

(** X8: when every session of the index frame lies before the start, a run
    that gets as far as writing leaves a file with the header and no
    line, and then raises IndexError; no such run completes. *)
Theorem empty_range_raises (start : Z) (output : string) (w : world)
    (spx : fframe)
    (Hspx : fetch TICKER_SPX start = Ok spx)
    (Hbefore : forall d, In d (f_index spx) -> d < start) :
  (exists e, run start output w = (w, Raise e)) \/
  (exists f, run start output w = (assoc_set output f w, Raise IndexError) /\
             Csv.header f = cols /\ Csv.lines f = []).
Proof.
  destruct (build_outcome start output w spx Hspx)
    as [H|(o & h & l & c & ts & vo & vc & vh & vl & v9o & v9c & v3o & v3c & _ & H)];
    [left; exact H | right].
  set (df := assemble_table _ _ _ _ _ _ _ _ _ _ _ _ _ _ _ _ _) in H.
  assert (Hrows : nrows (emitted start df) = 0%nat).
  { rewrite emitted_nrows.
    replace (index df) with (f_index spx) by (symmetry; apply assemble_table_index).
    rewrite (filter_before start (f_index spx) Hbefore). reflexivity. }
  exists (Csv.of_frame (emitted start df)).
  rewrite Hrows in H. split; [exact H|]. split; [apply emitted_header|].
  apply length_zero_iff_nil. rewrite emitted_lines_length. exact Hrows.
Qed.


(** X10: the file of a run that completes has one line per session of the
    index frame on or after the start, in the order of the frame, and the
    date field of a line is the date of its session as year-month-day. *)
Theorem written_sessions (start : Z) (output : string) (w w' : world)
    (spx : fframe)
    (Hspx : fetch TICKER_SPX start = Ok spx)
    (Hrun : run start output w = (w', Ok tt)) :
  exists f,
    w' = assoc_set output f w /\
    lookup output w' = Some f /\
    map (fun line => field f line "date") (Csv.lines f)
    = map (fun d => Some (Cal.strftime_ymd d))
          (filter (fun d => start <=? d) (f_index spx)).
Proof.
  destruct (build_outcome start output w spx Hspx)
    as [(e & H)|(o & h & l & c & ts & vo & vc & vh & vl & v9o & v9c & v3o & v3c & _ & H)].
  - rewrite H in Hrun. apply pair_inj in Hrun. destruct Hrun as [_ Hr]. discriminate Hr.
  - set (df := assemble_table _ _ _ _ _ _ _ _ _ _ _ _ _ _ _ _ _) in H.
    rewrite H in Hrun. apply pair_inj in Hrun. destruct Hrun as [Hw _].
    exists (Csv.of_frame (emitted start df)).
    split; [symmetry; exact Hw|]. split; [rewrite <- Hw; apply lookup_assoc_set_same|].
    assert (Hdate : lookup "date" (columns df)
              = Some (fit (nrows df)
                        (map (fun d => CStr (Cal.strftime_ymd d)) (index df))))
      by (unfold df; table_lookup).
    rewrite fit_id in Hdate by (rewrite length_map; reflexivity).
    assert (Hidx : index df = f_index spx) by apply assemble_table_index.
    unfold Csv.of_frame at 2. cbn [Csv.lines]. rewrite map_map.
    rewrite (map_ext _ _ (fun i => field_of_row start df "date" _ i
                                     ltac:(in_names) Hdate)).
    rewrite mask_filter_map, emitted_nrows, Hidx.
    rewrite <- (length_map (fun d => CStr (Cal.strftime_ymd d))
                  (filter (fun d => start <=? d) (f_index spx))).
    rewrite (map_nth_seq (fun x => Some (Csv.render x))), map_map. reflexivity.
Qed.

End Run.

Lemma short_vol_failure_aborts_witness :
  build Demo.root Demo.est true
    (oracle (Ok Demo.spx_raw) (Raise DownloadError) (Ok Demo.vix_raw) (Ok Demo.vix_raw))
    (Demo.d0 + 10) (Demo.d0 + 1) "out/spx_daily.csv" []
  = ([], Raise DownloadError).
Proof.
  apply (short_vol_failure_aborts Demo.root Demo.est true _ (Demo.d0 + 10)
           (Demo.d0 + 1) "out/spx_daily.csv" [] Demo.spx DownloadError); reflexivity.
Defined.

Lemma build_without_directory_witness :
  exists e, Demo.run (Demo.d0 + 1) "spx_daily.csv" [] = ([], Raise e).
Proof.
  apply (build_without_directory Demo.root Demo.est true Demo.yf (Demo.d0 + 10)
           (Demo.d0 + 1) "spx_daily.csv" []).
  intros c Hc. cbn in Hc.
  repeat (destruct Hc as [<-|Hc]; [discriminate|]). contradiction.
Defined.

Lemma missing_close_aborts_witness :
  build Demo.root Demo.est true
    (oracle (Ok spx_gap) (Ok Demo.vix_raw) (Raise DownloadError) (Raise DownloadError))
    (Demo.d0 + 10) (Demo.d0 + 1) "out/spx_daily.csv" [("other.csv", other_file)]
  = ([("other.csv", other_file)], Raise IntCastingNaNError).
Proof.
  apply (missing_close_aborts Demo.root Demo.est true _ (Demo.d0 + 10)
           (Demo.d0 + 1) "out/spx_daily.csv" _
           (mk_fframe Demo.days
              [("Open", Demo.opens); ("High", Demo.highs); ("Low", Demo.lows);
               ("Close", [lit 100; NaN; lit 99])])
           Demo.vix [lit 100; NaN; lit 99]); try reflexivity.
  - right. left. reflexivity.
  - right. reflexivity.
  - intros f Hf. vm_compute in Hf. discriminate Hf.
  - intros f Hf. vm_compute in Hf. discriminate Hf.
Defined.

Lemma empty_range_raises_witness :
  (exists e, Demo.run (Demo.d0 + 5) "out/spx_daily.csv" [] = ([], Raise e)) \/
  (exists f, Demo.run (Demo.d0 + 5) "out/spx_daily.csv" []
             = (assoc_set "out/spx_daily.csv" f [], Raise IndexError) /\
             Csv.header f = cols /\ Csv.lines f = []).
Proof.
  apply (empty_range_raises Demo.root Demo.est true Demo.yf (Demo.d0 + 10)
           (Demo.d0 + 5) "out/spx_daily.csv" [] Demo.spx); [reflexivity|].
  intros d Hd. cbn in Hd. unfold Demo.d0 in *.
  destruct Hd as [<-|[<-|[<-|[]]]]; vm_compute; reflexivity.
Defined.


Lemma written_sessions_witness :
  exists f,
    fst (Demo.run (Demo.d0 + 1) "out/spx_daily.csv" [])
    = assoc_set "out/spx_daily.csv" f [] /\
    lookup "out/spx_daily.csv" (fst (Demo.run (Demo.d0 + 1) "out/spx_daily.csv" []))
    = Some f /\
    map (fun line => field f line "date") (Csv.lines f)
    = map (fun d => Some (Cal.strftime_ymd d))
          (filter (fun d => Demo.d0 + 1 <=? d) (f_index Demo.spx)).
Proof.
  apply (written_sessions Demo.root Demo.est true Demo.yf (Demo.d0 + 10)
           (Demo.d0 + 1) "out/spx_daily.csv" []
           (fst (Demo.run (Demo.d0 + 1) "out/spx_daily.csv" [])) Demo.spx).
  - reflexivity.
  - vm_compute. reflexivity.
Defined.

(** ** Warm-up of the smoothed and rolling indicators *)

Lemma ewm_step_nobs alpha adjust (st : ewm_state) (cur : float) :
  nobs (ewm_step alpha adjust st cur)
  = if F.notna cur then S (nobs st) else nobs st.
Proof.
  unfold ewm_step. destruct (F.notna (weighted st)), (F.notna cur); reflexivity.
Qed.

Lemma count_obs_cons (x : float) (l : series) :
  count_obs (x :: l) = ((if F.notna x then 1 else 0) + count_obs l)%nat.
Proof. unfold count_obs. cbn. destruct (F.notna x); reflexivity. Qed.

Lemma count_obs_le (l : series) : (count_obs l <= List.length l)%nat.
Proof. unfold count_obs. apply filter_length_le. Qed.

Lemma count_obs_firstn_le (n : nat) (l : series) : (count_obs (firstn n l) <= n)%nat.
Proof. etransitivity; [apply count_obs_le|]. rewrite length_firstn. lia. Qed.

Lemma ewm_loop_warm_up alpha adjust minp (vals : series) :
  forall (st : ewm_state) (i : nat),
  (nobs st + count_obs (firstn (S i) vals) < minp)%nat ->
  nth i (ewm_loop alpha adjust minp st vals) NaN = NaN.
Proof.
  induction vals as [|cur rest IH]; intros st i H; [destruct i; reflexivity|].
  cbn [firstn] in H. rewrite count_obs_cons in H.
  cbn [ewm_loop]. destruct i as [|j]; cbn [nth].
  - unfold ewm_out. rewrite ewm_step_nobs.
    change (count_obs (firstn 0 rest)) with 0%nat in H.
    destruct (Nat.leb_spec minp (if F.notna cur then S (nobs st) else nobs st))
      as [Hle|_]; [|reflexivity].
    destruct (F.notna cur); lia.
  - apply IH. rewrite ewm_step_nobs. destruct (F.notna cur); lia.
Qed.

Lemma ewm_core_warm_up alpha adjust minp (vals : series) (i : nat) :
  (count_obs (firstn (S i) vals) < minp)%nat ->
  nth i (ewm_core alpha adjust minp vals) NaN = NaN.
Proof.
  destruct vals as [|v0 rest]; [destruct i; reflexivity|].
  cbn [firstn]. rewrite count_obs_cons. intro H.
  unfold ewm_core. destruct i as [|j]; cbn [nth].
  - unfold ewm_out, ewm_init. cbn [nobs].
    change (count_obs (firstn 0 rest)) with 0%nat in H.
    destruct (Nat.leb_spec minp (if F.notna v0 then 1 else 0)) as [Hle|_];
      [|reflexivity].
    destruct (F.notna v0); lia.
  - apply ewm_loop_warm_up. unfold ewm_init. cbn [nobs].
    destruct (F.notna v0); lia.
Qed.

(** Preparing the values adds no observation. *)
Lemma count_obs_prep_values (l : series) :
  (count_obs (prep_values l) <= count_obs l)%nat.
Proof.
  induction l as [|x l IH]; [reflexivity|].
  change (prep_values (x :: l))
    with ((match x with PInf | NInf => NaN | _ => x end) :: prep_values l).
  rewrite !count_obs_cons. destruct x; cbn [F.notna F.isna negb]; lia.
Qed.

Lemma firstn_prep_values (n : nat) (l : series) :
  firstn n (prep_values l) = prep_values (firstn n l).
Proof. unfold prep_values. apply firstn_map. Qed.

(** A row with fewer than [minp] observations up to it has no mean. *)
Lemma ewm_mean_warm_up alpha adjust minp (vals : series) (i : nat) :
  (count_obs (firstn (S i) vals) < minp)%nat ->
  nth i (ewm_mean alpha adjust minp vals) NaN = NaN.
Proof.
  intro H. unfold ewm_mean. apply ewm_core_warm_up.
  rewrite firstn_prep_values.
  pose proof (count_obs_prep_values (firstn (S i) vals)). lia.
Qed.

Lemma sub_nan_r (x : float) : F.sub x NaN = NaN.
Proof. destruct x; reflexivity. Qed.

Lemma rsi_value_nan_l (l : float) : rsi_value NaN l = NaN.
Proof. unfold rsi_value. destruct (F.eqb l (lit 0)); destruct l; reflexivity. Qed.

Lemma avg_gain_warm_up (s : series) (i : nat) :
  (i < 14)%nat -> nth i (avg_gain 14 s) NaN = NaN.
Proof.
  intro Hi. unfold avg_gain. apply ewm_mean_warm_up.
  destruct s as [|x s]; [cbn; lia|].
  rewrite diff1_cons, sub_nan_r. cbn [clip_lower map F.ltb firstn].
  rewrite count_obs_cons. cbn [F.notna F.isna negb].
  pose proof (count_obs_firstn_le i
    (map (fun x0 : float => if (x0 <? lit 0)%F then lit 0 else x0)
       (zip_with F.sub s (x :: s)))).
  lia.
Qed.

Lemma rsi_warm_up_rows (s : series) (i : nat) :
  (i < 14)%nat -> nth i (rsi s) NaN = NaN.
Proof.
  intro Hi. destruct (Nat.lt_ge_cases i (List.length s)) as [Hlt|Hge].
  - unfold rsi, rsi_n.
    rewrite (zip_with_nth rsi_value _ _ i NaN NaN NaN)
      by (rewrite ?avg_gain_length, ?avg_loss_length; exact Hlt).
    rewrite (avg_gain_warm_up s i Hi). apply rsi_value_nan_l.
  - apply nth_overflow. unfold rsi, rsi_n.
    rewrite zip_with_length, avg_gain_length, avg_loss_length. lia.
Qed.

(** X11: whatever the closes are, RSI_14 is missing in the rows 0 to 13:
    the first difference is missing, so row 13 has 13 observations, one
    fewer than [min_periods]. *)
Theorem rsi_warm_up (s : series) (i : nat) (Hi : (i < 14)%nat) :
  nth i (rsi s) NaN = NaN.
Proof. exact (rsi_warm_up_rows s i Hi). Qed.

Lemma rsi_warm_up_witness : nth 13 (rsi Demo.rising) NaN = NaN.
Proof. apply (rsi_warm_up Demo.rising 13). lia. Defined.

(** X12: on closes without a down move RSI_14 is missing in every row: in
    the warm-up rows as always, and from row 14 on because the average
    loss is zero there. *)
Theorem rsi_missing_without_down_moves (closes : list Q) (i : nat)
    (Hup : no_down_moves closes) :
  nth i (rsi (map Fin closes)) NaN = NaN.
Proof.
  destruct (Nat.lt_ge_cases i 14) as [Hw|Hw]; [apply rsi_warm_up_rows; exact Hw|].
  destruct (Nat.lt_ge_cases i (List.length closes)) as [Hlt|Hge].
  - unfold rsi, rsi_n.
    rewrite (zip_with_nth rsi_value _ _ i NaN NaN NaN)
      by (rewrite ?avg_gain_length, ?avg_loss_length, length_map; exact Hlt).
    apply rsi_value_zero_loss.
    apply avg_loss_zero_without_down_moves; [exact Hup|lia].
  - apply nth_overflow. unfold rsi, rsi_n.
    rewrite zip_with_length, avg_gain_length, avg_loss_length, length_map. lia.
Qed.

Lemma rsi_missing_without_down_moves_witness :
  nth 15 (rsi (map Fin [100; 101; 101; 102; 103; 104; 105; 106; 107; 108; 109;
                        110; 111; 112; 113; 114; 115]%Q)) NaN = NaN.
Proof.
  apply (rsi_missing_without_down_moves
           [100; 101; 101; 102; 103; 104; 105; 106; 107; 108; 109;
            110; 111; 112; 113; 114; 115]%Q 15).
  cbn. repeat split; discriminate.
Defined.

(** X13: ATR is missing in the rows 0 to 12 for any highs, lows and closes:
    row 0 can hold an observation (its range), so row 12 has at most 13. *)
Theorem atr_warm_up (h l c : series) (i : nat) (Hi : (i < 13)%nat) :
  nth i (atr h l c) NaN = NaN.
Proof.
  unfold atr, atr_n. apply ewm_mean_warm_up.
  pose proof (count_obs_firstn_le (S i) (true_range h l c)). lia.
Qed.

Lemma atr_warm_up_witness :
  nth 2 (atr Demo.highs Demo.lows Demo.closes) NaN = NaN.
Proof. apply (atr_warm_up Demo.highs Demo.lows Demo.closes 2). lia. Defined.

(** ** Rolling windows *)

Lemma window_length (w : nat) (s : series) (i : nat) :
  (List.length (window w s i) <= Nat.min w (S i))%nat.
Proof. unfold window. rewrite length_skipn, length_firstn. lia. Qed.

Lemma window_obs_le (w : nat) (s : series) (i : nat) :
  (List.length (filter F.notna (window w s i)) <= Nat.min w (S i))%nat.
Proof.
  etransitivity; [apply filter_length_le | apply window_length].
Qed.

Lemma rolling_mean_length (w : nat) (s : series) :
  List.length (rolling_mean w s) = List.length s.
Proof.
  unfold rolling_mean. cbv zeta. rewrite length_map, length_seq.
  apply prep_values_length.
Qed.

Lemma rolling_mean_warm_up (w : nat) (s : series) (i : nat) :
  (S i < w)%nat -> nth i (rolling_mean w s) NaN = NaN.
Proof.
  intro Hi. destruct (Nat.lt_ge_cases i (List.length s)) as [Hlt|Hge].
  - unfold rolling_mean. cbv zeta.
    rewrite nth_map_seq by (rewrite prep_values_length; exact Hlt). cbv beta.
    pose proof (window_obs_le w (prep_values s) i).
    destruct (Nat.leb_spec w
                (List.length (filter F.notna (window w (prep_values s) i))));
      [lia|reflexivity].
  - apply nth_overflow. rewrite rolling_mean_length. exact Hge.
Qed.

(** X14: the simple moving average over [n] rows is missing in the rows
    before row [n-1], and has one value per row. *)
Theorem sma_warm_up (s : series) (n i : nat) (Hi : (S i < n)%nat) :
  nth i (sma s n) NaN = NaN /\ List.length (sma s n) = List.length s.
Proof.
  split; [apply rolling_mean_warm_up; exact Hi | apply rolling_mean_length].
Qed.

Lemma sma_warm_up_witness :
  nth 1 (sma Demo.closes 50) NaN = NaN /\
  List.length (sma Demo.closes 50) = List.length Demo.closes.
Proof. apply (sma_warm_up Demo.closes 50 1). lia. Defined.

(** ** Clipping to the unit interval *)

Lemma leb_Fin_intro (a b : Q) : (a <= b)%Q -> F.leb (Fin a) (Fin b) = true.
Proof.
  intro H. unfold F.leb. cbn [F.ltb F.eqb].
  destruct (Qle_bool b a) eqn:E; cbn [negb orb]; [|reflexivity].
  apply Qeq_bool_iff. qbool. lra.
Qed.

Lemma clip_unit (x : float) :
  in_unit (if ((if (x <? lit 0)%F then lit 0 else x) >? lit 1)%F then lit 1
           else (if (x <? lit 0)%F then lit 0 else x)).
Proof.
  unfold in_unit. destruct x as [q| | |].
  - unfold F.gtb, lit, F.of_Z. cbn [F.ltb].
    change (inject_Z 0) with 0%Q. change (inject_Z 1) with 1%Q.
    destruct (Qle_bool 0 q) eqn:E0; cbn [negb F.ltb].
    + destruct (Qle_bool q 1) eqn:E1; cbn [negb]; qbool; right;
        split; apply leb_Fin_intro; lra.
    + right. split; apply leb_Fin_intro; lra.
  - right. split; reflexivity.
  - right. split; reflexivity.
  - left. reflexivity.
Qed.

Lemma clip_in_unit (s : series) : Forall in_unit (clip (lit 0) (lit 1) s).
Proof.
  unfold clip, clip_upper, clip_lower. rewrite map_map.
  apply Forall_map. apply Forall_forall. intros x _. apply clip_unit.
Qed.

Lemma nth_map_in_range {A B} (f : A -> B) (l : list A) (i : nat) (d : A) (d' : B) :
  (i < List.length l)%nat -> nth i (map f l) d' = f (nth i l d).
Proof.
  revert i. induction l as [|x l IH]; intros i Hi; [cbn in Hi; lia|].
  destruct i as [|i]; [reflexivity|]. cbn. apply IH. cbn in Hi. lia.
Qed.

Lemma clip_nth (lo hi : float) (s : series) (i : nat) :
  nth i s NaN = NaN -> nth i (clip lo hi s) NaN = NaN.
Proof.
  intro H. unfold clip, clip_upper, clip_lower. rewrite map_map.
  destruct (Nat.lt_ge_cases i (List.length s)) as [Hlt|Hge].
  - rewrite (nth_map_in_range _ s i NaN NaN Hlt), H.
    destruct lo, hi; reflexivity.
  - apply nth_overflow. rewrite length_map. exact Hge.
Qed.

Section Bollinger.

Variable fsqrt : float -> float.

Lemma rolling_std_length (w : nat) (s : series) :
  List.length (rolling_std fsqrt w s) = List.length s.
Proof.
  unfold rolling_std. cbv zeta. rewrite length_map, length_seq.
  apply prep_values_length.
Qed.

(** X15: whatever the square root returns, the Bollinger position of a
    row is missing or lies between 0 and 1, and it is missing in the rows
    0 to 18, where the 20-row window is not full. *)
Theorem bollinger_unit_interval (c : series) :
  Forall in_unit (bollinger fsqrt c) /\
  forall i, (i < 19)%nat -> nth i (bollinger fsqrt c) NaN = NaN.
Proof.
  split; [apply clip_in_unit|].
  intros i Hi. unfold bollinger, bollinger_w. apply clip_nth.
  destruct (Nat.lt_ge_cases i (List.length c)) as [Hlt|Hge].
  - unfold sdiv, ssub, scale.
    rewrite (zip_with_nth F.div _ _ i NaN NaN NaN);
      [| rewrite !zip_with_length, ?length_map, rolling_mean_length,
           rolling_std_length; lia
       | rewrite length_map, rolling_std_length; exact Hlt].
    rewrite (zip_with_nth F.add _ _ i NaN NaN NaN);
      [| rewrite zip_with_length, rolling_mean_length; lia
       | rewrite length_map, rolling_std_length; exact Hlt].
    rewrite (zip_with_nth F.sub _ _ i NaN NaN NaN);
      [| exact Hlt | rewrite rolling_mean_length; exact Hlt].
    rewrite rolling_mean_warm_up by lia. rewrite sub_nan_r. reflexivity.
  - apply nth_overflow. unfold sdiv, ssub, scale.
    rewrite !zip_with_length, ?length_map, rolling_mean_length, rolling_std_length.
    lia.
Qed.

End Bollinger.

(** ** [vix_pct] *)

Lemma filter_disjoint_length {A} (p q : A -> bool) (l : list A) :
  (forall x, p x && q x = false) ->
  (List.length (filter p l) + List.length (filter q l) <= List.length l)%nat.
Proof.
  intro H. induction l as [|x l IH]; [cbn; lia|].
  cbn. specialize (H x). destruct (p x), (q x); cbn in *; try discriminate; lia.
Qed.

Lemma ltb_eqb_disjoint (x y : float) : F.ltb x y && F.eqb x y = false.
Proof.
  destruct x as [a| | |], y as [b| | |]; cbn; try reflexivity.
  destruct (Qle_bool b a) eqn:E; cbn; [reflexivity|].
  destruct (Qeq_bool a b) eqn:E'; [|reflexivity].
  apply Qeq_bool_iff in E'. qbool. lra.
Qed.

Lemma eqb_refl (x : float) : F.notna x = true -> F.eqb x x = true.
Proof.
  destruct x as [a| | |]; cbn; try reflexivity; try discriminate.
  intros _. apply Qeq_bool_iff. reflexivity.
Qed.

Lemma window_last (w : nat) (s : series) (i : nat) :
  (0 < w)%nat -> (i < List.length s)%nat -> In (nth i s NaN) (window w s i).
Proof.
  intros Hw Hi. unfold window.
  assert (E : firstn (S i) s = firstn i s ++ [nth i s NaN]).
  { revert i Hi. induction s as [|x s IH]; intros i Hi; [cbn in Hi; lia|].
    destruct i as [|i]; [reflexivity|]. cbn [firstn nth app]. f_equal.
    apply IH. cbn in Hi. lia. }
  rewrite E. rewrite skipn_app. apply in_or_app. right.
  rewrite length_firstn.
  replace (S i - w - Nat.min i (List.length s))%nat with 0%nat by lia.
  left. reflexivity.
Qed.

Lemma rank_percent (less same n : nat) :
  (1 <= same)%nat -> (less + same <= n)%nat ->
  percent ((Fin (inject_Z (2 * Z.of_nat less + Z.of_nat same + 1) / 2)
            / lit (Z.of_nat n)) * lit 100)%F.
Proof.
  intros Hs Hn. right.
  assert (Hn0 : Qeq_bool (inject_Z (Z.of_nat n)) 0 = false).
  { destruct (Qeq_bool _ _) eqn:E; [|reflexivity].
    apply Qeq_bool_iff in E. unfold Qeq in E. cbn in E. lia. }
  unfold lit, F.of_Z. cbn [F.div F.mul]. rewrite Hn0.
  set (a := 2 * Z.of_nat less + Z.of_nat same + 1).
  set (m := Z.of_nat n).
  assert (Ha : 0 < a <= 2 * m) by (unfold a, m; lia).
  assert (Hm : 0 < m) by (unfold m; lia).
  assert (Q1 : (0 < inject_Z a)%Q) by (unfold Qlt, inject_Z; cbn; lia).
  assert (Q2 : (inject_Z a <= 2 * inject_Z m)%Q).
  { assert (H : (inject_Z a <= inject_Z (2 * m))%Q) by (rewrite <- Zle_Qle; lia).
    rewrite inject_Z_mult in H. exact H. }
  assert (Q3 : (0 < inject_Z m)%Q) by (unfold Qlt, inject_Z; cbn; lia).
  assert (P1 : (0 < inject_Z a / 2 / inject_Z m * inject_Z 100)%Q).
  { apply Qmult_lt_0_compat; [|reflexivity].
    apply Qlt_shift_div_l; [exact Q3|]. apply Qlt_shift_div_l; [reflexivity|]. lra. }
  assert (P2 : (inject_Z a / 2 / inject_Z m * inject_Z 100 <= inject_Z 100)%Q).
  { assert (H1 : (inject_Z a / 2 / inject_Z m <= 1)%Q).
    { apply Qle_shift_div_r; [exact Q3|]. apply Qle_shift_div_r; [reflexivity|]. lra. }
    change (inject_Z 100) with (100%Q). lra. }
  split.
  - cbn [F.ltb]. apply negb_true_iff. apply Qle_bool_false. exact P1.
  - apply leb_Fin_intro. exact P2.
Qed.

Lemma rolling_rank_pct_nth (w minp : nat) (s : series) (i : nat) :
  (0 < w)%nat -> (0 < minp)%nat ->
  percent ((nth i (rolling_rank_pct w minp s) NaN) * lit 100)%F /\
  ((S i < minp)%nat -> nth i (rolling_rank_pct w minp s) NaN = NaN).
Proof.
  intros Hw Hm.
  destruct (Nat.lt_ge_cases i (List.length s)) as [Hlt|Hge].
  - unfold rolling_rank_pct. cbv zeta.
    rewrite <- (prep_values_length s) in Hlt.
    set (p := prep_values s) in *.
    rewrite nth_map_seq by exact Hlt. cbv beta.
    set (cur := nth i p NaN).
    set (obs := filter F.notna (window w p i)).
    destruct (F.isna cur) eqn:Ena; cbn [orb]; [split; [left|]; reflexivity|].
    destruct (Nat.leb_spec minp (List.length obs)) as [Hle|Hgt]; cbn [negb].
    + split.
      * apply rank_percent.
        -- assert (Hin : In cur obs).
           { apply filter_In. split; [apply window_last; assumption|].
             unfold F.notna. rewrite Ena. reflexivity. }
           assert (Hc : F.eqb cur cur = true)
             by (apply eqb_refl; unfold F.notna; rewrite Ena; reflexivity).
           clear - Hin Hc. induction obs as [|x obs IH]; [contradiction|].
           cbn. destruct Hin as [->|Hin]; [rewrite Hc; cbn; lia|].
           destruct (F.eqb x cur); cbn; [lia|apply IH; exact Hin].
        -- apply (filter_disjoint_length (fun x => (x <? cur)%F) (fun x => F.eqb x cur)).
           intro x. apply ltb_eqb_disjoint.
      * intro Hi. pose proof (window_obs_le w p i). fold obs in H. lia.
    + split; [left|]; reflexivity.
  - rewrite nth_overflow
      by (unfold rolling_rank_pct; cbv zeta;
          rewrite length_map, length_seq, prep_values_length; exact Hge).
    split; [left|]; reflexivity.
Qed.

(** X16: the VIX percentile of a row is missing or lies above 0 and at most
    at 100, and it is missing in the rows 0 to 18, before the window holds
    20 observations. *)
Theorem vix_pct_percent (v : series) (i : nat) :
  percent (nth i (vix_pct v) NaN) /\
  ((i < 19)%nat -> nth i (vix_pct v) NaN = NaN).
Proof.
  unfold vix_pct.
  assert (E : nth i (map (fun x => (x * lit 100)%F) (rolling_rank_pct 252 20 v)) NaN
              = (nth i (rolling_rank_pct 252 20 v) NaN * lit 100)%F).
  { destruct (Nat.lt_ge_cases i (List.length (rolling_rank_pct 252 20 v))) as [Hlt|Hge].
    - exact (nth_map_in_range (fun x => (x * lit 100)%F) _ i NaN NaN Hlt).
    - rewrite !nth_overflow by (rewrite ?length_map; exact Hge). reflexivity. }
  rewrite E.
  destruct (rolling_rank_pct_nth 252 20 v i) as [H1 H2]; [lia|lia|].
  split; [exact H1|]. intro Hi. rewrite H2 by lia. reflexivity.
Qed.

(** ** [consec]: sign and length of a streak *)

Lemma consec_step_sign (s : Z) (r : float) :
  (0 < consec_step s r <-> F.gtb r (lit 0) = true) /\
  (consec_step s r < 0 <-> F.ltb r (lit 0) = true).
Proof.
  unfold consec_step. destruct (F.isna r) eqn:Ena.
  - destruct r; try discriminate. cbn. split; split; (lia || discriminate).
  - destruct (F.gtb r (lit 0)) eqn:Eg.
    + rewrite (gtb_ltb_exclusive r Eg). split; split; (lia || discriminate || reflexivity).
    + destruct (F.ltb r (lit 0)); split; split; (lia || discriminate || reflexivity).
Qed.

Lemma consec_step_bound (s : Z) (r : float) :
  Z.abs (consec_step s r) <= Z.abs s + 1.
Proof.
  unfold consec_step. destruct (F.isna r); [lia|].
  destruct (F.gtb r (lit 0)); [lia|]. destruct (F.ltb r (lit 0)); lia.
Qed.

Lemma consec_from_bound (ret : series) (s : Z) (i : nat) :
  (i < List.length ret)%nat ->
  Z.abs (nth i (consec_from s ret) 0) <= Z.abs s + Z.of_nat (S i).
Proof.
  induction i as [|i IH]; intro Hi; rewrite consec_from_nth by exact Hi.
  - pose proof (consec_step_bound s (nth 0 ret NaN)). lia.
  - pose proof (consec_step_bound (nth i (consec_from s ret) 0) (nth (S i) ret NaN)).
    specialize (IH ltac:(lia)). lia.
Qed.

(** X17: the streak of a row is positive exactly when the return of the row
    is positive and negative exactly when it is negative; it continues the
    streak of the row before by one when that streak has the same
    direction, and in row [i] it is at most [i+1] long. *)
Theorem consec_follows_sign (ret : series) (i : nat)
    (Hi : (i < List.length ret)%nat) :
  let out := consec ret in
  let prev := match i with O => 0 | S j => nth j out 0 end in
  (0 < nth i out 0 <-> F.gtb (nth i ret NaN) (lit 0) = true) /\
  (nth i out 0 < 0 <-> F.ltb (nth i ret NaN) (lit 0) = true) /\
  (0 < nth i out 0 -> 0 <= prev -> nth i out 0 = prev + 1) /\
  (nth i out 0 < 0 -> prev <= 0 -> nth i out 0 = prev - 1) /\
  Z.abs (nth i out 0) <= Z.of_nat (S i).
Proof.
  cbv zeta. unfold consec.
  pose proof (consec_from_bound ret 0 i Hi) as Hb.
  rewrite consec_from_nth by exact Hi.
  rewrite consec_from_nth in Hb by exact Hi.
  set (prev := match i with O => 0 | S j => nth j (consec_from 0 ret) 0 end) in *.
  destruct (consec_step_sign prev (nth i ret NaN)) as [Hp Hn].
  split; [exact Hp|]. split; [exact Hn|]. split; [|split].
  - intros H Hprev. rewrite (consec_step_pos _ _ H).
    destruct (Z.ltb_spec prev 0); [lia|reflexivity].
  - intros H Hprev. rewrite (consec_step_neg _ _ H).
    destruct (Z.ltb_spec 0 prev); [lia|reflexivity].
  - cbn [Z.abs] in Hb. lia.
Qed.

Lemma consec_follows_sign_witness :
  let ret := [lit 1; lit 2; lit (-1)] in
  let out := consec ret in
  let prev := nth 0%nat out 0 in
  (0 < nth 1%nat out 0 <-> F.gtb (nth 1%nat ret NaN) (lit 0) = true) /\
  (nth 1%nat out 0 < 0 <-> F.ltb (nth 1%nat ret NaN) (lit 0) = true) /\
  (0 < nth 1%nat out 0 -> 0 <= prev -> nth 1%nat out 0 = prev + 1) /\
  (nth 1%nat out 0 < 0 -> prev <= 0 -> nth 1%nat out 0 = prev - 1) /\
  Z.abs (nth 1%nat out 0) <= Z.of_nat 2.
Proof.
  apply (consec_follows_sign [lit 1; lit 2; lit (-1)] 1%nat). simpl. lia.
Defined.

(** ** [vol_regime]: order *)

(** X18: every finite short-vol close gets a bucket from 1 to 6, and a
    higher close never gets a lower bucket. *)
Theorem vol_regime_monotone (a b : Q) (Hab : (a <= b)%Q) :
  exists ra rb,
    vol_regime1 (Fin a) = Some ra /\ vol_regime1 (Fin b) = Some rb /\
    1 <= ra /\ ra <= rb /\ rb <= 6.
Proof.
  unfold vol_regime1, cut1, vol_bins, vol_labels, lit, F.of_Z.
  cbn -[Qle_bool].
  change (inject_Z 12) with (12%Q); change (inject_Z 15) with (15%Q);
  change (inject_Z 20) with (20%Q); change (inject_Z 25) with (25%Q);
  change (inject_Z 35) with (35%Q).
  destruct (Qle_bool a 12) eqn:A12; destruct (Qle_bool a 15) eqn:A15;
  destruct (Qle_bool a 20) eqn:A20; destruct (Qle_bool a 25) eqn:A25;
  destruct (Qle_bool a 35) eqn:A35; qbool; try (exfalso; lra);
  destruct (Qle_bool b 12) eqn:B12; destruct (Qle_bool b 15) eqn:B15;
  destruct (Qle_bool b 20) eqn:B20; destruct (Qle_bool b 25) eqn:B25;
  destruct (Qle_bool b 35) eqn:B35; qbool; try (exfalso; lra);
  cbn; eexists; eexists; repeat split; lia.
Qed.

Lemma vol_regime_monotone_witness :
  exists ra rb,
    vol_regime1 (Fin 15) = Some ra /\ vol_regime1 (Fin (151 # 10)) = Some rb /\
    1 <= ra /\ ra <= rb /\ rb <= 6.
Proof. apply (vol_regime_monotone 15 (151 # 10)). lra. Defined.

(** ** [is_opex]: the flagged day *)

Lemma is_opex1_target (dt : Z) :
  is_opex1 dt = 1 <->
  dt = Cal.replace_day1 dt + (4 - Cal.weekday (Cal.replace_day1 dt)) mod 7 + 14.
Proof.
  unfold is_opex1, Cal.add_days, Cal.add_weeks.
  destruct (Z.eqb_spec dt
    (Cal.replace_day1 dt + (4 - Cal.weekday (Cal.replace_day1 dt)) mod 7 + 7 * 2))
    as [E|E]; split; intro H; try reflexivity; try discriminate; lia.
Qed.

(** X19: a date is flagged exactly when it is a Friday whose day of the
    month is between 15 and 21. *)
Theorem is_opex_friday_15_21 (idx : list Z) (i : nat)
    (Hi : (i < List.length idx)%nat) (Hdt : 1 <= nth i idx 0) :
  nth i (is_opex idx) 0 = 1 <->
  Cal.weekday (nth i idx 0) = 4 /\ 15 <= Cal.day (nth i idx 0) <= 21.
Proof.
  unfold is_opex.
  rewrite (nth_map_in_range is_opex1 idx i 0 0 Hi).
  set (dt := nth i idx 0) in *.
  rewrite is_opex1_target, replace_day1_offset by exact Hdt.
  set (D := Cal.day dt). clearbody D. unfold Cal.weekday.
  split; intro H; Z.to_euclidean_division_equations; lia.
Qed.

Lemma is_opex_friday_15_21_witness :
  nth 0%nat (is_opex [Cal.ymd2ord 2024 1 19]) 0 = 1 <->
  Cal.weekday (nth 0%nat [Cal.ymd2ord 2024 1 19] 0) = 4 /\
  15 <= Cal.day (nth 0%nat [Cal.ymd2ord 2024 1 19] 0) <= 21.
Proof.
  apply (is_opex_friday_15_21 [Cal.ymd2ord 2024 1 19] 0%nat).
  - simpl. lia.
  - vm_compute. discriminate.
Defined.

(** X20: two flagged dates of the same month of the same year are the same
    date: a month has one flagged day at most. *)
Theorem is_opex_once_a_month (idx : list Z) (i j : nat)
    (Hi : (i < List.length idx)%nat) (Hj : (j < List.length idx)%nat)
    (Hy : Cal.year (nth i idx 0) = Cal.year (nth j idx 0))
    (Hm : Cal.month (nth i idx 0) = Cal.month (nth j idx 0))
    (Fi : nth i (is_opex idx) 0 = 1) (Fj : nth j (is_opex idx) 0 = 1) :
  nth i idx 0 = nth j idx 0.
Proof.
  unfold is_opex in Fi, Fj.
  rewrite (nth_map_in_range is_opex1 idx i 0 0 Hi) in Fi.
  rewrite (nth_map_in_range is_opex1 idx j 0 0 Hj) in Fj.
  apply is_opex1_target in Fi, Fj.
  assert (E : Cal.replace_day1 (nth i idx 0) = Cal.replace_day1 (nth j idx 0))
    by (unfold Cal.replace_day1; rewrite Hy, Hm; reflexivity).
  rewrite Fi, Fj, E. reflexivity.
Qed.

Lemma is_opex_once_a_month_witness :
  nth 1%nat [Cal.ymd2ord 2024 1 12; Cal.ymd2ord 2024 1 19; Cal.ymd2ord 2024 1 19] 0
  = nth 2%nat [Cal.ymd2ord 2024 1 12; Cal.ymd2ord 2024 1 19; Cal.ymd2ord 2024 1 19] 0.
Proof.
  apply (is_opex_once_a_month
           [Cal.ymd2ord 2024 1 12; Cal.ymd2ord 2024 1 19; Cal.ymd2ord 2024 1 19]
           1%nat 2%nat); try (simpl; lia); vm_compute; reflexivity.
Defined.

(** ** [ema] *)

Lemma ema_weight_nonzero (alpha : Q) :
  Qeq_bool (inject_Z 1 * (1 - alpha) + alpha) 0 = false.
Proof.
  destruct (Qeq_bool _ _) eqn:E; [|reflexivity].
  apply Qeq_bool_iff in E. exfalso.
  assert (H : (inject_Z 1 * (1 - alpha) + alpha == 1)%Q)
    by (change (inject_Z 1) with 1%Q; ring).
  rewrite H in E. discriminate E.
Qed.



(** ** More columns of the table *)

Lemma read_back (n : nat) (s : series) :
  List.length s = n -> map cell_float (fit n (of_floats s)) = s.
Proof.
  intro H. rewrite fit_id by (rewrite of_floats_length; exact H).
  unfold of_floats. rewrite map_map. cbn [cell_float]. apply map_id.
Qed.

Lemma row_of_next (start : Z) (idx : list Z) (M : nat) :
  (M < List.length idx)%nat -> start <= nth M idx 0 ->
  row_of start idx (S M) = S (row_of start idx M).
Proof.
  intros HM Hk. unfold row_of.
  assert (E : firstn (S M) idx = firstn M idx ++ [nth M idx 0]).
  { clear Hk. revert M HM. induction idx as [|x idx IH]; intros M HM; [cbn in HM; lia|].
    destruct M as [|M]; [reflexivity|]. cbn [firstn nth app]. f_equal.
    apply IH. cbn in HM. lia. }
  rewrite E, filter_app, length_app. cbn [filter].
  destruct (Z.leb_spec start (nth M idx 0)); [cbn; lia|lia].
Qed.

(** Two columns of the table with the same cells give the same fields. *)
Lemma fields_repeat (start : Z) (df : frame) (n1 n2 : string) (c : column)
    (line : list string) :
  In n1 cols -> In n2 cols ->
  lookup n1 (columns df) = Some c -> lookup n2 (columns df) = Some c ->
  In line (Csv.lines (Csv.of_frame (emitted start df))) ->
  field (Csv.of_frame (emitted start df)) line n1
  = field (Csv.of_frame (emitted start df)) line n2.
Proof.
  intros I1 I2 H1 H2 Hline. unfold Csv.of_frame in Hline. cbn [Csv.lines] in Hline.
  apply in_map_iff in Hline. destruct Hline as (i & <- & _).
  rewrite (field_of_row start df n1 c i I1 H1).
  rewrite (field_of_row start df n2 c i I2 H2). reflexivity.
Qed.

Section Table.

Variables (fsqrt : float -> float) (tz : Z -> Z) (pad : bool).
Variables (idx : list Z) (o h l c : series) (ts : list Z).
Variables (vo vc vh vl : series) (v9o v9c v3o v3c : series).

Local Abbreviation df :=
  (assemble_table fsqrt tz pad idx o h l c ts vo vc vh vl v9o v9c v3o v3c).

Lemma lookup_returns :
  exists tr : series,
    lookup "Total_Return_Pct" (columns df)
    = Some (fit (nrows df) (of_floats tr)) /\
    lookup "Prev_Return_Pct" (columns df)
    = Some (fit (nrows df)
              (of_floats (shift 1 (map cell_float (fit (nrows df) (of_floats tr)))))).
Proof. eexists. split; table_lookup. Qed.

(** X22: in the written row of a session Prev_Return_Pct is the
    Total_Return_Pct of the written row before, when the session before
    is written too. *)
Theorem prev_return_is_lagged_return (start : Z) (M : nat)
    (HM : (S M < List.length idx)%nat)
    (Hkept : start <= nth M idx 0) (Hnext : start <= nth (S M) idx 0) :
  exists r : float,
    cell_at (emitted start df) "Total_Return_Pct" (row_of start idx M)
    = Some (CFloat r) /\
    cell_at (emitted start df) "Prev_Return_Pct" (S (row_of start idx M))
    = Some (CFloat r).
Proof.
  destruct lookup_returns as (tr & Htr & Hprev).
  exists (nth M (fcol df "Total_Return_Pct") NaN). split.
  - exact (emitted_float_cell start df "Total_Return_Pct" _ M ltac:(in_names)
             Htr (Nat.lt_succ_l _ _ HM) Hkept).
  - rewrite <- (row_of_next start idx M (Nat.lt_succ_l _ _ HM) Hkept).
    refine (eq_trans (emitted_float_cell start df "Prev_Return_Pct" _ (S M)
                        ltac:(in_names) Hprev HM Hnext) _).
    f_equal. f_equal. unfold fcol at 1. rewrite Hprev.
    rewrite read_back by (rewrite shift_length, length_map; apply fit_length).
    unfold fcol. rewrite Htr.
    assert (Hlen : (M < List.length (map cell_float (fit (nrows df) (of_floats tr))))%nat).
    { rewrite length_map, fit_length. unfold nrows.
      rewrite (assemble_table_index fsqrt tz pad idx o h l c ts vo vc vh vl v9o v9c v3o v3c). lia. }
    pose proof (shift1_nth_error (map cell_float (fit (nrows df) (of_floats tr))) (S M))
      as Hs.
    rewrite length_map, fit_length in Hs. unfold nrows in Hs.
    rewrite (assemble_table_index fsqrt tz pad idx o h l c ts vo vc vh vl v9o v9c v3o v3c) in Hs.
    specialize (Hs HM). apply nth_error_nth with (d := NaN) in Hs. exact Hs.
Qed.

(** X23: Intraday_High and Intraday_Low repeat the columns high and low:
    in every written line the two pairs of fields are the same. *)
Theorem intraday_columns_repeat (start : Z) (line : list string) :
  In line (Csv.lines (Csv.of_frame (emitted start df))) ->
  field (Csv.of_frame (emitted start df)) line "Intraday_High"
  = field (Csv.of_frame (emitted start df)) line "high" /\
  field (Csv.of_frame (emitted start df)) line "Intraday_Low"
  = field (Csv.of_frame (emitted start df)) line "low".
Proof.
  intro Hline.
  assert (H1 : lookup "Intraday_High" (columns df)
               = Some (fit (nrows df) (of_floats h))) by table_lookup.
  assert (H2 : lookup "high" (columns df)
               = Some (fit (nrows df) (of_floats h))) by table_lookup.
  assert (H3 : lookup "Intraday_Low" (columns df)
               = Some (fit (nrows df) (of_floats l))) by table_lookup.
  assert (H4 : lookup "low" (columns df)
               = Some (fit (nrows df) (of_floats l))) by table_lookup.
  split.
  - exact (fields_repeat start df "Intraday_High" "high" _ line
             ltac:(in_names) ltac:(in_names) H1 H2 Hline).
  - exact (fields_repeat start df "Intraday_Low" "low" _ line
             ltac:(in_names) ltac:(in_names) H3 H4 Hline).
Qed.

(** X24: every value of Close_Position_In_Range is missing or lies between
    0 and 1, also on a day whose close lies outside the range from low to
    high. *)
Theorem close_position_in_unit :
  exists s : series,
    lookup "Close_Position_In_Range" (columns df)
    = Some (fit (nrows df) (of_floats s)) /\
    Forall in_unit s.
Proof.
  eexists. split; [table_lookup|]. apply clip_in_unit.
Qed.

(** X25: the time of a written row is 16:00 in New York on the date of the
    row as a Unix time: with an offset of five or four hours behind UTC, it
    falls on the same date in UTC, at 21:00 or at 20:00. *)
Theorem time_is_close_of_session (start : Z) (N : nat)
    (HN : (N < List.length idx)%nat) (Hkept : start <= nth N idx 0)
    (Htz : tz (nth N idx 0) = -18000 \/ tz (nth N idx 0) = -14400) :
  let d := nth N idx 0 in
  cell_at (emitted start df) "time" (row_of start idx N)
  = Some (CInt (time_of tz d)) /\
  time_of tz d / 86400 = d - 719163 /\
  (time_of tz d mod 86400 = 75600 \/ time_of tz d mod 86400 = 72000).
Proof.
  cbv zeta. split.
  - assert (Ht : lookup "time" (columns df)
                 = Some (fit (nrows df) (of_ints (map (time_of tz) idx))))
      by table_lookup.
    refine (eq_trans (emitted_int_cell start df "time" _ N ltac:(in_names) Ht
                        (length_map _ idx) HN Hkept) _).
    rewrite (nth_map_in_range (time_of tz) idx N 0 0 HN). reflexivity.
  - unfold time_of. destruct Htz as [-> | ->];
      Z.to_euclidean_division_equations; lia.
Qed.

End Table.

Lemma prev_return_is_lagged_return_witness :
  exists r : float,
    cell_at (emitted Demo.d0 Demo.table) "Total_Return_Pct" (row_of Demo.d0 Demo.days 1)
    = Some (CFloat r) /\
    cell_at (emitted Demo.d0 Demo.table) "Prev_Return_Pct"
            (S (row_of Demo.d0 Demo.days 1))
    = Some (CFloat r).
Proof.
  apply (prev_return_is_lagged_return Demo.root Demo.est true Demo.days
           Demo.opens Demo.highs Demo.lows Demo.closes [3; 3; -3]
           Demo.vix_opens Demo.vix_closes Demo.vix_highs Demo.vix_lows
           Demo.missing Demo.missing Demo.vix3m_opens Demo.vix3m_closes Demo.d0 1%nat).
  - simpl. lia.
  - vm_compute. discriminate.
  - vm_compute. discriminate.
Defined.

Lemma intraday_columns_repeat_witness :
  field (Csv.of_frame (emitted Demo.d0 Demo.table))
        (Csv.row (columns (emitted Demo.d0 Demo.table)) 0) "Intraday_High"
  = field (Csv.of_frame (emitted Demo.d0 Demo.table))
          (Csv.row (columns (emitted Demo.d0 Demo.table)) 0) "high" /\
  field (Csv.of_frame (emitted Demo.d0 Demo.table))
        (Csv.row (columns (emitted Demo.d0 Demo.table)) 0) "Intraday_Low"
  = field (Csv.of_frame (emitted Demo.d0 Demo.table))
          (Csv.row (columns (emitted Demo.d0 Demo.table)) 0) "low".
Proof.
  apply (intraday_columns_repeat Demo.root Demo.est true Demo.days
           Demo.opens Demo.highs Demo.lows Demo.closes [3; 3; -3]
           Demo.vix_opens Demo.vix_closes Demo.vix_highs Demo.vix_lows
           Demo.missing Demo.missing Demo.vix3m_opens Demo.vix3m_closes Demo.d0).
  vm_compute. left. reflexivity.
Defined.

Lemma time_is_close_of_session_witness :
  cell_at (emitted Demo.d0 Demo.table) "time" (row_of Demo.d0 Demo.days 1)
  = Some (CInt (time_of Demo.est (nth 1 Demo.days 0))) /\
  time_of Demo.est (nth 1 Demo.days 0) / 86400 = nth 1 Demo.days 0 - 719163 /\
  (time_of Demo.est (nth 1 Demo.days 0) mod 86400 = 75600 \/
   time_of Demo.est (nth 1 Demo.days 0) mod 86400 = 72000).
Proof.
  apply (time_is_close_of_session Demo.root Demo.est true Demo.days
           Demo.opens Demo.highs Demo.lows Demo.closes [3; 3; -3]
           Demo.vix_opens Demo.vix_closes Demo.vix_highs Demo.vix_lows
           Demo.missing Demo.missing Demo.vix3m_opens Demo.vix3m_closes Demo.d0 1%nat).
  - simpl. lia.
  - vm_compute. discriminate.
  - left. reflexivity.
Defined.

(** ** Rows of the table, value by value *)

Lemma nth_map_nan (f : float -> float) (s : series) (i : nat) :
  f NaN = NaN -> nth i (map f s) NaN = f (nth i s NaN).
Proof.
  intro Hf. destruct (Nat.lt_ge_cases i (List.length s)) as [Hlt|Hge].
  - apply nth_map_in_range. exact Hlt.
  - rewrite !nth_overflow by (rewrite ?length_map; exact Hge). symmetry. exact Hf.
Qed.

Lemma zip_with_nth_nan (f : float -> float -> float) (a b : series) (i : nat) :
  (forall y, f NaN y = NaN) -> (forall x, f x NaN = NaN) ->
  nth i (zip_with f a b) NaN = f (nth i a NaN) (nth i b NaN).
Proof.
  intros Hl Hr.
  destruct (Nat.lt_ge_cases i (List.length a)) as [Ha|Ha];
    destruct (Nat.lt_ge_cases i (List.length b)) as [Hb|Hb].
  - apply zip_with_nth; assumption.
  - rewrite (nth_overflow b) by exact Hb. rewrite Hr.
    apply nth_overflow. rewrite zip_with_length. lia.
  - rewrite (nth_overflow a) by exact Ha. rewrite Hl.
    apply nth_overflow. rewrite zip_with_length. lia.
  - rewrite (nth_overflow a) by exact Ha. rewrite Hl.
    apply nth_overflow. rewrite zip_with_length. lia.
Qed.

Lemma add_nan_l (y : float) : F.add NaN y = NaN.
Proof. reflexivity. Qed.

Lemma add_nan_r (x : float) : F.add x NaN = NaN.
Proof. destruct x; reflexivity. Qed.

Lemma sub_nan_l (y : float) : F.sub NaN y = NaN.
Proof. reflexivity. Qed.

Lemma mul_nan_l (y : float) : F.mul NaN y = NaN.
Proof. reflexivity. Qed.

(** A float column read back at a row of the table. *)
Lemma fit_read_nth (n N : nat) (s : series) :
  (N < n)%nat -> nth N (map cell_float (fit n (of_floats s))) NaN = nth N s NaN.
Proof.
  intro HN. rewrite (nth_map_in_range cell_float _ N (CFloat NaN) NaN)
    by (rewrite fit_length; exact HN).
  unfold fit. rewrite nth_firstn.
  destruct (Nat.ltb_spec N n) as [_|H]; [|lia].
  destruct (Nat.lt_ge_cases N (List.length s)) as [Hlt|Hge].
  - rewrite app_nth1 by (rewrite of_floats_length; exact Hlt).
    unfold of_floats.
    rewrite (nth_map_in_range CFloat s N NaN (CFloat NaN) Hlt). reflexivity.
  - rewrite app_nth2 by (rewrite of_floats_length; exact Hge).
    rewrite nth_repeat, nth_overflow by exact Hge. reflexivity.
Qed.

Lemma fcol_nth (df : frame) (name : string) (s : series) (N : nat) :
  lookup name (columns df) = Some (fit (nrows df) (of_floats s)) ->
  (N < nrows df)%nat -> nth N (fcol df name) NaN = nth N s NaN.
Proof.
  intros H HN. unfold fcol. rewrite H. apply fit_read_nth. exact HN.
Qed.

Lemma shift_nth_warm_up (k : nat) (s : series) (i : nat) :
  (i < k)%nat -> nth i (shift k s) NaN = NaN.
Proof.
  intro Hi. unfold shift. rewrite nth_firstn.
  destruct (Nat.ltb i (List.length s)); [|reflexivity].
  rewrite app_nth1 by (rewrite repeat_length; exact Hi).
  apply nth_repeat.
Qed.

Lemma pct_change_warm_up (pad : bool) (k : nat) (s : series) (i : nat) :
  (i < k)%nat -> nth i (scale 100 (pct_change pad k s)) NaN = NaN.
Proof.
  intro Hi. unfold scale, pct_change.
  rewrite nth_map_nan by reflexivity.
  rewrite nth_map_nan by reflexivity.
  rewrite zip_with_nth_nan by (intros; (reflexivity || apply div_nan_r)).
  rewrite shift_nth_warm_up by exact Hi. rewrite div_nan_r. reflexivity.
Qed.

(** The direction of a gap over a positive prior close. *)
Lemma gap_direction (a b : Q) :
  (0 < b)%Q ->
  let g := (((Fin a - Fin b) / Fin b) * lit 100)%F in
  (F.gtb g (lit 0) = true <-> (b < a)%Q) /\
  (F.ltb g (lit 0) = true <-> (a < b)%Q).
Proof.
  intros Hb. cbv zeta. unfold F.sub. cbn [F.neg F.add F.div].
  assert (Eb : Qeq_bool b 0 = false).
  { destruct (Qeq_bool b 0) eqn:E; [|reflexivity].
    apply Qeq_bool_iff in E. lra. }
  rewrite Eb. unfold lit, F.of_Z. cbn [F.mul]. unfold F.gtb.
  rewrite !ltb_Fin.
  change (inject_Z 100) with 100%Q. change (inject_Z 0) with 0%Q.
  assert (Hinv : (0 < / b)%Q) by (apply Qinv_lt_0_compat; exact Hb).
  assert (E : ((a + - b) / b * 100 == (a - b) * (/ b * 100))%Q)
    by (unfold Qdiv; ring).
  rewrite E.
  assert (Hc : (0 < / b * 100)%Q).
  { apply Qmult_lt_0_compat; [exact Hinv|reflexivity]. }
  set (k := (/ b * 100)%Q) in *. clearbody k.
  split; split; intro H.
  - destruct (Qlt_le_dec b a) as [Hlt|Hle]; [exact Hlt|exfalso].
    assert ((a - b) * k <= 0)%Q; [|lra].
    rewrite Qmult_comm.
    setoid_replace 0%Q with (k * 0)%Q by ring.
    apply Qmult_le_l; [exact Hc|lra].
  - setoid_replace 0%Q with (0 * k)%Q by ring.
    apply Qmult_lt_compat_r; [exact Hc|lra].
  - destruct (Qlt_le_dec a b) as [Hlt|Hle]; [exact Hlt|exfalso].
    assert (0 <= (a - b) * k)%Q; [|lra].
    apply Qmult_le_0_compat; lra.
  - setoid_replace 0%Q with (0 * k)%Q by ring.
    apply Qmult_lt_compat_r; [exact Hc|lra].
Qed.

Lemma some_float_inj (x y : float) : Some (CFloat x) = Some (CFloat y) -> x = y.
Proof. intro H. injection H as H. exact H. Qed.

Section Table.

Variables (fsqrt : float -> float) (tz : Z -> Z) (pad : bool).
Variables (idx : list Z) (o h l c : series) (ts : list Z).
Variables (vo vc vh vl : series) (v9o v9c v3o v3c : series).

Local Abbreviation df :=
  (assemble_table fsqrt tz pad idx o h l c ts vo vc vh vl v9o v9c v3o v3c).

Lemma nrows_table : nrows df = List.length idx.
Proof. reflexivity. Qed.

(** X26: the multi-day returns have a warm-up of their span: Return_5D is
    missing in the rows 0 to 4 and Return_20D in the rows 0 to 19 of the
    table, and VIX_Change_Pct in row 0, with or without forward fill. *)
Theorem returns_warm_up (i : nat) (Hi : (i < List.length idx)%nat) :
  ((i < 5)%nat -> nth i (fcol df "Return_5D") NaN = NaN) /\
  ((i < 20)%nat -> nth i (fcol df "Return_20D") NaN = NaN) /\
  ((i < 1)%nat -> nth i (fcol df "VIX_Change_Pct") NaN = NaN).
Proof.
  assert (H5 : lookup "Return_5D" (columns df)
               = Some (fit (nrows df) (of_floats (scale 100 (pct_change pad 5 c)))))
    by table_lookup.
  assert (H20 : lookup "Return_20D" (columns df)
                = Some (fit (nrows df) (of_floats (scale 100 (pct_change pad 20 c)))))
    by table_lookup.
  assert (Hv : lookup "VIX_Change_Pct" (columns df)
               = Some (fit (nrows df) (of_floats (scale 100 (pct_change pad 1 vc)))))
    by table_lookup.
  split; [|split]; intro Hk.
  - rewrite (fcol_nth df _ _ i H5 Hi). apply pct_change_warm_up. exact Hk.
  - rewrite (fcol_nth df _ _ i H20 Hi). apply pct_change_warm_up. exact Hk.
  - rewrite (fcol_nth df _ _ i Hv Hi). apply pct_change_warm_up. exact Hk.
Qed.

Lemma lookup_VIX_Close :
  lookup "VIX_Close" (columns df) = Some (fit (nrows df) (of_floats vc)).
Proof. table_lookup. Qed.

Lemma lookup_Vol_Regime :
  lookup "Vol_Regime" (columns df)
  = Some (fit (nrows df) (of_Int64 (vol_regime (fcol df "VIX_Close")))).
Proof. table_lookup. Qed.

(** X27: in a written row Vol_Regime is the bucket of the VIX_Close of the
    same row, and missing when that close has no bucket. *)
Theorem vol_regime_of_written_row (start : Z) (N : nat)
    (HN : (N < List.length idx)%nat) (Hkept : start <= nth N idx 0) :
  exists v : float,
    cell_at (emitted start df) "VIX_Close" (row_of start idx N) = Some (CFloat v) /\
    cell_at (emitted start df) "Vol_Regime" (row_of start idx N)
    = Some (match vol_regime1 v with Some z => CInt z | None => CNA end).
Proof.
  exists (nth N (fcol df "VIX_Close") NaN). split.
  - exact (emitted_float_cell start df "VIX_Close" _ N ltac:(in_names)
             lookup_VIX_Close HN Hkept).
  - refine (eq_trans (cell_at_emitted start df "Vol_Regime" _ N ltac:(in_names)
                        lookup_Vol_Regime HN Hkept) _).
    assert (Hlen : List.length (fcol df "VIX_Close") = nrows df)
      by exact (fcol_length df "VIX_Close" _ lookup_VIX_Close).
    rewrite fit_id
      by (unfold of_Int64, vol_regime; rewrite !length_map; exact Hlen).
    unfold of_Int64, vol_regime. rewrite map_map, nth_error_map.
    rewrite (nth_error_nth' _ NaN) by (rewrite Hlen; exact HN).
    reflexivity.
Qed.

Lemma lookup_ratios :
  (exists s, lookup "VIX9D_VIX_Ratio" (columns df)
             = Some (fit (nrows df) (of_floats s))) /\
  (exists s, lookup "VIX_VIX3M_Ratio" (columns df)
             = Some (fit (nrows df) (of_floats s))).
Proof. split; eexists; table_lookup. Qed.

(** X28: in a written row Term_Structure_State is the state of the two
    ratios of the same row. *)
Theorem term_state_of_written_row (start : Z) (N : nat)
    (HN : (N < List.length idx)%nat) (Hkept : start <= nth N idx 0) :
  exists a b : float,
    cell_at (emitted start df) "VIX9D_VIX_Ratio" (row_of start idx N)
    = Some (CFloat a) /\
    cell_at (emitted start df) "VIX_VIX3M_Ratio" (row_of start idx N)
    = Some (CFloat b) /\
    cell_at (emitted start df) "Term_Structure_State" (row_of start idx N)
    = Some (CInt (term_state1 a b)).
Proof.
  destruct lookup_ratios as ((s9 & H9) & (s3 & H3)).
  exists (nth N (fcol df "VIX9D_VIX_Ratio") NaN), (nth N (fcol df "VIX_VIX3M_Ratio") NaN).
  split; [|split].
  - exact (emitted_float_cell start df "VIX9D_VIX_Ratio" _ N ltac:(in_names)
             H9 HN Hkept).
  - exact (emitted_float_cell start df "VIX_VIX3M_Ratio" _ N ltac:(in_names)
             H3 HN Hkept).
  - assert (Hlen : List.length (fcol df "VIX9D_VIX_Ratio") = nrows df)
      by exact (fcol_length df "VIX9D_VIX_Ratio" _ H9).
    refine (eq_trans (emitted_int_cell start df "Term_Structure_State" _ N
                        ltac:(in_names)
                        (lookup_Term_Structure_State fsqrt tz pad idx o h l c ts
                           vo vc vh vl v9o v9c v3o v3c)
                        _ HN Hkept) _).
    + rewrite term_state_length. exact Hlen.
    + rewrite term_state_nth by (rewrite Hlen; exact HN). reflexivity.
Qed.

Lemma lookup_gap_columns :
  lookup "open" (columns df) = Some (fit (nrows df) (of_floats o)) /\
  lookup "Prior_Close" (columns df) = Some (fit (nrows df) (of_floats (shift 1 c))) /\
  lookup "Gap_Pct" (columns df)
  = Some (fit (nrows df)
            (of_floats (scale 100 (sdiv (ssub (fcol df "open") (fcol df "Prior_Close"))
                                        (fcol df "Prior_Close"))))) /\
  lookup "Total_Return_Pct" (columns df)
  = Some (fit (nrows df)
            (of_floats (scale 100 (sdiv (ssub (fcol df "close") (fcol df "Prior_Close"))
                                        (fcol df "Prior_Close"))))) /\
  lookup "Consecutive_Days" (columns df)
  = Some (fit (nrows df) (of_ints (consec (fcol df "Total_Return_Pct")))).
Proof. repeat split; table_lookup. Qed.

Lemma gap_pct_nth (N : nat) :
  (N < List.length idx)%nat ->
  nth N (fcol df "Gap_Pct") NaN
  = (((nth N (fcol df "open") NaN - nth N (fcol df "Prior_Close") NaN)
      / nth N (fcol df "Prior_Close") NaN) * lit 100)%F.
Proof.
  intro HN. destruct lookup_gap_columns as (_ & _ & Hg & _).
  rewrite (fcol_nth df _ _ N Hg HN). unfold scale, sdiv, ssub.
  rewrite nth_map_nan by reflexivity.
  rewrite zip_with_nth_nan by (intros; (reflexivity || apply div_nan_r)).
  rewrite zip_with_nth_nan by (intros; (reflexivity || apply sub_nan_r)).
  reflexivity.
Qed.

(** X29: in a written row whose open is finite and whose prior close is
    finite and positive, Gap_Pct is above 0 exactly when the open is above
    the prior close, and below 0 exactly when the open is below it. *)
Theorem gap_pct_direction (start : Z) (N : nat) (a b : Q)
    (HN : (N < List.length idx)%nat) (Hkept : start <= nth N idx 0)
    (Hopen : cell_at (emitted start df) "open" (row_of start idx N)
             = Some (CFloat (Fin a)))
    (Hprior : cell_at (emitted start df) "Prior_Close" (row_of start idx N)
              = Some (CFloat (Fin b)))
    (Hpos : (0 < b)%Q) :
  exists g : float,
    cell_at (emitted start df) "Gap_Pct" (row_of start idx N) = Some (CFloat g) /\
    (F.gtb g (lit 0) = true <-> (b < a)%Q) /\
    (F.ltb g (lit 0) = true <-> (a < b)%Q).
Proof.
  destruct lookup_gap_columns as (Ho & Hp & Hg & _).
  pose proof (emitted_float_cell start df "open" _ N ltac:(in_names) Ho HN Hkept)
    as Eo.
  pose proof (emitted_float_cell start df "Prior_Close" _ N ltac:(in_names) Hp HN Hkept)
    as Ep.
  assert (Ea : nth N (fcol df "open") NaN = Fin a).
  { pose proof (eq_trans (eq_sym Eo) Hopen) as E. apply some_float_inj in E.
    exact E. }
  assert (Eb : nth N (fcol df "Prior_Close") NaN = Fin b).
  { pose proof (eq_trans (eq_sym Ep) Hprior) as E. apply some_float_inj in E.
    exact E. }
  exists (nth N (fcol df "Gap_Pct") NaN). split.
  - exact (emitted_float_cell start df "Gap_Pct" _ N ltac:(in_names) Hg HN Hkept).
  - rewrite (gap_pct_nth N HN), Ea, Eb. exact (gap_direction a b Hpos).
Qed.

(** X30: the first session of the calendar has no history: when it is
    written, its Prior_Close, Gap_Pct and Total_Return_Pct are missing and
    its Consecutive_Days is 0. *)
Theorem first_row_has_no_history (start : Z)
    (Hrow : (0 < List.length idx)%nat) (Hkept : start <= nth 0 idx 0) :
  cell_at (emitted start df) "Prior_Close" 0 = Some (CFloat NaN) /\
  cell_at (emitted start df) "Gap_Pct" 0 = Some (CFloat NaN) /\
  cell_at (emitted start df) "Total_Return_Pct" 0 = Some (CFloat NaN) /\
  cell_at (emitted start df) "Consecutive_Days" 0 = Some (CInt 0).
Proof.
  destruct lookup_gap_columns as (_ & Hp & Hg & Ht & Hc).
  assert (Ep : nth 0 (fcol df "Prior_Close") NaN = NaN).
  { rewrite (fcol_nth df _ _ 0%nat Hp Hrow). apply shift_nth_warm_up. lia. }
  assert (Eg : nth 0 (fcol df "Gap_Pct") NaN = NaN).
  { rewrite (gap_pct_nth 0%nat Hrow), Ep. rewrite sub_nan_r. reflexivity. }
  assert (Et : nth 0 (fcol df "Total_Return_Pct") NaN = NaN).
  { rewrite (fcol_nth df _ _ 0%nat Ht Hrow). unfold scale, sdiv, ssub.
    rewrite nth_map_nan by reflexivity.
    rewrite zip_with_nth_nan by (intros; (reflexivity || apply div_nan_r)).
    rewrite Ep. rewrite div_nan_r. reflexivity. }
  assert (Hlen : List.length (fcol df "Total_Return_Pct") = nrows df)
    by exact (fcol_length df "Total_Return_Pct" _ Ht).
  change 0%nat with (row_of start idx 0).
  split; [|split; [|split]].
  - rewrite <- Ep.
    exact (emitted_float_cell start df "Prior_Close" _ 0%nat ltac:(in_names)
             Hp Hrow Hkept).
  - rewrite <- Eg.
    exact (emitted_float_cell start df "Gap_Pct" _ 0%nat ltac:(in_names)
             Hg Hrow Hkept).
  - rewrite <- Et.
    exact (emitted_float_cell start df "Total_Return_Pct" _ 0%nat ltac:(in_names)
             Ht Hrow Hkept).
  - refine (eq_trans (emitted_int_cell start df "Consecutive_Days" _ 0%nat
                        ltac:(in_names) Hc _ Hrow Hkept) _).
    + unfold consec. rewrite consec_from_length. exact Hlen.
    + unfold consec. rewrite consec_from_nth by (rewrite Hlen; exact Hrow).
      rewrite Et. reflexivity.
Qed.

End Table.

Lemma returns_warm_up_witness :
  ((1 < 5)%nat -> nth 1 (fcol Demo.table "Return_5D") NaN = NaN) /\
  ((1 < 20)%nat -> nth 1 (fcol Demo.table "Return_20D") NaN = NaN) /\
  ((1 < 1)%nat -> nth 1 (fcol Demo.table "VIX_Change_Pct") NaN = NaN).
Proof.
  apply (returns_warm_up Demo.root Demo.est true Demo.days
           Demo.opens Demo.highs Demo.lows Demo.closes [3; 3; -3]
           Demo.vix_opens Demo.vix_closes Demo.vix_highs Demo.vix_lows
           Demo.missing Demo.missing Demo.vix3m_opens Demo.vix3m_closes 1%nat).
  simpl. lia.
Defined.

Lemma vol_regime_of_written_row_witness :
  exists v : float,
    cell_at (emitted Demo.d0 Demo.table) "VIX_Close" (row_of Demo.d0 Demo.days 1)
    = Some (CFloat v) /\
    cell_at (emitted Demo.d0 Demo.table) "Vol_Regime" (row_of Demo.d0 Demo.days 1)
    = Some (match vol_regime1 v with Some z => CInt z | None => CNA end).
Proof.
  apply (vol_regime_of_written_row Demo.root Demo.est true Demo.days
           Demo.opens Demo.highs Demo.lows Demo.closes [3; 3; -3]
           Demo.vix_opens Demo.vix_closes Demo.vix_highs Demo.vix_lows
           Demo.missing Demo.missing Demo.vix3m_opens Demo.vix3m_closes Demo.d0 1%nat).
  - simpl. lia.
  - vm_compute. discriminate.
Defined.

Lemma term_state_of_written_row_witness :
  exists a b : float,
    cell_at (emitted Demo.d0 Demo.table) "VIX9D_VIX_Ratio" (row_of Demo.d0 Demo.days 1)
    = Some (CFloat a) /\
    cell_at (emitted Demo.d0 Demo.table) "VIX_VIX3M_Ratio" (row_of Demo.d0 Demo.days 1)
    = Some (CFloat b) /\
    cell_at (emitted Demo.d0 Demo.table) "Term_Structure_State"
            (row_of Demo.d0 Demo.days 1)
    = Some (CInt (term_state1 a b)).
Proof.
  apply (term_state_of_written_row Demo.root Demo.est true Demo.days
           Demo.opens Demo.highs Demo.lows Demo.closes [3; 3; -3]
           Demo.vix_opens Demo.vix_closes Demo.vix_highs Demo.vix_lows
           Demo.missing Demo.missing Demo.vix3m_opens Demo.vix3m_closes Demo.d0 1%nat).
  - simpl. lia.
  - vm_compute. discriminate.
Defined.

Lemma gap_pct_direction_witness :
  exists g : float,
    cell_at (emitted Demo.d0 Demo.table) "Gap_Pct" (row_of Demo.d0 Demo.days 1)
    = Some (CFloat g) /\
    (F.gtb g (lit 0) = true <-> (100 < 102)%Q) /\
    (F.ltb g (lit 0) = true <-> (102 < 100)%Q).
Proof.
  apply (gap_pct_direction Demo.root Demo.est true Demo.days
           Demo.opens Demo.highs Demo.lows Demo.closes [3; 3; -3]
           Demo.vix_opens Demo.vix_closes Demo.vix_highs Demo.vix_lows
           Demo.missing Demo.missing Demo.vix3m_opens Demo.vix3m_closes Demo.d0 1%nat
           102%Q 100%Q).
  - simpl. lia.
  - vm_compute. discriminate.
  - vm_compute. reflexivity.
  - vm_compute. reflexivity.
  - reflexivity.
Defined.

Lemma first_row_has_no_history_witness :
  cell_at (emitted Demo.d0 Demo.table) "Prior_Close" 0 = Some (CFloat NaN) /\
  cell_at (emitted Demo.d0 Demo.table) "Gap_Pct" 0 = Some (CFloat NaN) /\
  cell_at (emitted Demo.d0 Demo.table) "Total_Return_Pct" 0 = Some (CFloat NaN) /\
  cell_at (emitted Demo.d0 Demo.table) "Consecutive_Days" 0 = Some (CInt 0).
Proof.
  apply (first_row_has_no_history Demo.root Demo.est true Demo.days
           Demo.opens Demo.highs Demo.lows Demo.closes [3; 3; -3]
           Demo.vix_opens Demo.vix_closes Demo.vix_highs Demo.vix_lows
           Demo.missing Demo.missing Demo.vix3m_opens Demo.vix3m_closes Demo.d0).
  - simpl. lia.
  - vm_compute. discriminate.
Defined.
